(* ===== verification/_CoqProject ===== *)
-Q . S2P
Prelude.v
Chars.v
Regex.v
Patterns.v
Backtrack.v
Pydantic.v
Classes.v
Collaborators.v
Schemas.v
UpdateUser.v
Contracts.v
Dumps.v
