(* ===== verification/Prelude.v ===== *)
(** * Verification of [src/backend/src/schemas/user/schemas.py]

    ** The program

    [schemas.py] declares the pydantic v2 models of the user and
    authentication endpoints: registration ([UserBody]), login
    ([LoginUserBody]), Google OAuth callback ([CallbackGoogleBody],
    [CallbackGooglePublic]), profile update ([UpdateUserBody]), logout
    ([LogoutUserPublic]), token refresh ([RefreshPublic]) and the public
    projections ([UserPublic], [UsersPublic], [LoginUserPublic]).  Its
    logic is in three places: the [Field(...)] length constraints, the
    [field_validator]s that call [re.fullmatch] with a password pattern
    (lines 23, 83) and a username pattern (lines 43, 76, 113), and the
    model validator [at_least_one_field] of [UpdateUserBody] (lines 63-71).
    The models run inside pydantic's validation pipeline and call four
    collaborators defined elsewhere: [EmailStr], [check_phone_number],
    [RoleEnum] and [PaginationSchema].

    ** The library, in dependency order

    - [Prelude] (this file): Python strings as lists of code points
      ([ustr]), outcomes of Python calls ([pyres]: a value or a raised
      exception) with a bind notation in [pyval_scope], the tactics and
      hint databases ([pyval], [pyval_rw]) and shared list lemmas.
    - [Chars]: the character predicates of Python's [re] for a [str]
      pattern: [\d] is the Unicode category Nd (a table of 66 blocks,
      Unicode 14.0 as in CPython 3.11), [.] is any code point but U+000A.
    - [Regex]: [re.fullmatch].  A regex syntax with [{m,n}], its language
      as an inductive relation [matches], Brzozowski derivatives
      ([deriv], [matchb], [prefix_matchb] for lookaheads) proved to decide
      it ([deriv_spec], [matchb_spec], [prefix_matchb_spec]), and
      [fullmatch] on patterns [^(?=...)*body$] ([fullmatch_spec],
      [fullmatch_reflect]).  A backtracking engine and the set semantics
      give the same answer on these patterns (no backreferences or atomic
      groups), so the model is the answer of CPython's [re].
    - [Patterns]: the two patterns of [schemas.py] as syntax trees, and
      their languages in plain terms: [password_fullmatch_iff] (length 8
      to 64, only [A-Za-z], decimal digits and [@$!%*?&], one of each kind)
      and [username_fullmatch_iff] (an ASCII letter first, then letters,
      digits, [.] and [_], each separator followed by a letter or digit),
      through the automaton [username_tail]; [username_rejections].
    - [Backtrack]: the search order of CPython's backtracking engine
      ([bt]: the end positions a depth-first search reaches, greedy
      repetitions first), proved to give the answer of [fullmatch]
      ([bt_spec], [bt_fullmatch_equiv]), and the number of end positions
      it tests ([bt_tries]), exactly [2^n - 1] on [a^n!] against the
      username pattern ([username_tries_a_run]), and at most [2^n - 1]
      on any string of length [n] ([validator_cost_bounds]).
    - [Pydantic]: the validation pipeline: JSON values, the model input
      (a dict as a stdpp [gmap], or another value), errors with locations,
      the outcome [vres] (value, list of errors, or escaping exception),
      [str] fields with [min_length]/[max_length], [Optional], required and
      optional fields, mode-"after" validators ([after]), lists, and the
      accumulation of the errors of all fields ([vpair]).
    - [Classes]: the class statements (bases and annotated fields),
      Python's C3 linearisation ([merge], [mro]) and pydantic's collection
      of fields over the reversed MRO ([model_fields]), and the fuel
      lemma of the merge ([merge_terminates]).
    - [Collaborators]: type classes for the four collaborators, with the
      laws the theorems need (a normalised email validates to itself, a
      role's JSON value validates to it), and [Sample] implementations
      used only by the witnesses.
    - [Schemas]: one Module per class ([UserSchema], [PasswordSchema],
      [UserBody], [LoginUserBody], [UserPublic], [UsersPublic],
      [CallbackGoogleBody], [LogoutUserPublic], [RefreshPublic],
      [CallbackGooglePublic], [LoginUserPublic]) with a Record of its
      validated fields, its validators translated line by line, and its
      [model_validate], whose fields come in the order [Classes] computes.
    - [UpdateUser]: [UpdateUserBody], with its before-validator and its
      three [None]-tolerant field validators, and the invariant every
      validated update carries ([update_result_has_field]).
    - [Contracts]: the outcome section 7 of the spec promises, as the
      predicate [spec_refines], and the type class [SchemaContract] over a
      Record [schema_model] (a class's [model_validate] and its declared
      field names) with three laws: a non-dict gives one root
      [model_type] error, a dict gives errors under the class's own
      fields, keys outside them are ignored.  Clients are proved against
      the class ([contract_refines], [contract_ignores_other_keys]); one
      [Instance] per schema class discharges it, through the soundness
      lemmas of the field validators.
      A second class, [FieldOrderedErrors], bounds the errors: at most
      one per field, under its key, in field order ([keyed]), proved for
      each schema by the [solve_keyed] tactic from one lemma per combinator.
      [schema_field_orders] links the field order written into each
      [model_validate] to the order [Classes.model_fields] computes from
      the class statements.
    - [Dumps]: [model_dump(mode="json")] (the dumps themselves are
      declared next to each schema, [None] written [null] by [opt_json])
      and the round trip: [revalidates f enc] for each kind of field,
      carried through [required_field], [optional_field], [vpair] and
      [vmap], gives one [DumpRoundtrip] instance per schema
      ([solve_roundtrip]); the update body has its own proof, which needs
      the invariant that a validated update has a truthy field.

    ** How the parts interact

    A request body reaches a model as a [model_input].  [model_validate]
    checks each field in order with the [Pydantic] combinators; a field's
    [Field(...)] constraint runs first, then its [field_validator], which
    for [username] and [password] calls [fullmatch] on a pattern of
    [Patterns]; [EmailStr], [check_phone_number] and [RoleEnum] are called
    through [Collaborators].  [UpdateUserBody] first runs its mode-"before"
    validator on the raw input.  The errors of all fields are collected;
    only an exception other than [ValueError]/[AssertionError] escapes.

    ** What is proved

    - the password and username fields on every input, errors included
      ([password_field_spec], [userbody_username_field_spec]), and the
      rejections the spec lists ([password_rejections],
      [username_rejections]), among them the example value ["12345678"]
      the file itself documents for [password];
    - the update body: the at-least-one rule by truthiness
      ([update_requires_one_field]), acceptance exactly when every field
      passes ([update_accepts]), and the only
      escaping exception being the [AttributeError] on a non-dict body
      ([update_escapes_only_on_non_dict]);
    - registration: acceptance exactly when each field is valid
      ([userbody_accepts]), errors in field order with no exception
      escaping ([userbody_errors_in_field_order]), any other key ignored
      ([userbody_ignores_other_keys]), [LoginUserBody] validating exactly
      as [UserBody] ([login_body_equiv]);
    - catastrophic backtracking: a 25-code-point username that passes the
      length check costs [2^24 - 1] end-position tests before it is
      rejected ([username_redos]), and no string within the length
      check costs more than [2^25 - 1], while the password pattern never
      costs more than 57 ([validator_cost_bounds]);
    - the public projection: the [password] key never matters and never
      appears ([userpublic_has_no_password]), dump/validate round trip
      ([userpublic_dump_roundtrip]), registration to public round trip
      ([register_then_public]), pages of users, each item an object with
      the fields of [UserPublic] ([userspublic_accepts]);
    - the class hierarchy: for every dict lacking the fields of a class,
      [model_validate] reports one [missing] error per field in exactly
      the order pydantic computes from the class statements by C3
      ([schema_field_orders]);
    - refinement: every schema but [UpdateUserBody] and [UsersPublic]
      implements the outcome of the spec ([schemas_refine_spec]);
    - the type invariant of the update body: an accepted update has one
      of [username], [password], [phoneNumber] ([update_result_has_field]).
    - round trips: the JSON dump of every validated value validates back
      to it ([schemas_dump_roundtrip]), and the same for the update body
      when [check_phone_number] returns a canonical form it accepts
      ([update_dump_roundtrip]);
    - bounds on the errors: a dict gets at most one error per field, in
      field order, so at most as many errors as the schema has fields
      ([schemas_errors_per_field]); the update body keeps that bound once
      its model validator passes, and never gets more than four errors
      ([update_errors_per_field]).

    ** Bounds and fuel

    Every function of the model is structurally recursive but three, which
    take fuel that provably suffices: the star of [Backtrack] gets the
    length of the string (each followed iteration consumes a character,
    [bt_star_fuel] shows more fuel changes nothing); [Classes.merge] gets
    the total length of its sequences (each step removes a head) and
    [Classes.mro] the number of classes (the depth of an acyclic
    hierarchy).  [merge_terminates] proves the fuel of [merge] enough on
        every input, not only on the file's classes, and every class of the
    file gets its MRO within it ([schema_field_orders] computes them).

    ** Not modelled

    The web framework, the database and the token code are outside the
    file.  [EmailStr] (a library), [check_phone_number], [RoleEnum] and
    [PaginationSchema] (repository code not in the sources given) are
    interfaces, not implementations.  [Schema] and [PublicSchema] are
    assumed to derive from [BaseModel], add no field and keep the default
    configuration ([extra="ignore"], no whitespace stripping).  The cost
    model of [Backtrack] counts end positions, not [sre] instructions, and
    leaves out [sre]'s literal-prefix optimisations, which do not apply to
    these patterns.  [UsersPublic] has no [SchemaContract],
    [FieldOrderedErrors] or [DumpRoundtrip] instance: its pagination
    fields come from [PaginationSchema], whose field names are not in
    the sources, and its [data] list reports one error per bad item.
    [model_dump] is modelled in JSON mode with the default options only
    ([exclude], [by_alias] and [exclude_none] are never passed in the
    file).  There are no liveness properties: validation is
    a synchronous, terminating function with no state, no loop waiting
    on an event and no concurrency (section 5 of the spec), and every
    function of the model is total.  Of [schemas.py] itself only the
    imports (lines 1-12) have no definition of their own: what they
    bring in is the [Regex] model of [re] and the interfaces of
    [Collaborators].  The parsing of the JSON text ([json.loads], whose
    dict is [dict_of]) and the routing of FastAPI are outside the file. *)

(** ** Prelude: vocabulary shared by every component of the development

    Python strings as code points, outcomes of Python calls, tactics,
    hint databases and generic lemmas. *)

From stdpp Require Export base list gmap strings.
From Stdlib Require Export ZArith Lia Ascii Bool.

Declare Scope pyval_scope.
Delimit Scope pyval_scope with py.
Open Scope pyval_scope.

Create HintDb pyval.
Create Rewrite HintDb pyval_rw.

(** ** Python strings *)

Definition codepoint := Z.
Definition ustr := list codepoint.

(** An ASCII literal as the code points Python would see. *)
Fixpoint py (s : string) : ustr :=
  match s with
  | EmptyString => []
  | String a s' => Z.of_nat (nat_of_ascii a) :: py s'
  end.

(** [len(value)] of a Python [str]. *)
Definition py_len (s : ustr) : nat := length s.

(** ** Outcomes of Python calls *)

(** The exceptions the modelled code can raise.  Pydantic turns
    [ValueError] and [AssertionError] raised by a validator into a
    validation error; any other exception escapes the validation. *)
Inductive pyexn :=
| ValueError (msg : string)
| AssertionError (msg : string)
| OtherError (name : string).

Inductive pyres (A : Type) :=
| Ret (a : A)
| Exc (e : pyexn).
Arguments Ret {A} a.
Arguments Exc {A} e.

Definition pyres_bind {A B} (m : pyres A) (k : A -> pyres B) : pyres B :=
  match m with
  | Ret a => k a
  | Exc e => Exc e
  end.

Notation "x <- m ;; k" := (pyres_bind m (fun x => k))
  (at level 60, m at next level, right associativity) : pyval_scope.

(** [raise ValueError(msg)] inside a validator. *)
Definition raise_value_error {A} (msg : string) : pyres A := Exc (ValueError msg).

(** ** Tactics *)

Ltac invc H := inversion H; subst; clear H.

(** Turn boolean conjunctions, disjunctions and comparisons into
    propositions, in the goal and in all hypotheses. *)
Ltac bool_to_prop :=
  repeat (rewrite ?andb_true_iff, ?orb_true_iff, ?negb_true_iff, ?Z.leb_le,
            ?Z.eqb_eq, ?Nat.leb_le, ?Nat.eqb_eq in *).

Ltac py_simpl :=
  repeat match goal with
  | H : _ /\ _ |- _ => destruct H
  | H : exists _, _ |- _ => destruct H
  | H : Ret _ = Ret _ |- _ => injection H as H
  | H : Ret _ = Exc _ |- _ => discriminate H
  | H : Exc _ = Ret _ |- _ => discriminate H
  end; subst.

(** ** Generic lemmas *)

Lemma pyres_bind_Ret {A B} (m : pyres A) (k : A -> pyres B) b :
  pyres_bind m k = Ret b <-> exists a, m = Ret a /\ k a = Ret b.
Proof.
  destruct m as [a|e]; simpl; split.
  - intros H; eauto.
  - intros (a' & Ha & Hk); injection Ha as <-; exact Hk.
  - discriminate.
  - intros (a' & Ha & _); discriminate.
Qed.

Lemma py_app s1 s2 : py (s1 ++ s2)%string = py s1 ++ py s2.
Proof. induction s1 as [|a s1 IH]; simpl; [done|]. by rewrite IH. Qed.

Lemma py_length s : length (py s) = String.length s.
Proof. induction s; simpl; auto. Qed.

Lemma existsb_true_iff {A} (f : A -> bool) (l : list A) :
  existsb f l = true <-> Exists (fun x => f x = true) l.
Proof. rewrite existsb_exists, Exists_exists. setoid_rewrite <- list_elem_of_In. done. Qed.

Lemma forallb_true_iff {A} (f : A -> bool) (l : list A) :
  forallb f l = true <-> Forall (fun x => f x = true) l.
Proof. rewrite forallb_forall, Forall_forall. setoid_rewrite <- list_elem_of_In. done. Qed.

Lemma Forall_cons_iff' {A} (P : A -> Prop) x (l : list A) :
  Forall P (x :: l) <-> P x /\ Forall P l.
Proof. split; [by inversion 1|]. intros []; by constructor. Qed.

#[export] Hint Rewrite @Forall_cons_iff' @Forall_app @Exists_app
  @existsb_true_iff @forallb_true_iff : pyval_rw.
#[export] Hint Resolve Forall_nil_2 : pyval.

Lemma cons_singleton_iff {A} (P : A -> bool) (c : A) (s : list A) :
  (exists x, c :: s = [x] /\ P x = true) <-> s = [] /\ P c = true.
Proof.
  split; [intros (x & E & H); by injection E as -> ->|intros [-> H]; eauto].
Qed.

(** A boolean test true somewhere is not false everywhere. *)
Lemma Exists_Forall_false {A} (f : A -> bool) (l : list A) :
  Exists (fun x => f x = true) l -> Forall (fun x => f x = false) l -> False.
Proof.
  rewrite Exists_exists, Forall_forall. intros (x & Hx & Ht) Hf. by rewrite Hf in Ht.
Qed.
