(* ===== verification/Chars.v ===== *)
(** * Chars: the character predicates of Python's [re] module

    The two patterns of [schemas.py] use ASCII ranges ([a-z], [A-Z],
    [0-9]), literal characters, the class [\d] and the wildcard [.].
    For a [str] pattern without flags, Python's [re] gives

    - [\d] the Unicode category Nd (every character whose
      [unicodedata.decimal] is defined).  These characters come in 66
      blocks of ten consecutive code points, [DECIMAL_BLOCKS] lists the
      first code point of each, as in the Unicode 14.0 tables of
      CPython 3.11;
    - [.] every code point except the newline U+000A. *)

From S2P Require Import Prelude.

Local Open Scope Z_scope.

Definition in_range (lo hi c : codepoint) : bool := (lo <=? c)%Z && (c <=? hi)%Z.

#[global] Arguments in_range : simpl never.

Definition NEWLINE : codepoint := 10%Z.

(** First code point (the digit zero) of each block of Unicode decimal
    digits. *)
Definition DECIMAL_BLOCKS : list Z :=
  [48; 1632; 1776; 1984; 2406; 2534; 2662; 2790; 2918; 3046; 3174; 3302;
   3430; 3558; 3664; 3792; 3872; 4160; 4240; 6112; 6160; 6470; 6608; 6784;
   6800; 6992; 7088; 7232; 7248; 42528; 43216; 43264; 43472; 43504; 43600;
   44016; 65296; 66720; 68912; 69734; 69872; 69942; 70096; 70384; 70736;
   70864; 71248; 71360; 71472; 71904; 72016; 72784; 73040; 73120; 92768;
   92864; 93008; 120782; 120792; 120802; 120812; 120822; 123200; 123632;
   125264; 130032]%Z.

(** [\d] in a [str] pattern. *)
Definition is_decimal (c : codepoint) : bool :=
  existsb (fun z => in_range z (z + 9) c) DECIMAL_BLOCKS.

#[global] Arguments is_decimal : simpl never.

(** [.] without [re.DOTALL]. *)
Definition dot_matches (c : codepoint) : bool := negb (c =? NEWLINE)%Z.

Definition is_ascii_lower (c : codepoint) : bool := in_range 97 122 c.
Definition is_ascii_upper (c : codepoint) : bool := in_range 65 90 c.
Definition is_ascii_digit (c : codepoint) : bool := in_range 48 57 c.

Lemma in_range_iff lo hi c : in_range lo hi c = true <-> (lo <= c <= hi)%Z.
Proof. unfold in_range. bool_to_prop. lia. Qed.

#[export] Hint Rewrite in_range_iff : pyval_rw.

(** The ASCII digits are decimal digits, and they are the only ones below
    U+0080. *)
Lemma ascii_digit_is_decimal c : is_ascii_digit c = true -> is_decimal c = true.
Proof.
  unfold is_ascii_digit, is_decimal. intros H. apply existsb_exists.
  exists 48. split; [left; reflexivity | exact H].
Qed.

Lemma decimal_below_128 c :
  is_decimal c = true -> (c < 128)%Z -> is_ascii_digit c = true.
Proof.
  unfold is_decimal, is_ascii_digit. rewrite existsb_exists.
  intros (z & Hz & Hr) Hc. apply in_range_iff in Hr. apply in_range_iff.
  simpl in Hz. intuition (subst; lia).
Qed.

(** Newlines are not decimal digits. *)
Lemma decimal_not_newline c : is_decimal c = true -> dot_matches c = true.
Proof.
  unfold is_decimal, dot_matches, NEWLINE. rewrite existsb_exists.
  intros (z & Hz & Hr). apply in_range_iff in Hr. apply negb_true_iff, Z.eqb_neq.
  simpl in Hz. intuition (subst; lia).
Qed.
