(* ===== verification/Regex.v ===== *)
(** * Regex: the [re.fullmatch] calls of the validators

    [schemas.py] checks a password and a username with
    [re.fullmatch(PATTERN, value)].  This file models that library call:

    - [regex] is the syntax of the patterns: character classes,
      concatenation, alternation, [*] and the bounded repetition
      [{m,n}] ([?] is [{0,1}] and [+] is [r r*], as in CPython's
      [sre_parse]);
    - [matches] is the language of a regex, an inductive relation;
    - [deriv], [matchb] and [prefix_matchb] decide it with Brzozowski
      derivatives, and [matchb_spec] proves that they agree with
      [matches];
    - [pattern] adds the lookaheads [(?=...)] that open the password
      pattern, and [fullmatch] is [re.fullmatch].

    CPython's engine backtracks, but a backtracking search over these
    constructs (no backreferences, no atomic groups, no possessive
    quantifiers) finds a match exactly when one exists, so the answer of
    [re.fullmatch] is the one of the relational semantics.  [^] at
    position 0 and [$] at the end of the string always hold under
    [fullmatch], so they are not represented. *)

From S2P Require Import Prelude Chars.

Local Open Scope Z_scope.

(** ** Syntax *)

(** Items of a character class [[...]]. *)
Inductive citem :=
| CChar (x : codepoint)            (** a literal such as [@] *)
| CRange (lo hi : codepoint)       (** a range such as [a-z] *)
| CDigit.                          (** [\d] *)

Definition citem_matches (c : codepoint) (it : citem) : bool :=
  match it with
  | CChar x => c =? x
  | CRange lo hi => in_range lo hi c
  | CDigit => is_decimal c
  end.

Definition class_matches (cls : list citem) (c : codepoint) : bool :=
  existsb (citem_matches c) cls.

Inductive regex :=
| RVoid                            (** no string; only built by [deriv] *)
| REps                             (** the empty string *)
| RClass (cls : list citem)        (** [[...]] and [\d] *)
| RDot                             (** [.] *)
| RCat (r1 r2 : regex)
| RAlt (r1 r2 : regex)
| RStar (r : regex)                (** [r*] *)
| RRep (m n : nat) (r : regex).    (** [r{m,n}] *)

Definition RPlus (r : regex) : regex := RCat r (RStar r).
Definition ROpt (r : regex) : regex := RRep 0 1 r.

(** ** Semantics *)

(** [RRep m n r] matches the concatenations of [k] strings of [r] with
    [m <= k <= n]: [MRepS] consumes one copy and decrements both bounds. *)
Inductive matches : regex -> ustr -> Prop :=
| MEps : matches REps []
| MClass cls c : class_matches cls c = true -> matches (RClass cls) [c]
| MDot c : dot_matches c = true -> matches RDot [c]
| MCat r1 r2 s1 s2 :
    matches r1 s1 -> matches r2 s2 -> matches (RCat r1 r2) (s1 ++ s2)
| MAltL r1 r2 s : matches r1 s -> matches (RAlt r1 r2) s
| MAltR r1 r2 s : matches r2 s -> matches (RAlt r1 r2) s
| MStar0 r : matches (RStar r) []
| MStarS r s1 s2 :
    matches r s1 -> matches (RStar r) s2 -> matches (RStar r) (s1 ++ s2)
| MRep0 r n : matches (RRep 0 n r) []
| MRepS r m n s1 s2 :
    matches r s1 -> matches (RRep (Nat.pred m) n r) s2 ->
    matches (RRep m (S n) r) (s1 ++ s2).

#[export] Hint Constructors matches : pyval.

(** ** Derivatives *)

Fixpoint nullable (r : regex) : bool :=
  match r with
  | RVoid | RClass _ | RDot => false
  | REps | RStar _ => true
  | RCat r1 r2 => nullable r1 && nullable r2
  | RAlt r1 r2 => nullable r1 || nullable r2
  | RRep m n r => (m =? 0)%nat || ((m <=? n)%nat && nullable r)
  end.

Definition is_void (r : regex) : bool := if r is RVoid then true else false.
Definition is_eps (r : regex) : bool := if r is REps then true else false.

(** Concatenation and alternation that drop [RVoid] and [REps], so that
    the derivatives of a pattern stay small. *)
Definition cat (r1 r2 : regex) : regex :=
  if is_void r1 || is_void r2 then RVoid
  else if is_eps r1 then r2
  else if is_eps r2 then r1
  else RCat r1 r2.

Definition alt (r1 r2 : regex) : regex :=
  if is_void r1 then r2 else if is_void r2 then r1 else RAlt r1 r2.

Fixpoint deriv (c : codepoint) (r : regex) : regex :=
  match r with
  | RVoid | REps => RVoid
  | RClass cls => if class_matches cls c then REps else RVoid
  | RDot => if dot_matches c then REps else RVoid
  | RCat r1 r2 =>
      if nullable r1 then alt (cat (deriv c r1) r2) (deriv c r2)
      else cat (deriv c r1) r2
  | RAlt r1 r2 => alt (deriv c r1) (deriv c r2)
  | RStar r1 => cat (deriv c r1) (RStar r1)
  | RRep m n r1 =>
      match n with
      | O => RVoid
      | S n' => cat (deriv c r1) (RRep (Nat.pred m) n' r1)
      end
  end.

Fixpoint derivs (s : ustr) (r : regex) : regex :=
  match s with
  | [] => r
  | c :: s' => derivs s' (deriv c r)
  end.

(** Does [r] match all of [s]? *)
Definition matchb (r : regex) (s : ustr) : bool := nullable (derivs s r).

(** Does [r] match some prefix of [s]?  This is a lookahead [(?=r)] at
    the start of [s]. *)
Fixpoint prefix_matchb (r : regex) (s : ustr) : bool :=
  nullable r ||
  match s with
  | [] => false
  | c :: s' => prefix_matchb (deriv c r) s'
  end.

(** ** Patterns and [re.fullmatch] *)

(** A pattern [^(?=l1)...(?=lk)body$]. *)
Record pattern := Pattern { lookaheads : list regex; body : regex }.

Definition fullmatch (p : pattern) (s : ustr) : bool :=
  forallb (fun la => prefix_matchb la s) (lookaheads p) && matchb (body p) s.

(** The same, as a proposition on the languages. *)
Definition fullmatch_rel (p : pattern) (s : ustr) : Prop :=
  Forall (fun la => exists u v, s = u ++ v /\ matches la u) (lookaheads p) /\
  matches (body p) s.

(** ** Inversion of the semantics *)

Lemma void_inv s : matches RVoid s <-> False.
Proof. split; [inversion 1|done]. Qed.

Lemma eps_inv s : matches REps s <-> s = [].
Proof. split; [by inversion 1|intros ->; constructor]. Qed.

Lemma class_inv cls s :
  matches (RClass cls) s <-> exists c, s = [c] /\ class_matches cls c = true.
Proof. split; [inversion 1; eauto|intros (c & -> & H); by constructor]. Qed.

Lemma dot_inv s : matches RDot s <-> exists c, s = [c] /\ dot_matches c = true.
Proof. split; [inversion 1; eauto|intros (c & -> & H); by constructor]. Qed.

Lemma cat_inv r1 r2 s :
  matches (RCat r1 r2) s <->
  exists s1 s2, s = s1 ++ s2 /\ matches r1 s1 /\ matches r2 s2.
Proof. split; [inversion 1; eauto|intros (s1 & s2 & -> & H1 & H2); by constructor]. Qed.

Lemma alt_inv r1 r2 s : matches (RAlt r1 r2) s <-> matches r1 s \/ matches r2 s.
Proof. split; [inversion 1; eauto|intros [H|H]; eauto with pyval]. Qed.

Create Rewrite HintDb regex_inv.
#[export] Hint Rewrite void_inv eps_inv class_inv dot_inv cat_inv alt_inv : regex_inv.

(** A star of [r] that matches a non-empty string starts with a copy of
    [r] that matches a non-empty prefix. *)
Lemma star_cons_inv r c s :
  matches (RStar r) (c :: s) ->
  exists s1 s2, s = s1 ++ s2 /\ matches r (c :: s1) /\ matches (RStar r) s2.
Proof.
  intros H. remember (RStar r) as rs eqn:Er. remember (c :: s) as cs eqn:Ecs.
  revert r c s Er Ecs. induction H; intros r' c' s' Er Ecs; try discriminate.
  injection Er as <-. destruct s1 as [|x s1]; simpl in Ecs.
  - eapply IHmatches2; eauto.
  - injection Ecs as Hx Hs. subst. eauto.
Qed.

(** The same for a bounded repetition, which also uses up one unit of
    each bound. *)
Lemma rep_cons_inv r m n c s :
  matches (RRep m n r) (c :: s) ->
  exists n' s1 s2, n = S n' /\ s = s1 ++ s2 /\ matches r (c :: s1) /\
                   matches (RRep (Nat.pred m) n' r) s2.
Proof.
  intros H. remember (RRep m n r) as rr eqn:Er. remember (c :: s) as cs eqn:Ecs.
  revert m n r c s Er Ecs. induction H; intros m' n' r' c' s' Er Ecs; try discriminate.
  injection Er as <- <- <-. destruct s1 as [|x s1]; simpl in Ecs.
  - destruct (IHmatches2 _ _ _ _ _ eq_refl Ecs) as (n'' & t1 & t2 & -> & -> & H1 & H2).
    exists (S n''), t1, t2. repeat split; auto.
    apply (MRepS r (Nat.pred m) n'' [] t2); assumption.
  - injection Ecs as Hx Hs. subst. eauto 7.
Qed.

(** [k] empty copies of a nullable [r] make [r{m,n}] nullable. *)
Lemma rep_nil r m n : matches r [] -> (m <= n)%nat -> matches (RRep m n r) [].
Proof.
  intros Hr. revert n. induction m as [|m IH]; intros n Hmn; [constructor|].
  destruct n as [|n]; [lia|]. apply (MRepS r (S m) n [] []); [done|]. apply IH. lia.
Qed.

Lemma nullable_spec r : nullable r = true <-> matches r [].
Proof.
  split.
  - induction r as [| | | |r1 IH1 r2 IH2|r1 IH1 r2 IH2|r IH|m n r IH];
      simpl; intros H; bool_to_prop; try discriminate; eauto with pyval.
    + apply (MCat r1 r2 [] []); tauto.
    + destruct H; eauto with pyval.
    + destruct H as [->|[Hmn Hr]]; [constructor|]. by apply rep_nil; auto.
  - intros H. remember (@nil codepoint) as e eqn:Ee.
    induction H; simpl; try discriminate; bool_to_prop; auto.
    + apply app_eq_nil in Ee as [-> ->]. auto.
    + apply app_eq_nil in Ee as [-> ->].
      specialize (IHmatches2 eq_refl). simpl in IHmatches2. bool_to_prop.
      destruct m as [|m]; [by left|right]. split; [|auto]. lia.
Qed.

(** ** Smart constructors *)

Lemma is_void_true r : is_void r = true -> r = RVoid.
Proof. by destruct r. Qed.

Lemma is_eps_true r : is_eps r = true -> r = REps.
Proof. by destruct r. Qed.

Lemma cat_spec r1 r2 s : matches (cat r1 r2) s <-> matches (RCat r1 r2) s.
Proof.
  unfold cat. rewrite cat_inv.
  destruct (is_void r1) eqn:V1; [apply is_void_true in V1; subst|].
  { simpl. setoid_rewrite void_inv. naive_solver. }
  destruct (is_void r2) eqn:V2; [apply is_void_true in V2; subst|].
  { simpl. setoid_rewrite void_inv. naive_solver. }
  simpl.
  destruct (is_eps r1) eqn:E1; [apply is_eps_true in E1; subst|].
  { setoid_rewrite eps_inv. split; [exists [], s|]; naive_solver. }
  destruct (is_eps r2) eqn:E2; [apply is_eps_true in E2; subst|].
  { setoid_rewrite eps_inv. split.
    - intros H. exists s, []. by rewrite app_nil_r.
    - intros (s1 & s2 & -> & H & ->). by rewrite app_nil_r. }
  apply cat_inv.
Qed.

Lemma alt_spec r1 r2 s : matches (alt r1 r2) s <-> matches (RAlt r1 r2) s.
Proof.
  unfold alt. rewrite alt_inv.
  destruct (is_void r1) eqn:V1; [apply is_void_true in V1; subst; rewrite void_inv; tauto|].
  destruct (is_void r2) eqn:V2; [apply is_void_true in V2; subst; rewrite void_inv; tauto|].
  apply alt_inv.
Qed.

#[export] Hint Rewrite cat_spec alt_spec : regex_inv.

(** ** Correctness of the derivatives *)

(** [deriv c r] matches exactly the strings [s] such that [r] matches
    [c :: s]. *)
Lemma deriv_spec c r s : matches (deriv c r) s <-> matches r (c :: s).
Proof.
  revert s.
  induction r as [| |cls| |r1 IH1 r2 IH2|r1 IH1 r2 IH2|r IH|m n r IH]; intros s; simpl.
  - rewrite !void_inv. done.
  - rewrite void_inv, eps_inv. done.
  - rewrite class_inv, cons_singleton_iff.
    destruct (class_matches cls c); rewrite ?eps_inv, ?void_inv; intuition congruence.
  - rewrite dot_inv, cons_singleton_iff.
    destruct (dot_matches c); rewrite ?eps_inv, ?void_inv; intuition congruence.
  - rewrite cat_inv. destruct (nullable r1) eqn:N.
    + rewrite alt_spec, alt_inv, cat_spec, cat_inv, IH2. setoid_rewrite IH1. split.
      * intros [(s1 & s2 & -> & H1 & H2)|H].
        -- by exists (c :: s1), s2.
        -- exists [], (c :: s). split; [done|]. by rewrite <- nullable_spec.
      * intros ([|x s1] & s2 & E & H1 & H2); simpl in E; subst; [by right|].
        injection E as -> ->. left. eauto.
    + rewrite cat_spec, cat_inv. setoid_rewrite IH1. split.
      * intros (s1 & s2 & -> & H1 & H2). by exists (c :: s1), s2.
      * intros ([|x s1] & s2 & E & H1 & H2).
        -- apply nullable_spec in H1. congruence.
        -- injection E as -> ->. eauto.
  - rewrite alt_spec, !alt_inv, IH1, IH2. done.
  - rewrite cat_spec, cat_inv. setoid_rewrite IH. split.
    + intros (s1 & s2 & -> & H1 & H2). apply (MStarS r (c :: s1) s2); done.
    + apply star_cons_inv.
  - destruct n as [|n].
    + rewrite void_inv. split; [done|].
      intros H. apply rep_cons_inv in H as (n' & _ & _ & ? & _). discriminate.
    + rewrite cat_spec, cat_inv. setoid_rewrite IH. split.
      * intros (s1 & s2 & -> & H1 & H2). apply (MRepS r m n (c :: s1) s2); done.
      * intros H. apply rep_cons_inv in H as (n' & s1 & s2 & E & -> & H1 & H2).
        injection E as <-. eauto.
Qed.

Lemma derivs_spec s r t : matches (derivs s r) t <-> matches r (s ++ t).
Proof.
  revert r. induction s as [|c s IH]; intros r; simpl; [done|].
  rewrite IH, deriv_spec. done.
Qed.

(** The executable matcher decides the language. *)
Theorem matchb_spec r s : matchb r s = true <-> matches r s.
Proof.
  unfold matchb. rewrite nullable_spec, derivs_spec, app_nil_r. done.
Qed.

(** The lookahead test finds a prefix of [s] in the language of [r]. *)
Theorem prefix_matchb_spec r s :
  prefix_matchb r s = true <-> exists u v, s = u ++ v /\ matches r u.
Proof.
  revert r. induction s as [|c s IH]; intros r; simpl.
  - rewrite orb_false_r, nullable_spec. split; [intros H; by exists [], []|].
    intros (u & v & E & H). symmetry in E. apply app_eq_nil in E as [-> ->]. done.
  - rewrite orb_true_iff, nullable_spec, IH. setoid_rewrite deriv_spec. split.
    + intros [H|(u & v & -> & H)]; [exists [], (c :: s)|exists (c :: u), v]; done.
    + intros ([|x u] & v & E & H); [by left|]. injection E as -> ->. right. eauto.
Qed.

(** [re.fullmatch] answers the question of the relational semantics. *)
Theorem fullmatch_spec p s : fullmatch p s = true <-> fullmatch_rel p s.
Proof.
  unfold fullmatch, fullmatch_rel. rewrite andb_true_iff, forallb_true_iff, matchb_spec.
  setoid_rewrite prefix_matchb_spec. done.
Qed.

(** ** Languages of the derived forms used by the validators *)

(** [[...]*] matches the strings whose characters are all in the class. *)
Lemma star_class_spec cls s :
  matches (RStar (RClass cls)) s <-> Forall (fun c => class_matches cls c = true) s.
Proof.
  split.
  - intros H. remember (RStar (RClass cls)) as r eqn:Er. revert Er.
    induction H; intros Er; try discriminate; [constructor|].
    injection Er as ->. apply class_inv in H as (c & -> & Hc). simpl. constructor; auto.
  - induction 1 as [|c s Hc _ IH]; [constructor|].
    apply (MStarS _ [c] s); [by constructor|done].
Qed.

(** [.*] matches the strings without a newline. *)
Lemma star_dot_spec s :
  matches (RStar RDot) s <-> Forall (fun c => dot_matches c = true) s.
Proof.
  split.
  - intros H. remember (RStar RDot) as r eqn:Er. revert Er.
    induction H; intros Er; try discriminate; [constructor|].
    injection Er as ->. apply dot_inv in H as (c & -> & Hc). simpl. constructor; auto.
  - induction 1 as [|c s Hc _ IH]; [constructor|].
    apply (MStarS _ [c] s); [by constructor|done].
Qed.

(** [[...]{m,n}] matches the strings of [m] to [n] characters of the
    class. *)
Lemma rep_class_spec cls m n s :
  matches (RRep m n (RClass cls)) s <->
  (m <= length s <= n)%nat /\ Forall (fun c => class_matches cls c = true) s.
Proof.
  split.
  - intros H. remember (RRep m n (RClass cls)) as r eqn:Er. revert m n Er.
    induction H; intros m' n' Er; try discriminate.
    + injection Er as <- <-. split; [simpl; lia|constructor].
    + injection Er as <- <- ->. apply class_inv in H as (c & -> & Hc).
      destruct (IHmatches2 _ _ eq_refl) as [Hl Hf]. simpl. split; [lia|by constructor].
  - revert m n. induction s as [|c s IH]; intros m n [Hl Hf].
    + simpl in Hl. assert (m = 0)%nat as -> by lia. constructor.
    + simpl in Hl. destruct n as [|n]; [lia|]. inversion Hf; subst.
      apply (MRepS _ m n [c] s); [by constructor|]. apply IH. split; [lia|done].
Qed.

(** The lookahead [(?=.*[...])] holds when a character of the class
    occurs after a newline-free prefix. *)
Lemma lookahead_class_spec cls s :
  (exists u v, s = u ++ v /\ matches (RCat (RStar RDot) (RClass cls)) u) <->
  (exists u c v, s = u ++ c :: v /\
     Forall (fun x => dot_matches x = true) u /\ class_matches cls c = true).
Proof.
  setoid_rewrite cat_inv. setoid_rewrite star_dot_spec. setoid_rewrite class_inv.
  split.
  - intros (u & v & -> & u1 & u2 & -> & Hu1 & c & -> & Hc).
    exists u1, c, v. rewrite <- app_assoc. done.
  - intros (u & c & v & -> & Hu & Hc).
    exists (u ++ [c]), v. rewrite <- app_assoc. split; [done|]. eauto 10.
Qed.

(** ** The matcher as a decision procedure *)

(** [re.fullmatch] and the matcher reflect the languages: on every
    pattern and string, the boolean answer is [true] exactly when the
    string is in the language, which makes [fullmatch] a decision
    procedure for [fullmatch_rel]. *)
Theorem fullmatch_reflect p s : reflect (fullmatch_rel p s) (fullmatch p s).
Proof. apply iff_reflect. symmetry. apply fullmatch_spec. Qed.
