(* ===== verification/Patterns.v ===== *)
(** * Patterns: the two regular expressions of [schemas.py]

    - [PASSWORD_PATTERN] is the pattern of [validate_password]
      (lines 23 and 83),
      [^(?=.*[a-z])(?=.*[A-Z])(?=.*\d)(?=.*[@$!%*?&])[A-Za-z\d@$!%*?&]{8,64}$];
    - [USERNAME_PATTERN] is the pattern of [validate_username]
      (lines 43, 76 and 113), [^[a-zA-Z][a-zA-Z0-9]*(?:[._]?[a-zA-Z0-9]+)*$].

    Each is written as a [Regex.pattern] item by item, and its language is
    characterised in plain terms: [password_policy] (length 8 to 64, only
    allowed characters, one of each of four kinds) and [username_rules]
    (a leading ASCII letter, letters, digits, [.] and [_] only, every
    separator followed by a letter or digit).  [username_tail] is the
    two-state automaton that links the regex to the rules. *)

From S2P Require Import Prelude Chars Regex.
From Stdlib Require Import Btauto.

Local Open Scope Z_scope.

(** ** The classes of the patterns *)

Definition LOWER_AZ : citem := CRange 97 122.   (** [a-z] *)
Definition UPPER_AZ : citem := CRange 65 90.    (** [A-Z] *)
Definition DIGIT_09 : citem := CRange 48 57.    (** [0-9] *)

(** [@$!%*?&] *)
Definition PASSWORD_SPECIALS : list citem :=
  [CChar 64; CChar 36; CChar 33; CChar 37; CChar 42; CChar 63; CChar 38].

(** [[A-Za-z\d@$!%*?&]] *)
Definition PASSWORD_CHARS : list citem := [UPPER_AZ; LOWER_AZ; CDigit] ++ PASSWORD_SPECIALS.

(** [(?=.*[...])] *)
Definition lookahead_class (cls : list citem) : regex := RCat (RStar RDot) (RClass cls).

Definition PASSWORD_PATTERN : pattern := {|
  lookaheads := [lookahead_class [LOWER_AZ]; lookahead_class [UPPER_AZ];
                 lookahead_class [CDigit]; lookahead_class PASSWORD_SPECIALS];
  body := RRep 8 64 (RClass PASSWORD_CHARS) |}.

(** [[a-zA-Z]], [[a-zA-Z0-9]] and [[._]] *)
Definition USERNAME_FIRST : list citem := [LOWER_AZ; UPPER_AZ].
Definition USERNAME_ALNUM : list citem := [LOWER_AZ; UPPER_AZ; DIGIT_09].
Definition USERNAME_SEPS : list citem := [CChar 46; CChar 95].

(** [(?:[._]?[a-zA-Z0-9]+)] *)
Definition USERNAME_GROUP : regex :=
  RCat (ROpt (RClass USERNAME_SEPS)) (RPlus (RClass USERNAME_ALNUM)).

Definition USERNAME_PATTERN : pattern := {|
  lookaheads := [];
  body := RCat (RClass USERNAME_FIRST)
               (RCat (RStar (RClass USERNAME_ALNUM)) (RStar USERNAME_GROUP)) |}.

(** ** The languages in plain terms *)

Definition is_password_special (c : codepoint) : bool := class_matches PASSWORD_SPECIALS c.

Definition is_password_char (c : codepoint) : bool :=
  is_ascii_upper c || is_ascii_lower c || is_decimal c || is_password_special c.

Definition password_policy (s : ustr) : Prop :=
  (8 <= length s <= 64)%nat /\
  Forall (fun c => is_password_char c = true) s /\
  Exists (fun c => is_ascii_lower c = true) s /\
  Exists (fun c => is_ascii_upper c = true) s /\
  Exists (fun c => is_decimal c = true) s /\
  Exists (fun c => is_password_special c = true) s.

Definition is_ascii_letter (c : codepoint) : bool := is_ascii_lower c || is_ascii_upper c.
Definition is_ascii_alnum (c : codepoint) : bool := is_ascii_letter c || is_ascii_digit c.
Definition is_username_sep (c : codepoint) : bool := (c =? 46) || (c =? 95).

(** The automaton: [after_sep] records that the last character was a
    separator. *)
Fixpoint username_tail (after_sep : bool) (s : ustr) : bool :=
  match s with
  | [] => negb after_sep
  | c :: s' =>
      if is_ascii_alnum c then username_tail false s'
      else if is_username_sep c then negb after_sep && username_tail true s'
      else false
  end.

Definition username_shape (s : ustr) : bool :=
  match s with
  | [] => false
  | c :: s' => is_ascii_letter c && username_tail false s'
  end.

(** Every separator of [s] is followed by a letter or a digit. *)
Definition seps_followed (s : ustr) : Prop :=
  forall u c v, s = u ++ c :: v -> is_username_sep c = true ->
    exists d w, v = d :: w /\ is_ascii_alnum d = true.

Definition username_rules (s : ustr) : Prop :=
  (exists c s', s = c :: s' /\ is_ascii_letter c = true) /\
  Forall (fun c => (is_ascii_alnum c || is_username_sep c) = true) s /\
  seps_followed s.

(** The language of a regex is decidable, through the matcher. *)
#[export] Instance matches_dec r s : Decision (matches r s).
Proof.
  destruct (matchb r s) eqn:E; [left|right]; rewrite <- matchb_spec; congruence.
Defined.

(** ** Character lemmas *)

Lemma class_lower c : class_matches [LOWER_AZ] c = is_ascii_lower c.
Proof. apply orb_false_r. Qed.

Lemma class_upper c : class_matches [UPPER_AZ] c = is_ascii_upper c.
Proof. apply orb_false_r. Qed.

Lemma class_decimal c : class_matches [CDigit] c = is_decimal c.
Proof. apply orb_false_r. Qed.

Lemma class_password_chars c : class_matches PASSWORD_CHARS c = is_password_char c.
Proof. unfold is_password_char, is_password_special, is_ascii_upper, is_ascii_lower. simpl. btauto. Qed.

Lemma class_username_first c : class_matches USERNAME_FIRST c = is_ascii_letter c.
Proof. unfold is_ascii_letter, is_ascii_upper, is_ascii_lower. simpl. btauto. Qed.

Lemma class_username_alnum c : class_matches USERNAME_ALNUM c = is_ascii_alnum c.
Proof.
  unfold is_ascii_alnum, is_ascii_letter, is_ascii_digit, is_ascii_upper, is_ascii_lower.
  simpl. btauto.
Qed.

Lemma class_username_seps c : class_matches USERNAME_SEPS c = is_username_sep c.
Proof. unfold is_username_sep. simpl. btauto. Qed.

#[export] Hint Rewrite class_lower class_upper class_decimal class_password_chars
  class_username_first class_username_alnum class_username_seps : pyval_rw.

Lemma password_char_not_newline c : is_password_char c = true -> dot_matches c = true.
Proof.
  unfold is_password_char. rewrite !orb_true_iff. intros [[[H|H]|H]|H].
  - apply in_range_iff in H. apply negb_true_iff, Z.eqb_neq. unfold NEWLINE. lia.
  - apply in_range_iff in H. apply negb_true_iff, Z.eqb_neq. unfold NEWLINE. lia.
  - by apply decimal_not_newline.
  - unfold is_password_special in H. simpl in H. bool_to_prop.
    apply negb_true_iff, Z.eqb_neq. unfold NEWLINE. lia.
Qed.

Lemma sep_not_alnum c : is_username_sep c = true -> is_ascii_alnum c = false.
Proof. unfold is_username_sep. bool_to_prop. intros [-> | ->]; reflexivity. Qed.

Lemma letter_alnum c : is_ascii_letter c = true -> is_ascii_alnum c = true.
Proof. unfold is_ascii_alnum. intros ->. reflexivity. Qed.

Lemma alnum_not_sep c : is_ascii_alnum c = true -> is_username_sep c = false.
Proof.
  intros H. destruct (is_username_sep c) eqn:E; [|done].
  apply sep_not_alnum in E. congruence.
Qed.

Lemma letter_not_sep c : is_ascii_letter c = true -> is_username_sep c = false.
Proof.
  intros H. by apply alnum_not_sep, letter_alnum.
Qed.

(** ** The password pattern *)

(** On a string without newlines the lookahead [(?=.*[...])] says that a
    character of the class occurs. *)
Lemma lookahead_clean cls s :
  Forall (fun c => dot_matches c = true) s ->
  (exists u v, s = u ++ v /\ matches (lookahead_class cls) u) <->
  Exists (fun c => class_matches cls c = true) s.
Proof.
  intros Hd. unfold lookahead_class. rewrite lookahead_class_spec, Exists_exists. split.
  - intros (u & c & v & -> & _ & Hc). exists c. split; [|done].
    apply list_elem_of_In, in_or_app. right. by left.
  - intros (c & Hin & Hc). apply list_elem_of_In, in_split in Hin as (u & v & ->).
    exists u, c, v. apply Forall_app in Hd as [Hu _]. done.
Qed.

(** [re.fullmatch] with the password pattern accepts exactly the strings
    of the password policy. *)
Lemma password_fullmatch_iff s : fullmatch PASSWORD_PATTERN s = true <-> password_policy s.
Proof.
  rewrite fullmatch_spec. unfold fullmatch_rel, password_policy. simpl.
  rewrite !Forall_cons_iff', rep_class_spec. setoid_rewrite class_password_chars.
  assert (Forall (fun c => is_password_char c = true) s ->
          Forall (fun c => dot_matches c = true) s) as Hdot.
  { intros H. eapply Forall_impl; [exact H|]. apply password_char_not_newline. }
  split.
  - intros [(L1 & L2 & L3 & L4 & _) [Hlen Hall]].
    pose proof (Hdot Hall) as Hd.
    rewrite (lookahead_clean _ _ Hd) in L1. rewrite (lookahead_clean _ _ Hd) in L2.
    rewrite (lookahead_clean _ _ Hd) in L3. rewrite (lookahead_clean _ _ Hd) in L4.
    setoid_rewrite class_lower in L1. setoid_rewrite class_upper in L2.
    setoid_rewrite class_decimal in L3. tauto.
  - intros (Hlen & Hall & L1 & L2 & L3 & L4).
    pose proof (Hdot Hall) as Hd. rewrite !(fun cls => lookahead_clean cls _ Hd).
    setoid_rewrite class_lower. setoid_rewrite class_upper.
    repeat split; try assumption; try apply Forall_nil_2; try lia.
    eapply Exists_impl; [exact L3|]. intros c Hc. by rewrite class_decimal.
Qed.

(** ** The username pattern *)

Lemma alnums_tail w t :
  Forall (fun c => is_ascii_alnum c = true) w ->
  username_tail false t = true -> username_tail false (w ++ t) = true.
Proof. intros Hw Ht. induction Hw as [|c w Hc _ IH]; simpl; [done|]. by rewrite Hc. Qed.

Lemma forall_class_alnum w :
  Forall (fun c => class_matches USERNAME_ALNUM c = true) w ->
  Forall (fun c => is_ascii_alnum c = true) w.
Proof. intros H. eapply Forall_impl; [exact H|]. intros c. cbv beta. by rewrite class_username_alnum. Qed.

(** One group [(?:[._]?[a-zA-Z0-9]+)] followed by an accepted tail is an
    accepted tail. *)
Lemma group_tail s t :
  matches USERNAME_GROUP s -> username_tail false t = true ->
  username_tail false (s ++ t) = true.
Proof.
  unfold USERNAME_GROUP, ROpt, RPlus. rewrite cat_inv. setoid_rewrite cat_inv.
  setoid_rewrite rep_class_spec. setoid_rewrite class_inv. setoid_rewrite star_class_spec.
  intros (o & w & -> & [Ho Hos] & w1 & w2 & -> & (a & -> & Ha) & Hw2) Ht.
  rewrite class_username_alnum in Ha. apply forall_class_alnum in Hw2.
  rewrite <- !app_assoc. destruct o as [|x [|y o]]; simpl in Ho; [| |lia].
  - simpl. rewrite Ha. by apply alnums_tail.
  - apply Forall_cons_iff' in Hos as [Hx _]. rewrite class_username_seps in Hx.
    simpl. rewrite (sep_not_alnum x Hx), Hx. simpl. rewrite Ha. by apply alnums_tail.
Qed.

Lemma group_single c : is_ascii_alnum c = true -> matches USERNAME_GROUP [c].
Proof.
  intros Hc. apply (MCat _ _ [] [c]); [constructor|].
  apply (MCat _ _ [c] []); [constructor; by rewrite class_username_alnum|constructor].
Qed.

Lemma group_pair x c :
  is_username_sep x = true -> is_ascii_alnum c = true -> matches USERNAME_GROUP [x; c].
Proof.
  intros Hx Hc. apply (MCat _ _ [x] [c]).
  - apply (MRepS _ 0 0 [x] []); [constructor; by rewrite class_username_seps|constructor].
  - apply (MCat _ _ [c] []); [constructor; by rewrite class_username_alnum|constructor].
Qed.

(** [(?:[._]?[a-zA-Z0-9]+)*] is recognised by the automaton. *)
Lemma username_star_spec s :
  matches (RStar USERNAME_GROUP) s <-> username_tail false s = true.
Proof.
  split.
  - intros H. remember (RStar USERNAME_GROUP) as r eqn:Er. revert Er.
    induction H; intros Er; try discriminate; [done|].
    injection Er as ->. apply group_tail; auto.
  - cut (forall s,
      (username_tail false s = true -> matches (RStar USERNAME_GROUP) s) /\
      (username_tail true s = true -> forall x, is_username_sep x = true ->
         matches (RStar USERNAME_GROUP) (x :: s))).
    { intros H. apply H. }
    clear s. induction s as [|c s [IH1 IH2]]; simpl.
    + split; [constructor|discriminate].
    + destruct (is_ascii_alnum c) eqn:Ha; [|destruct (is_username_sep c) eqn:Hs].
      * split.
        -- intros Ht. apply (MStarS _ [c] s); [by apply group_single|auto].
        -- intros Ht x Hx. apply (MStarS _ [x; c] s); [by apply group_pair|auto].
      * split; [intros Ht; by apply IH2|discriminate].
      * split; discriminate.
Qed.

Lemma username_body_spec s :
  matches (body USERNAME_PATTERN) s <-> username_shape s = true.
Proof.
  unfold USERNAME_PATTERN. cbn [body]. rewrite cat_inv. setoid_rewrite cat_inv. setoid_rewrite class_inv.
  setoid_rewrite star_class_spec. setoid_rewrite username_star_spec. split.
  - intros (s1 & s2 & -> & (c & -> & Hc) & u & v & -> & Hu & Hv). simpl.
    rewrite class_username_first in Hc. rewrite Hc.
    apply alnums_tail; [by apply forall_class_alnum|done].
  - destruct s as [|c s]; [discriminate|]. cbn [username_shape].
    rewrite andb_true_iff. intros [Hc Ht].
    exists [c], s. split; [done|]. split; [exists c; split; [done|]; by rewrite class_username_first|].
    exists [], s. split; [done|]. split; [constructor|done].
Qed.

Lemma seps_followed_nil : seps_followed [].
Proof. intros u c v E. by apply app_cons_not_nil in E. Qed.

Lemma seps_followed_cons c s :
  seps_followed (c :: s) <->
  (is_username_sep c = true -> exists d w, s = d :: w /\ is_ascii_alnum d = true) /\
  seps_followed s.
Proof.
  unfold seps_followed. split.
  - intros H. split.
    + intros Hc. by apply (H [] c s).
    + intros u x v -> Hx. by apply (H (c :: u) x v).
  - intros [H1 H2] [|y u] x v E Hx; simpl in E; injection E as E1 E2; subst; eauto.
Qed.

(** The automaton in plain terms. *)
Lemma username_tail_spec b s :
  username_tail b s = true <->
  Forall (fun c => (is_ascii_alnum c || is_username_sep c) = true) s /\
  seps_followed s /\
  (b = true -> exists d w, s = d :: w /\ is_ascii_alnum d = true).
Proof.
  revert b. induction s as [|c s IH]; intros b; simpl.
  - split.
    + intros Hb. split; [constructor|]. split; [apply seps_followed_nil|].
      intros ->. discriminate.
    + intros (_ & _ & H). destruct b; [|done].
      destruct (H eq_refl) as (d & w & E & _). discriminate.
  - rewrite Forall_cons_iff', seps_followed_cons.
    destruct (is_ascii_alnum c) eqn:Ha; [|destruct (is_username_sep c) eqn:Hs].
    + rewrite IH. split.
      * intros (Hf & Hsf & _). split; [done|]. split; [|eauto].
        split; [|done]. intros Hs. by rewrite (alnum_not_sep c Ha) in Hs.
      * intros ((_ & Hf) & (_ & Hsf) & _). split; [done|]. split; [done|]. by intros ?.
    + rewrite andb_true_iff, negb_true_iff, IH. split.
      * intros [-> (Hf & Hsf & Hnext)]. split; [done|]. split; [|by intros ?].
        split; [intros _; by apply Hnext|done].
      * intros ((_ & Hf) & (Hnext & Hsf) & Hb). split.
        -- destruct b; [|done]. destruct (Hb eq_refl) as (d & w & E & Hd).
           injection E as -> ->. congruence.
        -- split; [done|]. split; [done|]. intros _. by apply Hnext.
    + split; [discriminate|]. intros ((Hc & _) & _). simpl in Hc. discriminate.
Qed.

Lemma username_shape_rules s : username_shape s = true <-> username_rules s.
Proof.
  unfold username_shape, username_rules. destruct s as [|c s].
  - split; [discriminate|]. intros ((c & s' & E & _) & _). discriminate.
  - rewrite andb_true_iff, username_tail_spec, Forall_cons_iff', seps_followed_cons. split.
    + intros [Hc (Hf & Hsf & _)]. split; [eauto|].
      split; [by rewrite (letter_alnum c Hc)|].
      split; [|done]. intros Hs. by rewrite (letter_not_sep c Hc) in Hs.
    + intros ((c' & s' & E & Hc) & (_ & Hf) & (_ & Hsf)). injection E as <- <-.
      split; [done|]. split; [done|]. split; [done|]. by intros ?.
Qed.

(** [re.fullmatch] with the username pattern accepts exactly the strings
    of the username rules. *)
Lemma username_fullmatch_iff s : fullmatch USERNAME_PATTERN s = true <-> username_rules s.
Proof.
  rewrite fullmatch_spec, <- username_shape_rules, <- username_body_spec.
  unfold fullmatch_rel. simpl. split; [tauto|]. intros H. split; [constructor|done].
Qed.

(** ** Rejections *)

(** C14. The username pattern rejects a string that does not start with
    an ASCII letter, that contains a character other than ASCII letters,
    digits, [.] and [_], that ends with [.] or [_], or that has two
    separators in a row anywhere (the spec mentions only "at the end"). *)
Theorem username_rejections s :
  (forall c s', s = c :: s' -> is_ascii_letter c = false ->
     fullmatch USERNAME_PATTERN s = false) /\
  (forall c, c ∈ s -> (is_ascii_alnum c || is_username_sep c) = false ->
     fullmatch USERNAME_PATTERN s = false) /\
  (forall u x, s = u ++ [x] -> is_username_sep x = true ->
     fullmatch USERNAME_PATTERN s = false) /\
  (forall u x y v, s = u ++ x :: y :: v -> is_username_sep x = true ->
     is_username_sep y = true -> fullmatch USERNAME_PATTERN s = false).
Proof.
  split; [|split; [|split]].
  - intros c s' -> Hc. apply not_true_iff_false. rewrite username_fullmatch_iff.
    intros ((c' & s'' & E & Hc') & _). injection E as <- <-. congruence.
  - intros c Hin Hc. apply not_true_iff_false. rewrite username_fullmatch_iff.
    intros (_ & Hall & _). rewrite Forall_forall in Hall.
    rewrite (Hall c Hin) in Hc. discriminate.
  - intros u x -> Hx. apply not_true_iff_false. rewrite username_fullmatch_iff.
    intros (_ & _ & Hsep). destruct (Hsep u x [] eq_refl Hx) as (d & w & E & _).
    discriminate.
  - intros u x y v -> Hx Hy. apply not_true_iff_false. rewrite username_fullmatch_iff.
    intros (_ & _ & Hsep). destruct (Hsep u x (y :: v) eq_refl Hx) as (d & w & E & Hd).
    injection E as <- <-. by rewrite (sep_not_alnum _ Hy) in Hd.
Qed.

(** C15. The password pattern rejects a string of fewer than 8 or more
    than 64 code points, a string with no ASCII lowercase letter, no
    ASCII uppercase letter, no decimal digit or none of [@$!%*?&], and a
    string with any other character. *)
Theorem password_rejections s :
  ((length s < 8)%nat \/ (64 < length s)%nat -> fullmatch PASSWORD_PATTERN s = false) /\
  (Forall (fun c => is_ascii_lower c = false) s -> fullmatch PASSWORD_PATTERN s = false) /\
  (Forall (fun c => is_ascii_upper c = false) s -> fullmatch PASSWORD_PATTERN s = false) /\
  (Forall (fun c => is_decimal c = false) s -> fullmatch PASSWORD_PATTERN s = false) /\
  (Forall (fun c => is_password_special c = false) s -> fullmatch PASSWORD_PATTERN s = false) /\
  (forall c, c ∈ s -> is_password_char c = false -> fullmatch PASSWORD_PATTERN s = false).
Proof.
  repeat split; [intros H..|intros c Hc H]; apply not_true_iff_false;
    rewrite password_fullmatch_iff; intros (Hl & Hall & Hlo & Hup & Hd & Hsp).
  - lia.
  - exact (Exists_Forall_false _ _ Hlo H).
  - exact (Exists_Forall_false _ _ Hup H).
  - exact (Exists_Forall_false _ _ Hd H).
  - exact (Exists_Forall_false _ _ Hsp H).
  - rewrite Forall_forall in Hall. by rewrite (Hall c Hc) in H.
Qed.

Lemma username_rejections_witness :
  fullmatch USERNAME_PATTERN (py "a._b") = false.
Proof.
  apply (proj2 (proj2 (proj2 (username_rejections (py "a._b")))) (py "a") 46%Z 95%Z (py "b")).
  - reflexivity.
  - reflexivity.
  - reflexivity.
Defined.

(** A password without a digit or special character is rejected. *)
(** The example value the file documents for [password]
    ([examples=["12345678"]], lines 19 and 60) has no lowercase letter,
    so the pattern rejects it. *)
Lemma password_rejections_witness :
  fullmatch PASSWORD_PATTERN (py "12345678") = false.
Proof.
  apply (proj1 (proj2 (password_rejections (py "12345678")))).
  apply (Forall_impl (fun c => negb (is_ascii_lower c) = true)).
  - apply forallb_true_iff. vm_compute. reflexivity.
  - intros c Hc. by apply negb_true_iff in Hc.
Defined.
