(* ===== verification/Backtrack.v ===== *)
(** * Backtrack: the search order of CPython's [re] engine

    [Regex] decides [re.fullmatch] by derivatives, which gives its answer
    but says nothing of its cost.  CPython's [sre] engine answers by a
    depth-first backtracking search instead.  This file models that
    search: [bt r s] lists, in the order the engine reaches them, the
    suffixes of [s] left over after [r] has matched a prefix of [s].

    - a class or [.] consumes one character;
    - a concatenation runs its right part from each residual of its left
      part, in order;
    - an alternation tries its left branch first;
    - [r*] is greedy: from each residual of one more copy of [r] it goes
      on iterating before it offers the current position
      ([REPEAT]/[MAX_UNTIL] in [sre]); an iteration that consumes nothing
      is not repeated, and here it is not tried at all, which changes only
      the number of times a position is offered, never the set;
    - [r{m,n}] is greedy in the same way, within its bounds ([REPEAT_ONE]
      for a single character, [REPEAT] otherwise).

    [fullmatch] tests [$] at each residual in turn and stops at the first
    empty one; a lookahead succeeds when its sub-pattern has a residual.

    [bt_spec] proves the residuals are exactly the suffixes left by the
    prefixes that [r] matches, so [bt_fullmatch_equiv] shows the search
    answers as [Regex.fullmatch].  [bt_tries] counts the residuals the
    search tests before it answers; on the username pattern and
    [a^n!] ([a_run n]) that count is [2^n - 1] and the answer is no
    ([username_tries_a_run]); [Schemas.username_redos] puts this next to
    the length bound of the field.  [validator_cost_bounds] bounds the
    count from above on every string: at most [2^n - 1] for the username
    pattern (the residuals of each star step have pairwise different
    lengths, [bt_star_count]), at most 57 for the password pattern.

    The star's fuel is the length of the string: every iteration that is
    followed consumes a character, so the recursion never needs more. *)

From S2P Require Import Prelude Chars Regex Patterns.

(** ** The search *)

(** [r*] from [s], given the search [step] of [r]. *)
Fixpoint bt_star (step : ustr -> list ustr) (fuel : nat) (s : ustr) : list ustr :=
  match fuel with
  | O => [s]
  | S f =>
      flat_map (fun s' => if decide (length s' < length s)%nat then bt_star step f s' else [])
               (step s) ++ [s]
  end.

(** [r{m,n}] from [s]: one more copy first while [n] allows it, then the
    current position if [m] is reached. *)
Fixpoint bt_rep (step : ustr -> list ustr) (m n : nat) (s : ustr) : list ustr :=
  match n with
  | O => if (m =? 0)%nat then [s] else []
  | S n' => flat_map (bt_rep step (Nat.pred m) n') (step s) ++ (if (m =? 0)%nat then [s] else [])
  end.

Fixpoint bt (r : regex) (s : ustr) : list ustr :=
  match r with
  | RVoid => []
  | REps => [s]
  | RClass cls => match s with c :: s' => if class_matches cls c then [s'] else [] | [] => [] end
  | RDot => match s with c :: s' => if dot_matches c then [s'] else [] | [] => [] end
  | RCat r1 r2 => flat_map (bt r2) (bt r1 s)
  | RAlt r1 r2 => bt r1 s ++ bt r2 s
  | RStar r1 => bt_star (bt r1) (length s) s
  | RRep m n r1 => bt_rep (bt r1) m n s
  end.

(** [(?=la)] at the start of [s]: the sub-search has a residual. *)
Definition bt_lookahead (la : regex) (s : ustr) : bool :=
  match bt la s with [] => false | _ => true end.

(** [$] tested at each residual, up to the first that is the end. *)
Fixpoint ends_somewhere (l : list ustr) : bool :=
  match l with
  | [] => false
  | [] :: _ => true
  | _ :: l' => ends_somewhere l'
  end.

Definition bt_fullmatch (p : pattern) (s : ustr) : bool :=
  forallb (fun la => bt_lookahead la s) (lookaheads p) && ends_somewhere (bt (body p) s).

(** The number of residuals at which [$] is tested before the answer. *)
Fixpoint tries (l : list ustr) : nat :=
  match l with
  | [] => 0
  | [] :: _ => 1
  | _ :: l' => S (tries l')
  end.

Definition bt_tries (p : pattern) (s : ustr) : nat := tries (bt (body p) s).

(** The input [a...a!]: [j] letters [a] then [!], [j + 1] code points. *)
Definition a_run (j : nat) : ustr := repeat 97%Z j ++ [33%Z].

(** ** Correctness of the search *)

Lemma elem_of_flat_map {A B} (f : A -> list B) (l : list A) y :
  y ∈ flat_map f l <-> exists x, x ∈ l /\ y ∈ f x.
Proof.
  rewrite list_elem_of_In, in_flat_map. setoid_rewrite list_elem_of_In. done.
Qed.

#[export] Hint Rewrite @elem_of_flat_map @elem_of_app @list_elem_of_singleton : pyval_rw.

Lemma star_inv r p :
  matches (RStar r) p <->
  p = [] \/ exists p1 p2, p = p1 ++ p2 /\ p1 <> [] /\ matches r p1 /\ matches (RStar r) p2.
Proof.
  split.
  - destruct p as [|c p]; intros H; [by left|right].
    apply star_cons_inv in H as (s1 & s2 & -> & H1 & H2).
    exists (c :: s1), s2. eauto.
  - intros [->|(p1 & p2 & -> & _ & H1 & H2)]; eauto with pyval.
Qed.

Lemma rep_inv r m n p :
  matches (RRep m n r) p <->
  (m = 0%nat /\ p = []) \/
  exists n' p1 p2, n = S n' /\ p = p1 ++ p2 /\ matches r p1 /\ matches (RRep (Nat.pred m) n' r) p2.
Proof.
  split; [inversion 1; subst; eauto 10|].
  intros [[-> ->]|(n' & p1 & p2 & -> & -> & H1 & H2)]; eauto with pyval.
Qed.

Section Repetitions.
Variable r : regex.
Variable step : ustr -> list ustr.
Hypothesis step_spec : forall s rest, rest ∈ step s <-> exists p, s = p ++ rest /\ matches r p.

Lemma bt_star_spec f s rest :
  (length s <= f)%nat ->
  rest ∈ bt_star step f s <-> exists p, s = p ++ rest /\ matches (RStar r) p.
Proof.
  revert s. induction f as [|f IH]; intros s Hl; simpl.
  - destruct s; [|simpl in Hl; lia]. rewrite list_elem_of_singleton. split.
    + intros ->. exists []. eauto with pyval.
    + intros (p & E & _). symmetry in E. by apply app_eq_nil in E as [_ ->].
  - autorewrite with pyval_rw. setoid_rewrite star_inv. split.
    + intros [(s' & Hs' & Hr)| ->]; [|exists []; eauto].
      apply step_spec in Hs' as (p1 & -> & H1).
      case_decide as Hlt; [|set_solver]. apply IH in Hr as (p2 & -> & H2); [|lia].
      exists (p1 ++ p2). split; [by rewrite app_assoc|right].
      exists p1, p2. split; [done|]. split; [|done]. intros ->. simpl in Hlt. lia.
    + intros (p & -> & [->|(p1 & p2 & -> & Hne & H1 & H2)]); [by right|left].
      exists (p2 ++ rest). split; [apply step_spec; exists p1; by rewrite app_assoc|].
      destruct p1 as [|c p1]; [done|]. simpl in Hl |- *. rewrite !length_app in Hl |- *.
      case_decide as Hlt; [apply IH; [rewrite length_app; lia|eauto]|rewrite length_app in Hlt; lia].
Qed.

Lemma bt_rep_spec m n s rest :
  rest ∈ bt_rep step m n s <-> exists p, s = p ++ rest /\ matches (RRep m n r) p.
Proof.
  revert m s. induction n as [|n IH]; intros m s; simpl; setoid_rewrite rep_inv.
  - destruct (Nat.eqb_spec m 0) as [->|Hm]; rewrite ?list_elem_of_singleton; split.
    + intros ->. exists []. eauto.
    + intros (p & -> & [[_ ->]|(n' & _ & _ & [=] & _)]); done.
    + by rewrite elem_of_nil.
    + intros (p & _ & [[? _]|(n' & _ & _ & [=] & _)]); done.
  - autorewrite with pyval_rw. setoid_rewrite IH. split.
    + intros [(s' & (p1 & -> & H1)%step_spec & (p2 & -> & H2))|Hz].
      * exists (p1 ++ p2). rewrite app_assoc. split; [done|right]. eauto 10.
      * destruct (m =? 0)%nat eqn:Em; [|by apply elem_of_nil in Hz].
        apply Nat.eqb_eq in Em as ->. apply list_elem_of_singleton in Hz as ->.
        exists []. eauto.
    + intros (p & -> & [[-> ->]|(n' & p1 & p2 & [= <-] & -> & H1 & H2)]).
      * right. simpl. by apply list_elem_of_singleton.
      * left. exists (p2 ++ rest). split; [apply step_spec; exists p1; by rewrite app_assoc|eauto].
Qed.
End Repetitions.

(** A class and [.] take the first character when it qualifies. *)
Lemma bt_char_spec (P : codepoint -> bool) s rest :
  rest ∈ (match s with c :: s' => if P c then [s'] else [] | [] => [] end) <->
  exists c, s = c :: rest /\ P c = true.
Proof.
  destruct s as [|c s]; [rewrite elem_of_nil; naive_solver|].
  destruct (P c) eqn:E; rewrite ?list_elem_of_singleton, ?elem_of_nil; split.
  - intros ->. eauto.
  - by intros (c' & [= <- <-] & _).
  - done.
  - intros (c' & [= <- <-] & H). congruence.
Qed.

(** The residuals of the search are exactly the suffixes left by the
    prefixes that [r] matches. *)
Lemma bt_spec r s rest : rest ∈ bt r s <-> exists p, s = p ++ rest /\ matches r p.
Proof.
  revert s rest. induction r as [| |cls| |r1 IH1 r2 IH2|r1 IH1 r2 IH2|r IH|m n r IH];
    intros s rest; simpl.
  - rewrite elem_of_nil. setoid_rewrite void_inv. naive_solver.
  - rewrite list_elem_of_singleton. setoid_rewrite eps_inv.
    split; [intros ->; exists []; eauto|naive_solver].
  - rewrite (bt_char_spec (class_matches cls)). setoid_rewrite class_inv.
    split; [intros (c & -> & H); exists [c]; eauto|intros (p & -> & c & -> & H); eauto].
  - rewrite (bt_char_spec dot_matches). setoid_rewrite dot_inv.
    split; [intros (c & -> & H); exists [c]; eauto|intros (p & -> & c & -> & H); eauto].
  - autorewrite with pyval_rw. setoid_rewrite IH1. setoid_rewrite IH2.
    setoid_rewrite cat_inv. split.
    + intros (s' & (p1 & -> & H1) & (p2 & -> & H2)). exists (p1 ++ p2).
      rewrite app_assoc. eauto 10.
    + intros (p & -> & p1 & p2 & -> & H1 & H2). exists (p2 ++ rest).
      rewrite <- app_assoc. split; eauto.
  - autorewrite with pyval_rw. rewrite IH1, IH2. setoid_rewrite alt_inv. naive_solver.
  - by apply bt_star_spec.
  - by apply bt_rep_spec.
Qed.

Lemma ends_somewhere_spec l : ends_somewhere l = true <-> [] ∈ l.
Proof.
  induction l as [|[|c x] l IH]; simpl.
  - rewrite elem_of_nil. naive_solver.
  - split; [intros _; left|done].
  - rewrite IH, elem_of_cons. naive_solver.
Qed.

Lemma bt_lookahead_spec la s :
  bt_lookahead la s = true <-> exists u v, s = u ++ v /\ matches la u.
Proof.
  unfold bt_lookahead. split.
  - destruct (bt la s) as [|v l] eqn:E; [discriminate|]. intros _.
    assert (v ∈ bt la s) as (u & -> & Hu)%bt_spec by (rewrite E; left). eauto.
  - intros (u & v & -> & Hu). assert (v ∈ bt la (u ++ v)) as Hv by (apply bt_spec; eauto).
    destruct (bt la (u ++ v)); [by apply elem_of_nil in Hv|done].
Qed.

(** Every residual at which [$] fails is counted. *)
Lemma tries_nonempty l : (forall x, x ∈ l -> x <> []) -> tries l = length l.
Proof.
  induction l as [|[|c x] l IH]; intros Hl; simpl; [done| |].
  - exfalso. by apply (Hl []); [left|].
  - f_equal. apply IH. intros y Hy. apply Hl. by right.
Qed.

Lemma flat_map_nil {A B} (f : A -> list B) l : (forall x, f x = []) -> flat_map f l = [].
Proof. intros Hf. induction l as [|x l IH]; simpl; [done|]. by rewrite Hf, IH. Qed.

(** The fuel of a star does not matter once it covers the string. *)
Lemma bt_star_fuel step f1 f2 s :
  (length s <= f1)%nat -> (length s <= f2)%nat -> bt_star step f1 s = bt_star step f2 s.
Proof.
  revert f2 s. induction f1 as [|f1 IH]; intros [|f2] s H1 H2; simpl; try done.
  - destruct s; [|simpl in H1; lia]. rewrite flat_map_nil; [done|].
    intros s'. case_decide; [simpl in *; lia|done].
  - destruct s; [|simpl in H2; lia]. rewrite flat_map_nil; [done|].
    intros s'. case_decide; [simpl in *; lia|done].
  - f_equal. apply flat_map_ext. intros s'. case_decide; [apply IH; lia|done].
Qed.

(** ** The search answers as [re.fullmatch] *)

Lemma bt_fullmatch_correct p s : bt_fullmatch p s = true <-> fullmatch_rel p s.
Proof.
  unfold bt_fullmatch, fullmatch_rel.
  rewrite andb_true_iff, forallb_true_iff, ends_somewhere_spec, bt_spec.
  setoid_rewrite bt_lookahead_spec. setoid_rewrite app_nil_r. naive_solver.
Qed.

(** The backtracking search and the derivative matcher give the same
    answer on every pattern and string: the search order changes the
    cost of [re.fullmatch], never its result. *)
Theorem bt_fullmatch_equiv p s : bt_fullmatch p s = fullmatch p s.
Proof. apply Bool.eq_true_iff_eq. by rewrite fullmatch_spec, bt_fullmatch_correct. Qed.

(** ** The cost on the username pattern *)

Lemma a_run_length j : length (a_run j) = S j.
Proof. unfold a_run. rewrite length_app, repeat_length. simpl. lia. Qed.

Lemma a_run_nonempty j : a_run j <> [].
Proof. unfold a_run. intros E. apply app_eq_nil in E as [_ E]. discriminate. Qed.

Lemma flat_map_map_in {A B C} (f : B -> list C) (g : A -> B) (h : A -> list C) l :
  (forall x, x ∈ l -> f (g x) = h x) -> flat_map f (map g l) = flat_map h l.
Proof.
  induction l as [|x l IH]; intros H; simpl; [done|].
  rewrite H by left. f_equal. apply IH. intros y Hy. apply H. by right.
Qed.

(** One more iteration of a star, offered before the current position. *)
Lemma bt_star_unfold r s :
  s <> [] ->
  bt (RStar r) s =
  flat_map (fun x => if decide (length x < length s)%nat then bt (RStar r) x else []) (bt r s)
  ++ [s].
Proof.
  intros Hs. destruct s as [|c s]; [done|]. simpl. f_equal. apply flat_map_ext.
  intros x. case_decide; [|done]. apply bt_star_fuel; simpl in *; lia.
Qed.

Lemma bt_alnum_a_run j :
  bt (RClass USERNAME_ALNUM) (a_run j) = match j with O => [] | S i => [a_run i] end.
Proof. by destruct j. Qed.

Lemma bt_alnum_star_a_run j : bt (RStar (RClass USERNAME_ALNUM)) (a_run j) = map a_run (seq 0 (S j)).
Proof.
  induction j as [|j IH]; [reflexivity|].
  rewrite bt_star_unfold by apply a_run_nonempty. rewrite bt_alnum_a_run. cbn [flat_map].
  rewrite decide_True by (rewrite !a_run_length; lia).
  by rewrite IH, app_nil_r, (seq_S (S j)), map_app.
Qed.

Lemma bt_group_a_run j : bt USERNAME_GROUP (a_run j) = map a_run (seq 0 j).
Proof.
  transitivity (flat_map (bt (RPlus (RClass USERNAME_ALNUM)))
                  (bt (ROpt (RClass USERNAME_SEPS)) (a_run j))); [reflexivity|].
  assert (bt (ROpt (RClass USERNAME_SEPS)) (a_run j) = [a_run j]) as -> by (by destruct j).
  transitivity (flat_map (bt (RStar (RClass USERNAME_ALNUM)))
                  (bt (RClass USERNAME_ALNUM) (a_run j)) ++ []); [reflexivity|].
  rewrite app_nil_r, bt_alnum_a_run. destruct j as [|i]; [done|].
  cbn [flat_map]. by rewrite app_nil_r, bt_alnum_star_a_run.
Qed.

(** From [a^j!], [(?:[._]?[a-zA-Z0-9]+)*] first runs itself from each
    [a^i!] with [i < j], then offers [a^j!]. *)
Lemma bt_group_star_a_run j :
  bt (RStar USERNAME_GROUP) (a_run j) =
  flat_map (fun i => bt (RStar USERNAME_GROUP) (a_run i)) (seq 0 j) ++ [a_run j].
Proof.
  rewrite bt_star_unfold by apply a_run_nonempty. rewrite bt_group_a_run. f_equal.
  apply flat_map_map_in. intros i Hi. apply elem_of_seq in Hi.
  rewrite decide_True; [done|]. rewrite !a_run_length. lia.
Qed.

Lemma sum_pow2 j : list_sum (map (fun i => 2 ^ i) (seq 0 j)) = 2 ^ j - 1.
Proof.
  induction j as [|j IH]; [done|]. rewrite seq_S, map_app, list_sum_app, IH. simpl.
  pose proof (Nat.pow_nonzero 2 j ltac:(lia)). lia.
Qed.

Lemma group_star_count j :
  length (bt (RStar USERNAME_GROUP) (a_run j)) = 2 ^ j /\
  (forall x : ustr, x ∈ bt (RStar USERNAME_GROUP) (a_run j) -> x <> []).
Proof.
  induction j as [j IH] using lt_wf_ind. rewrite bt_group_star_a_run. split.
  - rewrite length_app, length_flat_map.
    rewrite (map_ext_in _ (fun i => 2 ^ i)); [rewrite sum_pow2; simpl|].
    + pose proof (Nat.pow_nonzero 2 j ltac:(lia)). lia.
    + intros i Hi. apply in_seq in Hi. apply IH. lia.
  - intros x. rewrite elem_of_app, elem_of_flat_map, list_elem_of_singleton.
    intros [(i & Hi & Hx)| ->]; [|apply a_run_nonempty].
    apply elem_of_seq in Hi. apply (proj2 (IH i ltac:(lia))), Hx.
Qed.

Lemma bt_username_a_run k :
  bt (body USERNAME_PATTERN) (a_run (S k)) =
  flat_map (fun i => bt (RStar USERNAME_GROUP) (a_run i)) (seq 0 (S k)).
Proof.
  transitivity (flat_map (bt (RCat (RStar (RClass USERNAME_ALNUM)) (RStar USERNAME_GROUP)))
                  [a_run k]); [reflexivity|].
  cbn [flat_map]. rewrite app_nil_r.
  transitivity (flat_map (bt (RStar USERNAME_GROUP))
                  (bt (RStar (RClass USERNAME_ALNUM)) (a_run k))); [reflexivity|].
  rewrite bt_alnum_star_a_run. by apply flat_map_map_in.
Qed.

(** On [a^n!] the search tests [$] at [2^n - 1] residuals, every one of
    them, and answers no. *)
Lemma username_tries_a_run n :
  bt_fullmatch USERNAME_PATTERN (a_run n) = false /\
  bt_tries USERNAME_PATTERN (a_run n) = 2 ^ n - 1.
Proof.
  destruct n as [|k]; [split; reflexivity|].
  assert (forall x, x ∈ bt (body USERNAME_PATTERN) (a_run (S k)) -> x <> []) as Hne.
  { rewrite bt_username_a_run. intros x (i & _ & Hx)%elem_of_flat_map.
    by apply (proj2 (group_star_count i)). }
  split.
  - unfold bt_fullmatch. change (lookaheads USERNAME_PATTERN) with (@nil regex). cbn [forallb andb].
    apply not_true_iff_false. rewrite ends_somewhere_spec. intros Hin. by apply (Hne [] Hin).
  - unfold bt_tries. rewrite tries_nonempty by exact Hne.
    rewrite bt_username_a_run, length_flat_map.
    rewrite (map_ext_in _ (fun i => 2 ^ i)); [apply sum_pow2|].
    intros i _. apply (proj1 (group_star_count i)).
Qed.

(** ** Upper bounds on the cost *)

(** [$] is tested at most once per residual. *)
Lemma tries_le_length l : tries l <= length l.
Proof. induction l as [|[|c x] l IH]; simpl; lia. Qed.

(** A residual is a suffix of the string. *)
Lemma bt_residual_shorter r s x : x ∈ bt r s -> length x <= length s.
Proof. intros (p & -> & _)%bt_spec. rewrite length_app. lia. Qed.

Lemma list_sum_map_le {A} (f g : A -> nat) l :
  (forall x, x ∈ l -> f x <= g x) -> list_sum (map f l) <= list_sum (map g l).
Proof.
  induction l as [|x l IH]; intros H; simpl; [done|].
  pose proof (H x ltac:(left)). pose proof (IH (fun y Hy => H y ltac:(by right))). lia.
Qed.

Lemma list_sum_submseteq (f : nat -> nat) l1 l2 :
  l1 ⊆+ l2 -> list_sum (map f l1) <= list_sum (map f l2).
Proof. induction 1; simpl; lia. Qed.

(** Distinct exponents below [n] sum to less than [2^n]. *)
Lemma sum_pow2_distinct ks n :
  NoDup ks -> (forall k, k ∈ ks -> k < n) -> list_sum (map (fun k => 2 ^ k) ks) <= 2 ^ n - 1.
Proof.
  intros Hnd Hlt. rewrite <- sum_pow2. apply list_sum_submseteq, NoDup_submseteq; [done|].
  intros k Hk. apply elem_of_seq. pose proof (Hlt k Hk). lia.
Qed.

(** The same, counting only the exponents below [n]. *)
Lemma sum_pow2_below ks n :
  NoDup ks -> list_sum (map (fun k => if decide (k < n) then 2 ^ k else 0) ks) <= 2 ^ n - 1.
Proof.
  intros Hnd. etrans; [|apply (sum_pow2_distinct (filter (fun k => k < n) ks))].
  - apply Nat.eq_le_incl. clear Hnd. induction ks as [|k ks IH]; [done|].
    rewrite filter_cons. simpl. case_decide; simpl; lia.
  - by apply NoDup_filter.
  - intros k (Hk & _)%list_elem_of_filter. done.
Qed.

(** A star whose step has residuals of pairwise different lengths offers
    at most [2^n] positions on a string of length [n]. *)
Lemma bt_star_count step f s :
  (forall s, NoDup (map length (step s))) ->
  length (bt_star step f s) <= 2 ^ length s.
Proof.
  intros Hnd. revert s. induction f as [|f IH]; intros s; simpl.
  - pose proof (Nat.pow_nonzero 2 (length s) ltac:(lia)). lia.
  - rewrite length_app, length_flat_map. simpl.
    pose proof (sum_pow2_below _ (length s) (Hnd s)) as Hb. rewrite map_map in Hb.
    pose proof (Nat.pow_nonzero 2 (length s) ltac:(lia)).
    enough (list_sum (map (fun x => length (if decide (length x < length s)
              then bt_star step f x else [])) (step s)) <= 2 ^ length s - 1) by lia.
    etrans; [|exact Hb]. apply list_sum_map_le. intros x _. case_decide; [apply IH|simpl; lia].
Qed.

(** Residuals of pairwise different lengths, all at most [n] long, weigh
    less than [2^(n+1)] when each counts [2] to its length. *)
Lemma sum_pow2_residuals (l : list ustr) n :
  NoDup (map length l) -> (forall x, x ∈ l -> length x <= n) ->
  list_sum (map (fun x => 2 ^ length x) l) <= 2 ^ S n - 1.
Proof.
  intros Hnd Hle. rewrite <- (map_map length (fun k => 2 ^ k)).
  apply sum_pow2_distinct; [done|]. intros k (x & -> & Hx)%list_elem_of_fmap.
  pose proof (Hle x Hx). lia.
Qed.

(** A bounded repetition of a one-character step offers at most
    [n - m + 1] positions. *)
Lemma bt_rep_count step m n s :
  (forall s, length (step s) <= 1) -> length (bt_rep step m n s) <= S n - m.
Proof.
  intros Hs. revert m s. induction n as [|n IH]; intros m s; simpl.
  - destruct m; simpl; lia.
  - rewrite length_app. pose proof (Hs s) as H1.
    destruct (step s) as [|x [|y l]]; simpl in *; [|rewrite app_nil_r|lia];
      destruct m; simpl; try pose proof (IH 0 x); try pose proof (IH m x); lia.
Qed.

Lemma bt_class_count cls s : length (bt (RClass cls) s) <= 1.
Proof. destruct s; simpl; [lia|]. case_match; simpl; lia. Qed.

(** The residuals of [C*] from [s] have pairwise different lengths. *)
Lemma class_star_distinct cls s : NoDup (map length (bt (RStar (RClass cls)) s)).
Proof.
  induction s as [|c t IH]; [repeat constructor; set_solver|].
  rewrite bt_star_unfold by done. cbn [bt]. destruct (class_matches cls c); cbn [flat_map].
  - rewrite decide_True by (simpl; lia). rewrite app_nil_r, map_app. apply NoDup_app.
    split_and!; [done| |apply NoDup_singleton].
    intros k (x & -> & Hx)%list_elem_of_fmap Hk. apply list_elem_of_singleton in Hk.
    pose proof (bt_residual_shorter (RStar (RClass cls)) t x Hx). simpl in *. lia.
  - apply NoDup_singleton.
Qed.

Lemma class_plus_distinct cls s : NoDup (map length (bt (RPlus (RClass cls)) s)).
Proof.
  destruct s as [|c t]; [constructor|]. unfold RPlus. cbn [bt flat_map].
  destruct (class_matches cls c); cbn [flat_map]; [|constructor].
  rewrite app_nil_r. apply class_star_distinct.
Qed.

(** A separator is not a letter or digit. *)
Lemma username_seps_not_alnum c :
  class_matches USERNAME_SEPS c = true -> class_matches USERNAME_ALNUM c = false.
Proof.
  intros (it & Hin & Hm)%existsb_exists. destruct Hin as [<-|[<-|[]]];
    simpl in Hm; apply Z.eqb_eq in Hm as ->; reflexivity.
Qed.

(** One iteration of [(?:[._]?[a-zA-Z0-9]+)] leaves residuals of pairwise
    different lengths: the optional separator can only be taken one way
    since it is not a letter or digit. *)
Lemma bt_username_group_cons c t :
  bt USERNAME_GROUP (c :: t) =
  (if class_matches USERNAME_SEPS c then bt (RPlus (RClass USERNAME_ALNUM)) t else []) ++
  bt (RPlus (RClass USERNAME_ALNUM)) (c :: t).
Proof.
  change (bt USERNAME_GROUP (c :: t)) with
    (flat_map (bt (RPlus (RClass USERNAME_ALNUM))) (bt_rep (bt (RClass USERNAME_SEPS)) 0 1 (c :: t))).
  cbn [bt_rep]. change (bt (RClass USERNAME_SEPS) (c :: t)) with
    (if class_matches USERNAME_SEPS c then [t] else []).
  destruct (class_matches USERNAME_SEPS c); simpl; by rewrite ?app_nil_r.
Qed.

Lemma username_group_distinct s : NoDup (map length (bt USERNAME_GROUP s)).
Proof.
  destruct s as [|c t]; [constructor|]. rewrite bt_username_group_cons.
  destruct (class_matches USERNAME_SEPS c) eqn:Es; [|apply class_plus_distinct].
  unfold RPlus at 2. cbn [bt]. change (bt (RClass USERNAME_ALNUM) (c :: t)) with
    (if class_matches USERNAME_ALNUM c then [t] else []).
  rewrite (username_seps_not_alnum c Es). cbn [flat_map]. rewrite !app_nil_r.
  apply class_plus_distinct.
Qed.

(** The username search from [s] offers at most [2^n - 1] positions: after
    the first letter, each position the [[a-zA-Z0-9]*] part leaves, of
    length [k], opens at most [2^k] positions of the group star. *)
Lemma username_body_count s : length (bt (body USERNAME_PATTERN) s) <= 2 ^ length s - 1.
Proof.
  destruct s as [|c t]; [simpl; lia|].
  change (bt (body USERNAME_PATTERN) (c :: t)) with
    (flat_map (bt (RCat (RStar (RClass USERNAME_ALNUM)) (RStar USERNAME_GROUP)))
       (if class_matches USERNAME_FIRST c then [t] else [])).
  destruct (class_matches USERNAME_FIRST c); cbn [flat_map]; [|simpl; lia].
  rewrite app_nil_r.
  change (bt (RCat (RStar (RClass USERNAME_ALNUM)) (RStar USERNAME_GROUP)) t) with
    (flat_map (bt (RStar USERNAME_GROUP)) (bt (RStar (RClass USERNAME_ALNUM)) t)).
  rewrite length_flat_map.
  etrans; [apply (list_sum_map_le _ (fun x => 2 ^ length x))|].
  - intros x _. apply bt_star_count, username_group_distinct.
  - etrans; [apply (sum_pow2_residuals _ (length t))|done].
    + apply class_star_distinct.
    + intros x Hx. exact (bt_residual_shorter _ _ _ Hx).
Qed.

(** C24. The cost of the two validators, in positions at which the
    search tests [$]: the username pattern tests at most [2^n - 1] on a
    string of [n] code points, so at most [2^25 - 1] on a string that
    passes the length check of the field, within a factor 2 of the
    [2^24 - 1] of [a^24!] ([username_redos]); the password pattern tests
    at most 57 whatever the input, since its body [[...]{8,64}] offers
    one position per count from 64 down to 8. *)
Theorem validator_cost_bounds s :
  bt_tries USERNAME_PATTERN s <= 2 ^ length s - 1 /\ bt_tries PASSWORD_PATTERN s <= 57.
Proof.
  unfold bt_tries. split; (etrans; [apply tries_le_length|]).
  - apply username_body_count.
  - apply (bt_rep_count _ 8 64 s), bt_class_count.
Qed.
