(* ===== verification/Pydantic.v ===== *)
(** * Pydantic: the validation pipeline the schemas run in

    Every class of [schemas.py] is a pydantic v2 [BaseModel]; validating a
    request body against it runs, in this order:

    + the [model_validator(mode="before")] functions on the raw input
      (only [UpdateUserBody] has one);
    + if the input is not a dict, a [model_type] error;
    + each field in the order of [model_fields]: a missing required field
      gives a [missing] error and a missing optional field takes its
      default without validation; a present value is checked against the
      field's type and [Field(...)] constraints ([min_length] before
      [max_length]) and, when that succeeds, passed to the field's
      [field_validator] functions (mode "after");
    + the errors of all fields are collected into one [ValidationError];
      a [ValueError] or [AssertionError] raised by a validator becomes
      an error of the list, any other exception escapes at once.

    This file models that pipeline: JSON values [jvalue], the model input
    [model_input], errors [verror] located by [loc], the outcome [vres]
    of a validation and its combinators.  The request body comes from
    FastAPI, which decodes the JSON and hands the Python object to
    pydantic; extra keys are ignored (pydantic's default [extra="ignore"]). *)

From S2P Require Import Prelude.

(** ** Inputs *)

(** A decoded JSON value.  Objects nested inside a field value are kept
    as association lists: no field of the schemas accepts one, only
    their truthiness and their type matter. *)
#[warnings="-register-all"]
Inductive jvalue :=
| JNull
| JBool (b : bool)
| JInt (z : Z)
| JStr (s : ustr)
| JList (l : list jvalue)
| JObj (kvs : list (string * jvalue)).

(** Python's [bool(value)]. *)
Definition truthy (v : jvalue) : bool :=
  match v with
  | JNull => false
  | JBool b => b
  | JInt z => negb (z =? 0)%Z
  | JStr s => negb (length s =? 0)%nat
  | JList l => negb (length l =? 0)%nat
  | JObj kvs => negb (length kvs =? 0)%nat
  end.

(** An [Optional[str]] value as JSON: [None] is [null]. *)
Definition opt_json (o : option ustr) : jvalue :=
  match o with
  | Some s => JStr s
  | None => JNull
  end.

(** The object handed to a model: a dict, or any other JSON value. *)
Inductive model_input :=
| MDict (d : gmap string jvalue)
| MOther (v : jvalue).

(** The dict built from the key-value pairs of a JSON object: as with
    [json.loads], a repeated key keeps its last value. *)
Definition dict_of (kvs : list (string * jvalue)) : gmap string jvalue := list_to_map (rev kvs).

(** ** Errors *)

Inductive loc_item :=
| LKey (k : string)
| LIdx (i : nat).

(** The error types pydantic reports for these schemas. *)
Inductive err_kind :=
| Missing                      (** [missing] *)
| ModelType                    (** [model_type]: the input is not a dict *)
| StringType                   (** [string_type] *)
| StringTooShort (n : nat)     (** [string_too_short] *)
| StringTooLong (n : nat)      (** [string_too_long] *)
| ValueErr (msg : string)      (** [value_error] from a [ValueError] *)
| AssertionErr (msg : string)  (** [assertion_error] *)
| EmailErr (reason : string)   (** [value_error] raised by [EmailStr] *)
| EnumErr                      (** [enum] *)
| ListType.                    (** [list_type] *)

Record verror := VError { loc : list loc_item; kind : err_kind }.

(** The outcome of a validation: a value, the list of errors of a
    [ValidationError], or an exception that escapes pydantic. *)
Inductive vres (A : Type) :=
| VOk (a : A)
| VErr (errs : list verror)
| VRaise (e : pyexn).
Arguments VOk {A} a.
Arguments VErr {A} errs.
Arguments VRaise {A} e.

Definition err_here {A} (k : err_kind) : vres A := VErr [VError [] k].

Definition vmap {A B} (f : A -> B) (r : vres A) : vres B :=
  match r with
  | VOk a => VOk (f a)
  | VErr es => VErr es
  | VRaise e => VRaise e
  end.

(** An error located one step further down. *)
Definition prefix_loc (l : loc_item) (e : verror) : verror := VError (l :: loc e) (kind e).

(** Prefix the location of every error. *)
Definition at_loc {A} (l : loc_item) (r : vres A) : vres A :=
  match r with
  | VErr es => VErr (map (prefix_loc l) es)
  | _ => r
  end.

(** Two fields validated one after the other: the errors of both are
    collected; an escaping exception stops the validation. *)
Definition vpair {A B} (r1 : vres A) (r2 : vres B) : vres (A * B) :=
  match r1, r2 with
  | VRaise e, _ => VRaise e
  | _, VRaise e => VRaise e
  | VOk a, VOk b => VOk (a, b)
  | VOk _, VErr es => VErr es
  | VErr es, VOk _ => VErr es
  | VErr es1, VErr es2 => VErr (es1 ++ es2)
  end.

(** How pydantic turns the outcome of a validator function into a
    validation outcome. *)
Definition of_pyres {A} (r : pyres A) : vres A :=
  match r with
  | Ret a => VOk a
  | Exc (ValueError msg) => err_here (ValueErr msg)
  | Exc (AssertionError msg) => err_here (AssertionErr msg)
  | Exc e => VRaise e
  end.

(** A [field_validator] in mode "after": it runs only on a value that
    passed the type and the constraints. *)
Definition after {A B} (f : A -> pyres B) (r : vres A) : vres B :=
  match r with
  | VOk a => of_pyres (f a)
  | VErr es => VErr es
  | VRaise e => VRaise e
  end.

(** ** Field types *)

(** [str] with [Field(min_length=..., max_length=...)]; lengths count
    code points, as [len] does. *)
Definition validate_str (min_length max_length : option nat) (v : jvalue) : vres ustr :=
  match v with
  | JStr s =>
      match min_length with
      | Some n => if (length s <? n)%nat then err_here (StringTooShort n) else
          match max_length with
          | Some m => if (m <? length s)%nat then err_here (StringTooLong m) else VOk s
          | None => VOk s
          end
      | None =>
          match max_length with
          | Some m => if (m <? length s)%nat then err_here (StringTooLong m) else VOk s
          | None => VOk s
          end
      end
  | _ => err_here StringType
  end.

(** [Optional[T]]: [None] is accepted, anything else is validated as a
    [T]. *)
Definition validate_optional {A} (inner : jvalue -> vres A) (v : jvalue) : vres (option A) :=
  match v with
  | JNull => VOk None
  | _ => vmap Some (inner v)
  end.

(** A required field of a dict. *)
Definition required_field {A} (d : gmap string jvalue) (name : string)
    (validate : jvalue -> vres A) : vres A :=
  match d !! name with
  | None => VErr [VError [LKey name] Missing]
  | Some v => at_loc (LKey name) (validate v)
  end.

(** A field with the default [None]: the default is not validated, so
    the field's validators do not run on it. *)
Definition optional_field {A} (d : gmap string jvalue) (name : string)
    (validate : jvalue -> vres (option A)) : vres (option A) :=
  match d !! name with
  | None => VOk None
  | Some v => at_loc (LKey name) (validate v)
  end.

(** [list[T]]: each item validated, errors located by index. *)
Fixpoint validate_items {A} (validate : jvalue -> vres A) (i : nat) (l : list jvalue)
    : vres (list A) :=
  match l with
  | [] => VOk []
  | v :: l' =>
      vmap (fun '(a, rest) => a :: rest)
        (vpair (at_loc (LIdx i) (validate v)) (validate_items validate (S i) l'))
  end.

Definition validate_list {A} (validate : jvalue -> vres A) (v : jvalue) : vres (list A) :=
  match v with
  | JList l => validate_items validate 0 l
  | _ => err_here ListType
  end.

(** ** Lemmas on the pipeline *)

(** The errors of an outcome, empty when it is not a [ValidationError]. *)
Definition errors_of {A} (r : vres A) : list verror :=
  match r with
  | VErr es => es
  | _ => []
  end.

Definition raised {A} (r : vres A) : bool := if r is VRaise _ then true else false.

(** Errors located under a key or an index. *)
Definition located (e : verror) : Prop := loc e <> [].

(** A validator that raises nothing but [ValueError]: pydantic turns all
    of its exceptions into validation errors. *)
Definition value_errors_only {A B} (f : A -> pyres B) : Prop :=
  forall x e, f x = Exc e -> exists m, e = ValueError m.

Lemma vmap_ok {A B} (f : A -> B) r b : vmap f r = VOk b <-> exists a, r = VOk a /\ b = f a.
Proof. destruct r; simpl; split; try naive_solver; by intros [= <-]; eauto. Qed.

Lemma vpair_ok {A B} (r1 : vres A) (r2 : vres B) a b :
  vpair r1 r2 = VOk (a, b) <-> r1 = VOk a /\ r2 = VOk b.
Proof. destruct r1, r2; simpl; split; naive_solver. Qed.

(** Without an escaping exception, the errors of two fields are the
    errors of the first followed by the errors of the second. *)
Lemma vpair_errors {A B} (r1 : vres A) (r2 : vres B) :
  raised r1 = false -> raised r2 = false ->
  errors_of (vpair r1 r2) = errors_of r1 ++ errors_of r2.
Proof. destruct r1, r2; simpl; by rewrite ?app_nil_r. Qed.

Lemma vpair_raised {A B} (r1 : vres A) (r2 : vres B) :
  raised (vpair r1 r2) = raised r1 || raised r2.
Proof. by destruct r1, r2. Qed.

Lemma at_loc_ok {A} l (r : vres A) a : at_loc l r = VOk a <-> r = VOk a.
Proof. destruct r; simpl; naive_solver. Qed.

Lemma at_loc_raised {A} l (r : vres A) : raised (at_loc l r) = raised r.
Proof. by destruct r. Qed.

Lemma of_pyres_ok {A} (r : pyres A) a : of_pyres r = VOk a <-> r = Ret a.
Proof. destruct r as [|[]]; simpl; naive_solver. Qed.

Lemma after_ok {A B} (f : A -> pyres B) r b :
  after f r = VOk b <-> exists a, r = VOk a /\ f a = Ret b.
Proof.
  destruct r as [a| |]; simpl; [|naive_solver|naive_solver].
  rewrite of_pyres_ok. naive_solver.
Qed.

Lemma validate_str_ok n m v s :
  validate_str (Some n) (Some m) v = VOk s <->
  v = JStr s /\ (n <= length s <= m)%nat.
Proof.
  destruct v; simpl; try (split; [discriminate|naive_solver]).
  destruct (Nat.ltb_spec (length s0) n); [split; [discriminate|naive_solver lia]|].
  destruct (Nat.ltb_spec m (length s0)); [split; [discriminate|naive_solver lia]|].
  split; [intros [= ->]; split; [done|lia]|naive_solver].
Qed.

(** A plain [str] field accepts exactly the strings. *)
Lemma validate_str_plain_ok v s : validate_str None None v = VOk s <-> v = JStr s.
Proof. destruct v; simpl; naive_solver. Qed.

Lemma required_field_ok {A} d name (f : jvalue -> vres A) a :
  required_field d name f = VOk a <-> exists v, d !! name = Some v /\ f v = VOk a.
Proof.
  unfold required_field. destruct (d !! name); [|naive_solver].
  rewrite at_loc_ok. naive_solver.
Qed.

Lemma optional_field_ok {A} d name (f : jvalue -> vres (option A)) a :
  optional_field d name f = VOk a <->
  (d !! name = None /\ a = None) \/ (exists v, d !! name = Some v /\ f v = VOk a).
Proof.
  unfold optional_field. destruct (d !! name); [|naive_solver].
  rewrite at_loc_ok. naive_solver.
Qed.

(** A list validates when each item does, and keeps its length. *)
Lemma validate_items_ok {A} (f : jvalue -> vres A) i l xs :
  validate_items f i l = VOk xs <-> Forall2 (fun v x => f v = VOk x) l xs.
Proof.
  revert i xs. induction l as [|v l IH]; intros i xs; simpl.
  - split; [intros [= <-]; constructor|intros H; by inversion H].
  - split.
    + intros H. apply vmap_ok in H as ([a rest] & Hp & ->).
      apply vpair_ok in Hp as [Ha Hr]. apply at_loc_ok in Ha. apply IH in Hr. by constructor.
    + intros H. inversion H as [|? x ? xs' Hx Hxs]; subst.
      apply vmap_ok. exists (x, xs'). split; [|done].
      apply vpair_ok. rewrite at_loc_ok, IH. done.
Qed.

Lemma validate_str_raised n m v : raised (validate_str n m v) = false.
Proof. destruct v; simpl; try done. repeat case_match; done. Qed.

Lemma after_raised {A B} (f : A -> pyres B) r :
  raised r = false -> (forall a, raised (of_pyres (f a)) = false) ->
  raised (after f r) = false.
Proof. destruct r; simpl; auto. Qed.

Lemma vmap_raised {A B} (f : A -> B) r : raised (vmap f r) = raised r.
Proof. by destruct r. Qed.

Lemma vmap_errors {A B} (f : A -> B) r : errors_of (vmap f r) = errors_of r.
Proof. by destruct r. Qed.

Lemma required_field_raised {A} d name (f : jvalue -> vres A) :
  (forall v, raised (f v) = false) -> raised (required_field d name f) = false.
Proof.
  intros Hf. unfold required_field. destruct (d !! name); [|done].
  by rewrite at_loc_raised.
Qed.

Lemma optional_field_raised {A} d name (f : jvalue -> vres (option A)) :
  (forall v, raised (f v) = false) -> raised (optional_field d name f) = false.
Proof.
  intros Hf. unfold optional_field. destruct (d !! name); [|done].
  by rewrite at_loc_raised.
Qed.

#[export] Hint Resolve validate_str_raised : pyval.

Lemma validate_optional_ok {A} (inner : jvalue -> vres A) v o :
  validate_optional inner v = VOk o <->
  (v = JNull /\ o = None) \/ (v <> JNull /\ exists a, inner v = VOk a /\ o = Some a).
Proof.
  destruct v; simpl; try rewrite vmap_ok; naive_solver.
Qed.

(** A validator that raises nothing but [ValueError] never lets an
    exception escape. *)
Lemma after_value_errors_raised {A B} (f : A -> pyres B) r :
  value_errors_only f -> raised r = false -> raised (after f r) = false.
Proof.
  intros Hf Hr. apply after_raised; [done|]. intros a.
  destruct (f a) as [|e] eqn:E; [done|]. by destruct (Hf _ _ E) as [m ->].
Qed.

Lemma vpair_located {A B} (r1 : vres A) (r2 : vres B) :
  Forall located (errors_of r1) -> Forall located (errors_of r2) ->
  Forall located (errors_of (vpair r1 r2)).
Proof. destruct r1, r2; simpl; intros; rewrite ?Forall_app; auto. Qed.

Lemma required_field_located {A} d name (f : jvalue -> vres A) :
  Forall located (errors_of (required_field d name f)).
Proof.
  unfold required_field. destruct (d !! name); simpl.
  - destruct (f j); simpl; [constructor| |constructor].
    apply Forall_forall. intros e He. apply list_elem_of_In, in_map_iff in He as (x & <- & _).
    unfold located. simpl. discriminate.
  - constructor; [unfold located; simpl; discriminate|constructor].
Qed.

Lemma optional_field_located {A} d name (f : jvalue -> vres (option A)) :
  Forall located (errors_of (optional_field d name f)).
Proof.
  unfold optional_field. destruct (d !! name); simpl; [|constructor].
  destruct (f j); simpl; [constructor| |constructor].
  apply Forall_forall. intros e He. apply list_elem_of_In, in_map_iff in He as (x & <- & _).
  unfold located. simpl. discriminate.
Qed.

#[export] Hint Resolve vpair_located required_field_located optional_field_located : pyval.

Lemma validate_optional_raised {A} (inner : jvalue -> vres A) v :
  (forall w, raised (inner w) = false) -> raised (validate_optional inner v) = false.
Proof. intros Hi. destruct v; simpl; rewrite ?vmap_raised; auto. Qed.

(** An [Optional[str]] field with such a validator lets nothing escape. *)
Lemma after_optional_str_raised {B} (f : option ustr -> pyres B) n m w :
  value_errors_only f -> raised (after f (validate_optional (validate_str n m) w)) = false.
Proof.
  intros Hf. apply after_value_errors_raised; [done|].
  apply validate_optional_raised. intros w'. apply validate_str_raised.
Qed.

Lemma at_loc_errors {A} l (r : vres A) : errors_of (at_loc l r) = map (prefix_loc l) (errors_of r).
Proof. by destruct r. Qed.

(** The errors of a list are those of its items, in order, each located
    under the item's index. *)
Lemma validate_items_errors {A} (f : jvalue -> vres A) i l :
  Forall (fun v => raised (f v) = false) l ->
  raised (validate_items f i l) = false /\
  errors_of (validate_items f i l) =
    concat (imap (fun k v => map (prefix_loc (LIdx (i + k))) (errors_of (f v))) l).
Proof.
  revert i. induction l as [|v l IH]; intros i Hl; simpl; [done|].
  apply Forall_cons in Hl as [Hv Hl]. destruct (IH (S i) Hl) as [R E].
  rewrite vmap_raised, vmap_errors, vpair_raised, at_loc_raised, Hv, R.
  split; [done|]. rewrite vpair_errors by (by rewrite ?at_loc_raised). rewrite at_loc_errors, E.
  rewrite Nat.add_0_r. f_equal. f_equal. apply imap_ext. intros k x _. simpl. do 3 f_equal. lia.
Qed.
