(* ===== verification/Classes.v ===== *)
(** * Classes: the class declarations of [schemas.py] and their fields

    Every model of [schemas.py] is a class that inherits its fields.
    pydantic lists the fields of a class by walking its method resolution
    order (MRO) from the most basic class down and keeping the first
    position of every annotated name; that order is the order in which
    the fields are validated, so it is the order of the errors of a
    [ValidationError].  This file models the declarations and both steps:

    - [pyclass] names the classes, [bases] gives the bases of each class
      as written in its [class] line, [own_fields] the fields annotated in
      its body;
    - [merge] and [mro] are Python's C3 linearisation
      ([type.mro]), with [None] for the [TypeError] raised on an
      inconsistent hierarchy;
    - [collect_fields] and [model_fields] are pydantic's collection of
      the annotations over the reversed MRO.

    [merge_terminates] shows the fuel of [merge] is enough on every input.
    [Contracts.schema_field_orders] links [model_fields] to the schemas:
    the missing-field errors of each [model_validate] come in the order
    [model_fields] computes from these declarations.

    The classes imported from elsewhere ([Schema], [PublicSchema],
    [PaginationSchema]) are taken to derive from [BaseModel] directly and
    to annotate no field; [PaginationSchema]'s page fields are the
    [PaginationSchema] interface of [Collaborators].  [merge] is given as
    fuel the total length of its sequences and [mro] the number of
    classes, enough for any acyclic hierarchy of these classes. *)

From S2P Require Import Prelude.

(** ** The declarations *)

Inductive pyclass :=
| BaseModel | Schema | PublicSchema | PaginationSchema
| UserSchema | PasswordSchema | User | UserBody | UserPublic | UsersPublic
| UpdateUserBody | CallbackGoogle | CallbackGoogleBody | CallbackGooglePublic
| LoginUser | LoginUserBody | LoginUserPublic | LogoutUserPublic | Refresh | RefreshPublic.

#[export] Instance pyclass_eq_dec : EqDecision pyclass.
Proof. solve_decision. Defined.

Definition all_classes : list pyclass :=
  [BaseModel; Schema; PublicSchema; PaginationSchema; UserSchema; PasswordSchema; User;
   UserBody; UserPublic; UsersPublic; UpdateUserBody; CallbackGoogle; CallbackGoogleBody;
   CallbackGooglePublic; LoginUser; LoginUserBody; LoginUserPublic; LogoutUserPublic;
   Refresh; RefreshPublic].

(** The bases of each [class C(B1, B2):] line. *)
Definition bases (c : pyclass) : list pyclass :=
  match c with
  | BaseModel => []
  | Schema | PublicSchema | PaginationSchema => [BaseModel]
  | UserSchema | PasswordSchema => [Schema]
  | User => [UserSchema]
  | UserBody => [User; PasswordSchema]
  | UserPublic => [User; PublicSchema]
  | UsersPublic => [PaginationSchema]
  | UpdateUserBody | CallbackGoogle => [Schema]
  | CallbackGoogleBody => [CallbackGoogle]
  | CallbackGooglePublic => [UserSchema; PublicSchema]
  | LoginUser => [UserSchema]
  | LoginUserBody => [LoginUser; PasswordSchema]
  | LoginUserPublic => [LoginUser; PublicSchema]
  | LogoutUserPublic | Refresh => [Schema]
  | RefreshPublic => [Refresh]
  end.

(** The names annotated in each class body, in source order ([User]'s
    [phoneNumber] is commented out). *)
Definition own_fields (c : pyclass) : list string :=
  match c with
  | UserSchema => ["username"; "email"]
  | PasswordSchema => ["password"]
  | UserPublic => ["role"; "phoneNumber"]
  | UsersPublic => ["data"]
  | UpdateUserBody => ["email"; "username"; "password"; "phoneNumber"]
  | CallbackGoogleBody => ["code"]
  | LogoutUserPublic => ["message"]
  | RefreshPublic => ["accessToken"]
  | _ => []
  end%string.

(** ** C3 linearisation *)

(** [not any(cand in t[1:] for t in nonempty)] *)
Definition in_some_tail (c : pyclass) (seqs : list (list pyclass)) : bool :=
  existsb (fun t => bool_decide (c ∈ tail t)) seqs.

(** The first head that is in no tail. *)
Fixpoint find_candidate (all seqs : list (list pyclass)) : option pyclass :=
  match seqs with
  | [] => None
  | [] :: seqs' => find_candidate all seqs'
  | (c :: _) :: seqs' => if in_some_tail c all then find_candidate all seqs' else Some c
  end.

(** [del s[0]] on every sequence that starts with the candidate. *)
Definition drop_head (cand : pyclass) (s : list pyclass) : list pyclass :=
  match s with
  | c :: s' => if decide (c = cand) then s' else s
  | [] => []
  end.

Definition nonempty (seqs : list (list pyclass)) : list (list pyclass) :=
  filter (fun s : list pyclass => s <> []) seqs.

Fixpoint merge (fuel : nat) (seqs : list (list pyclass)) : option (list pyclass) :=
  match nonempty seqs with
  | [] => Some []
  | ne =>
      match fuel with
      | O => None
      | S f =>
          match find_candidate ne ne with
          | None => None
          | Some cand =>
              res ← merge f (map (drop_head cand) ne);
              Some (cand :: res)
          end
      end
  end.

Definition total_length (seqs : list (list pyclass)) : nat := sum_list_with length seqs.

(** [C.__mro__ = [C] + merge(B1.__mro__, ..., Bk.__mro__, [B1, ..., Bk])] *)
Fixpoint mro_fuel (n : nat) (c : pyclass) : option (list pyclass) :=
  match n with
  | O => None
  | S n' =>
      ms ← mapM (mro_fuel n') (bases c);
      res ← merge (total_length (ms ++ [bases c])) (ms ++ [bases c]);
      Some (c :: res)
  end.

Definition mro (c : pyclass) : option (list pyclass) := mro_fuel (length all_classes) c.

(** ** Field collection *)

(** Over the reversed MRO, a name keeps the position of its first
    annotation. *)
Definition collect_fields (order : list pyclass) : list string :=
  foldl (fun acc c => acc ++ filter (fun f => f ∉ acc) (own_fields c)) [] (reverse order).

Definition model_fields (c : pyclass) : option (list string) := collect_fields <$> mro c.





(** ** The C3 merge terminates *)

Lemma total_length_cons s seqs : total_length (s :: seqs) = length s + total_length seqs.
Proof. reflexivity. Qed.

Lemma total_length_nonempty seqs : total_length (nonempty seqs) = total_length seqs.
Proof.
  unfold nonempty. induction seqs as [|s seqs IH]; [done|].
  rewrite filter_cons, total_length_cons. case_decide as Hs.
  - by rewrite total_length_cons, IH.
  - subst s. by rewrite IH.
Qed.

Lemma nonempty_total_zero seqs : total_length seqs = 0 -> nonempty seqs = [].
Proof.
  intros H. rewrite <- total_length_nonempty in H.
  destruct (nonempty seqs) as [|s ne] eqn:E; [done|].
  assert (s <> []) as Hs.
  { assert (s ∈ nonempty seqs) as Hin by (rewrite E; left). by apply list_elem_of_filter in Hin as [? _]. }
  rewrite total_length_cons in H. destruct s; [done|simpl in H; lia].
Qed.

Lemma find_candidate_head all seqs c :
  find_candidate all seqs = Some c -> exists s, (c :: s) ∈ seqs.
Proof.
  induction seqs as [|[|c' s] seqs IH]; simpl; [done| |].
  - intros (s & Hs)%IH. exists s. by right.
  - case_match; [intros (s' & Hs')%IH; exists s'; by right|intros [= ->]; exists s; left].
Qed.

Lemma drop_head_length c s : length (drop_head c s) <= length s.
Proof. destruct s; simpl; [done|]. case_decide; simpl; lia. Qed.

Lemma total_length_drop_le c seqs : total_length (map (drop_head c) seqs) <= total_length seqs.
Proof.
  induction seqs as [|s seqs IH]; [done|]. simpl map. rewrite !total_length_cons.
  pose proof (drop_head_length c s). lia.
Qed.

(** Dropping the candidate shortens the sequence it heads. *)
Lemma total_length_drop_lt c s seqs :
  (c :: s) ∈ seqs -> total_length (map (drop_head c) seqs) < total_length seqs.
Proof.
  induction seqs as [|s' seqs IH]; [by intros ?%elem_of_nil|]. simpl map.
  rewrite !total_length_cons. intros [<-|Hin]%elem_of_cons.
  - simpl. rewrite decide_True by done. pose proof (total_length_drop_le c seqs). simpl. lia.
  - pose proof (IH Hin). pose proof (drop_head_length c s'). lia.
Qed.

Lemma merge_S f seqs :
  merge (S f) seqs =
  match nonempty seqs with
  | [] => Some []
  | ne =>
      match find_candidate ne ne with
      | None => None
      | Some cand => res ← merge f (map (drop_head cand) ne); Some (cand :: res)
      end
  end.
Proof. simpl. by destruct (nonempty seqs). Qed.

Lemma merge_fuel_step f seqs : total_length seqs <= f -> merge (S f) seqs = merge f seqs.
Proof.
  revert seqs. induction f as [|f IH]; intros seqs Hf.
  - cbn [merge]. by rewrite (nonempty_total_zero seqs) by lia.
  - rewrite (merge_S (S f)), (merge_S f).
    destruct (nonempty seqs) as [|s ne] eqn:E; [done|]. cbv beta iota zeta.
    destruct (find_candidate (s :: ne) (s :: ne)) as [c|] eqn:Ec; [|done].
    rewrite IH; [done|]. apply find_candidate_head in Ec as (s' & Hs').
    pose proof (total_length_drop_lt _ _ _ Hs'). rewrite <- E, total_length_nonempty in *. lia.
Qed.



(** The C3 merge terminates: every step takes the candidate off the
    head of at least one sequence, so once the fuel covers the total
    length of the sequences the result (an MRO, or [None] for the
    [TypeError] of an inconsistent hierarchy) no longer depends on it;
    [mro] gives each merge exactly that fuel. *)
Theorem merge_terminates f seqs :
  total_length seqs <= f -> merge f seqs = merge (total_length seqs) seqs.
Proof.
  intros H. induction H as [|m Hm IH]; [done|]. by rewrite merge_fuel_step.
Qed.


