(* ===== verification/Collaborators.v ===== *)
(** * Collaborators: what [schemas.py] imports from outside the file

    The schemas call four things they do not define.  Each is an interface
    here, a type class the schema files take as a [Context], so that the
    theorems hold for every implementation that meets the interface:

    - [EmailStr] of pydantic (the [email-validator] package): a string is
      accepted and normalised, or rejected with a reason.  The one law
      asked of it is that a normalised address validates to itself;
    - [check_phone_number] of [src.utils.validation] (not in the sources
      given): returns the canonical form of a number or raises;
    - [RoleEnum] of [src.enums.user] (not in the sources given): an
      enumeration with a member [USER], validated from its JSON value;
    - [PaginationSchema] of [src.schemas] (not in the sources given): the
      page metadata fields of a paginated response.

    [Sample] gives one small implementation of each, used only to run the
    schemas on concrete inputs in the witnesses. *)

From S2P Require Import Prelude Pydantic.

(** ** Interfaces *)

Class EmailStrValidator := {
  (** [inl reason] rejects, [inr normalized] accepts. *)
  validate_email : ustr -> string + ustr;
  validate_email_normalized : forall e n, validate_email e = inr n -> validate_email n = inr n
}.

Class PhoneNumberChecker := {
  check_phone_number : ustr -> pyres ustr
}.

Class RoleEnumType := {
  RoleEnum : Type;
  RoleEnum_USER : RoleEnum;
  (** The value of a member, as [model_dump(mode="json")] writes it. *)
  role_value : RoleEnum -> jvalue;
  (** [RoleEnum(value)]: the member with that value, if any. *)
  role_of_value : jvalue -> option RoleEnum;
  role_of_value_value : forall r, role_of_value (role_value r) = Some r
}.

Class PaginationSchema := {
  page_meta : Type;
  validate_page_meta : gmap string jvalue -> vres page_meta
}.

(** ** Sample implementations *)

Module Sample.

(** Accepts a string with exactly one [@] and characters on both sides,
    and returns it unchanged. *)
Definition sample_email (e : ustr) : string + ustr :=
  match List.filter (fun c => (c =? 64)%Z) e with
  | [_] => match e with
           | [] => inl "empty"%string
           | c :: _ =>
               if (c =? 64)%Z then inl "empty local part"%string
               else if decide (last e = Some 64%Z) then inl "empty domain"%string
               else inr e
           end
  | _ => inl "one @ expected"%string
  end.

#[export] Program Instance email : EmailStrValidator := {| validate_email := sample_email |}.
Next Obligation.
  intros e n H. assert (n = e) as ->; [|exact H].
  unfold sample_email in H. repeat case_match; congruence.
Qed.

(** Accepts [+] followed by digits and returns it unchanged. *)
#[export] Instance phone : PhoneNumberChecker := {|
  check_phone_number p :=
    match p with
    | c :: ds => if (c =? 43)%Z && forallb (fun d => (48 <=? d)%Z && (d <=? 57)%Z) ds
                 then Ret p else Exc (ValueError "Invalid phone number")
    | [] => Exc (ValueError "Invalid phone number")
    end |}.

Inductive role := USER | ADMIN.

Definition role_value_of (r : role) : jvalue :=
  match r with USER => JStr (py "user") | ADMIN => JStr (py "admin") end.

Definition role_of (v : jvalue) : option role :=
  match v with
  | JStr s => if decide (s = py "user") then Some USER
              else if decide (s = py "admin") then Some ADMIN else None
  | _ => None
  end.

#[export] Program Instance roles : RoleEnumType := {|
  RoleEnum := role; RoleEnum_USER := USER;
  role_value := role_value_of; role_of_value := role_of |}.
Next Obligation. by intros []. Qed.

(** Page metadata: a required integer [page]. *)
#[export] Instance pages : PaginationSchema := {|
  page_meta := Z;
  validate_page_meta d :=
    match d !! "page"%string with
    | Some (JInt z) => VOk z
    | Some _ => VErr [VError [LKey "page"] StringType]
    | None => VErr [VError [LKey "page"] Missing]
    end |}.

End Sample.
