(* ===== verification/Schemas.v ===== *)
(** * Schemas: the request and response models of [schemas.py]

    One Module per class, in the order of the source.  A class with
    fields has a Record [t] of its validated fields and a
    [model_validate], the pipeline of [Pydantic] specialised to its
    fields in the order of [model_fields]; a class with a
    [field_validator] has that function, translated line by line.

    Field order.  pydantic collects the annotations of a class by walking
    its MRO from [object] down, so inherited fields come first, and in
    [UserBody(User, PasswordSchema)] the MRO
    [UserBody, User, UserSchema, PasswordSchema, Schema, BaseModel]
    puts [password] before [username] and [email]
    ([Contracts.schema_field_orders] checks it against [Classes]).  The order decides only
    the order of the errors of a [ValidationError].

    [username_redos] joins the cost model of [Backtrack] to the
    [username] field: its length bound does not bound the work of the
    pattern.

    [UpdateUserBody], the one class with a model validator, is in
    [UpdateUser]. *)

From S2P Require Import Prelude Chars Regex Patterns Backtrack Pydantic Collaborators.

(** Both policies are decidable, through the matcher. *)
#[export] Instance password_policy_dec s : Decision (password_policy s).
Proof.
  destruct (fullmatch PASSWORD_PATTERN s) eqn:E; [left|right];
    rewrite <- password_fullmatch_iff; congruence.
Defined.

#[export] Instance username_rules_dec s : Decision (username_rules s).
Proof.
  destruct (fullmatch USERNAME_PATTERN s) eqn:E; [left|right];
    rewrite <- username_fullmatch_iff; congruence.
Defined.

(** ** Field types shared by several classes *)

(** [username: str = Field(..., min_length=2, max_length=25)] (line 14). *)
Definition username_field : jvalue -> vres ustr := validate_str (Some 2) (Some 25).

(** [password: str = Field(..., min_length=8, max_length=64)] (line 19). *)
Definition password_field : jvalue -> vres ustr := validate_str (Some 8) (Some 64).

(** [email: EmailStr]: a [str], then [validate_email], whose normalised
    form becomes the field's value. *)
Definition email_field `{EmailStrValidator} (v : jvalue) : vres ustr :=
  match validate_str None None v with
  | VOk s =>
      match validate_email s with
      | inl reason => err_here (EmailErr reason)
      | inr normalized => VOk normalized
      end
  | VErr es => VErr es
  | VRaise e => VRaise e
  end.

(** A plain [str] field. *)
Definition str_field : jvalue -> vres ustr := validate_str None None.

Definition PASSWORD_ERROR : string :=
  "Password is invalid. It must contain at least: one lowercase letter, one upper case letter, one digit, on special character. Length: 8-64".

Definition USERNAME_ERROR : string :=
  "Username is invalid. It cannot contain special characters and cannot be ended with: ., _".

(** ** [UserSchema] (lines 13-15) *)

Module UserSchema.
Record t := { username : ustr; email : ustr }.

Section S.
Context `{EmailStrValidator}.

Definition model_validate (inp : model_input) : vres t :=
  match inp with
  | MOther _ => err_here ModelType
  | MDict d =>
      vmap (fun '(u, e) => {| username := u; email := e |})
        (vpair (required_field d "username" username_field)
               (required_field d "email" email_field))
  end.
End S.

(** [model_dump(mode="json")]: one key per field. *)
Definition model_dump (u : t) : gmap string jvalue :=
  <["username" := JStr (username u)]> {["email" := JStr (email u)]}.
End UserSchema.

(** ** [PasswordSchema] (lines 18-25) *)

Module PasswordSchema.
(** [validate_password(value)] (lines 21-25). *)
Definition validate_password (value : ustr) : pyres ustr :=
  if negb (fullmatch PASSWORD_PATTERN value) then raise_value_error PASSWORD_ERROR
  else Ret value.

(** The [password] field with its validator, as every subclass has it. *)
Definition password (v : jvalue) : vres ustr := after validate_password (password_field v).
End PasswordSchema.

(** ** [UserBody(User, PasswordSchema)] (lines 39-45) *)

Module UserBody.
Record t := { password : ustr; username : ustr; email : ustr }.

(** [validate_username(value)] (lines 41-45). *)
Definition validate_username (value : ustr) : pyres ustr :=
  if negb (fullmatch USERNAME_PATTERN value) then raise_value_error USERNAME_ERROR
  else Ret value.

Section S.
Context `{EmailStrValidator}.

Definition model_validate (inp : model_input) : vres t :=
  match inp with
  | MOther _ => err_here ModelType
  | MDict d =>
      vmap (fun '(p, (u, e)) => {| password := p; username := u; email := e |})
        (vpair (required_field d "password" PasswordSchema.password)
          (vpair (required_field d "username"
                    (fun v => after validate_username (username_field v)))
                 (required_field d "email" email_field)))
  end.
End S.

(** [model_dump()] of a validated body. *)
Definition model_dump (b : t) : gmap string jvalue :=
  <["password" := JStr (password b)]>
  (<["username" := JStr (username b)]> {["email" := JStr (email b)]}).
End UserBody.

(** ** [LoginUserBody(LoginUser, PasswordSchema)] (lines 106-115) *)

Module LoginUserBody.
Record t := { password : ustr; username : ustr; email : ustr }.

(** [validate_username(value)] (lines 111-115). *)
Definition validate_username (value : ustr) : pyres ustr :=
  if negb (fullmatch USERNAME_PATTERN value) then raise_value_error USERNAME_ERROR
  else Ret value.

Section S.
Context `{EmailStrValidator}.

Definition model_validate (inp : model_input) : vres t :=
  match inp with
  | MOther _ => err_here ModelType
  | MDict d =>
      vmap (fun '(p, (u, e)) => {| password := p; username := u; email := e |})
        (vpair (required_field d "password" PasswordSchema.password)
          (vpair (required_field d "username"
                    (fun v => after validate_username (username_field v)))
                 (required_field d "email" email_field)))
  end.
End S.

Definition model_dump (b : t) : gmap string jvalue :=
  <["password" := JStr (password b)]>
  (<["username" := JStr (username b)]> {["email" := JStr (email b)]}).
End LoginUserBody.

(** ** [UserPublic(User, PublicSchema)] (lines 48-50) *)

Module UserPublic.
Section S.
Context `{RoleEnumType}.

Record t := { username : ustr; email : ustr; role : RoleEnum; phoneNumber : option ustr }.

(** [role: RoleEnum]. *)
Definition role_field (v : jvalue) : vres RoleEnum :=
  match role_of_value v with
  | Some r => VOk r
  | None => err_here EnumErr
  end.

Context `{EmailStrValidator}.

Definition model_validate (inp : model_input) : vres t :=
  match inp with
  | MOther _ => err_here ModelType
  | MDict d =>
      vmap (fun '(u, (e, (r, p))) =>
              {| username := u; email := e; role := r; phoneNumber := p |})
        (vpair (required_field d "username" username_field)
          (vpair (required_field d "email" email_field)
            (vpair (required_field d "role" role_field)
                   (optional_field d "phoneNumber" (validate_optional str_field)))))
  end.

(** [model_dump(mode="json")]: the keys are the fields of the class. *)
Definition model_dump (u : t) : gmap string jvalue :=
  <["username" := JStr (username u)]>
  (<["email" := JStr (email u)]>
  (<["role" := role_value (role u)]>
  {["phoneNumber" := match phoneNumber u with Some p => JStr p | None => JNull end]})).
End S.
End UserPublic.

(** ** [UsersPublic(PaginationSchema)] (lines 53-54) *)

Module UsersPublic.
Section S.
Context `{RoleEnumType} `{EmailStrValidator} `{PaginationSchema}.

Record t := { meta : page_meta; data : list UserPublic.t }.

(** An item of [data] is validated as a [UserPublic]. *)
Definition user_item (v : jvalue) : vres UserPublic.t :=
  match v with
  | JObj kvs => UserPublic.model_validate (MDict (dict_of kvs))
  | _ => err_here ModelType
  end.

Definition model_validate (inp : model_input) : vres t :=
  match inp with
  | MOther _ => err_here ModelType
  | MDict d =>
      vmap (fun '(m, l) => {| meta := m; data := l |})
        (vpair (validate_page_meta d) (required_field d "data" (validate_list user_item)))
  end.
End S.
End UsersPublic.

(** ** [CallbackGoogleBody(CallbackGoogle)] (lines 94-99) *)

Module CallbackGoogleBody.
Record t := { code : ustr }.

Definition model_validate (inp : model_input) : vres t :=
  match inp with
  | MOther _ => err_here ModelType
  | MDict d => vmap (fun c => {| code := c |}) (required_field d "code" str_field)
  end.

Definition model_dump (c : t) : gmap string jvalue := {["code" := JStr (code c)]}.
End CallbackGoogleBody.

(** ** [LogoutUserPublic] (lines 122-123) and [RefreshPublic(Refresh)]
    (lines 126-131) *)

Module LogoutUserPublic.
Record t := { message : ustr }.

Definition model_validate (inp : model_input) : vres t :=
  match inp with
  | MOther _ => err_here ModelType
  | MDict d => vmap (fun m => {| message := m |}) (required_field d "message" str_field)
  end.

Definition model_dump (m : t) : gmap string jvalue := {["message" := JStr (message m)]}.
End LogoutUserPublic.

Module RefreshPublic.
Record t := { accessToken : ustr }.

Definition model_validate (inp : model_input) : vres t :=
  match inp with
  | MOther _ => err_here ModelType
  | MDict d =>
      vmap (fun a => {| accessToken := a |}) (required_field d "accessToken" str_field)
  end.

Definition model_dump (r : t) : gmap string jvalue := {["accessToken" := JStr (accessToken r)]}.
End RefreshPublic.

(** ** [CallbackGooglePublic(UserSchema, PublicSchema)] (lines 102-103)
    and [LoginUserPublic(LoginUser, PublicSchema)] (lines 118-119): the
    fields of [UserSchema], [username] then [email]. *)

Module CallbackGooglePublic.
Record t := { username : ustr; email : ustr }.

Section S.
Context `{EmailStrValidator}.

Definition model_validate (inp : model_input) : vres t :=
  match inp with
  | MOther _ => err_here ModelType
  | MDict d =>
      vmap (fun '(u, e) => {| username := u; email := e |})
        (vpair (required_field d "username" username_field)
               (required_field d "email" email_field))
  end.
End S.

Definition model_dump (u : t) : gmap string jvalue :=
  <["username" := JStr (username u)]> {["email" := JStr (email u)]}.
End CallbackGooglePublic.

Module LoginUserPublic.
Record t := { username : ustr; email : ustr }.

Section S.
Context `{EmailStrValidator}.

Definition model_validate (inp : model_input) : vres t :=
  match inp with
  | MOther _ => err_here ModelType
  | MDict d =>
      vmap (fun '(u, e) => {| username := u; email := e |})
        (vpair (required_field d "username" username_field)
               (required_field d "email" email_field))
  end.
End S.

Definition model_dump (u : t) : gmap string jvalue :=
  <["username" := JStr (username u)]> {["email" := JStr (email u)]}.
End LoginUserPublic.

(** ** What a public user's dict holds *)

Section PublicFields.
Context `{RoleEnumType} `{EmailStrValidator}.

(** The dict [d] validates as the [UserPublic] [u]: a [username] of 2 to
    25 code points, an [email] that [EmailStr] normalises to [u]'s, a
    [role] that is the value of [u]'s member, and a [phoneNumber] that is
    absent or [null] (then [None]) or a string. *)
Definition userpublic_ok (d : gmap string jvalue) (u : UserPublic.t) : Prop :=
  d !! "username" = Some (JStr (UserPublic.username u)) /\
  (2 <= length (UserPublic.username u) <= 25)%nat /\
  (exists e, d !! "email" = Some (JStr e) /\ validate_email e = inr (UserPublic.email u)) /\
  (exists v, d !! "role" = Some v /\ role_of_value v = Some (UserPublic.role u)) /\
  match d !! "phoneNumber" with
  | None | Some JNull => UserPublic.phoneNumber u = None
  | Some (JStr p) => UserPublic.phoneNumber u = Some p
  | Some _ => False
  end.
End PublicFields.

(** ** Field lemmas *)

Section FieldLemmas.
Context `{EmailStrValidator}.

Lemma email_field_ok v n :
  email_field v = VOk n <-> exists e, v = JStr e /\ validate_email e = inr n.
Proof.
  unfold email_field. destruct v; simpl; try naive_solver.
  destruct (validate_email s) eqn:E; split.
  - discriminate.
  - intros (e & [= <-] & He). congruence.
  - intros [= <-]. eauto.
  - intros (e & [= <-] & He). congruence.
Qed.

Lemma email_field_raised v : raised (email_field v) = false.
Proof. unfold email_field. destruct v; simpl; try done. by destruct (validate_email s). Qed.
End FieldLemmas.

Lemma validate_password_ok p p' :
  PasswordSchema.validate_password p = Ret p' <-> p' = p /\ password_policy p.
Proof.
  unfold PasswordSchema.validate_password. rewrite <- password_fullmatch_iff.
  destruct (fullmatch PASSWORD_PATTERN p); simpl; naive_solver.
Qed.

Lemma password_ok v p : PasswordSchema.password v = VOk p <-> v = JStr p /\ password_policy p.
Proof.
  unfold PasswordSchema.password, password_field. rewrite after_ok.
  setoid_rewrite validate_str_ok. setoid_rewrite validate_password_ok.
  unfold password_policy. naive_solver.
Qed.

Lemma password_raised v : raised (PasswordSchema.password v) = false.
Proof.
  apply after_raised; [apply validate_str_raised|]. intros a.
  unfold PasswordSchema.validate_password. by destruct (fullmatch PASSWORD_PATTERN a).
Qed.

Lemma userbody_validate_username_ok u u' :
  UserBody.validate_username u = Ret u' <-> u' = u /\ username_rules u.
Proof.
  unfold UserBody.validate_username. rewrite <- username_fullmatch_iff.
  destruct (fullmatch USERNAME_PATTERN u); simpl; naive_solver.
Qed.

Lemma userbody_username_ok v u :
  after UserBody.validate_username (username_field v) = VOk u <->
  v = JStr u /\ (2 <= length u <= 25)%nat /\ username_rules u.
Proof.
  rewrite after_ok. unfold username_field. setoid_rewrite validate_str_ok.
  setoid_rewrite userbody_validate_username_ok. naive_solver.
Qed.

Lemma userbody_username_raised v :
  raised (after UserBody.validate_username (username_field v)) = false.
Proof.
  apply after_raised; [apply validate_str_raised|]. intros a.
  unfold UserBody.validate_username. by destruct (fullmatch USERNAME_PATTERN a).
Qed.



Section BodyLemmas.
Context `{EmailStrValidator}.

Lemma userbody_ok_inv d b :
  UserBody.model_validate (MDict d) = VOk b ->
  d !! "password" = Some (JStr (UserBody.password b)) /\
  password_policy (UserBody.password b) /\
  d !! "username" = Some (JStr (UserBody.username b)) /\
  (2 <= length (UserBody.username b) <= 25)%nat /\ username_rules (UserBody.username b) /\
  exists e, d !! "email" = Some (JStr e) /\ validate_email e = inr (UserBody.email b).
Proof.
  unfold UserBody.model_validate. rewrite vmap_ok.
  intros ([p [u e]] & Hv & ->). apply vpair_ok in Hv as [Hp Hue].
  apply vpair_ok in Hue as [Hu He]. simpl.
  apply required_field_ok in Hp as (vp & Ep & Hp). apply password_ok in Hp as [-> Hp].
  apply required_field_ok in Hu as (vu & Eu & Hu).
  apply userbody_username_ok in Hu as (-> & Hl & Hr).
  apply required_field_ok in He as (ve & Ee & He). apply email_field_ok in He as (e' & -> & He).
  eauto 10.
Qed.

(** [UserBody] reads only its three keys. *)
Lemma userbody_same_keys d d' :
  (forall k, k ∈ ["password"; "username"; "email"]%string -> d !! k = d' !! k) ->
  UserBody.model_validate (MDict d) = UserBody.model_validate (MDict d').
Proof.
  intros Hk. unfold UserBody.model_validate, required_field.
  rewrite !Hk; [reflexivity|set_solver..].
Qed.
End BodyLemmas.

Lemma validate_password_false p :
  ~ password_policy p -> PasswordSchema.validate_password p = raise_value_error PASSWORD_ERROR.
Proof.
  intros Hp. unfold PasswordSchema.validate_password.
  destruct (fullmatch PASSWORD_PATTERN p) eqn:E; [|done].
  apply password_fullmatch_iff in E. contradiction.
Qed.

Lemma validate_username_false u :
  ~ username_rules u -> UserBody.validate_username u = raise_value_error USERNAME_ERROR.
Proof.
  intros Hu. unfold UserBody.validate_username.
  destruct (fullmatch USERNAME_PATTERN u) eqn:E; [|done].
  apply username_fullmatch_iff in E. contradiction.
Qed.

(** ** Properties of the schemas *)

(** C1. The [password] field of [PasswordSchema] (and so of [UserBody]
    and [LoginUserBody]): a string shorter than 8 or longer than 64 code
    points fails its [Field] constraint before the validator runs; a
    string of 8 to 64 code points is accepted, unchanged, exactly when it
    meets the password policy (an ASCII lowercase letter, an ASCII
    uppercase letter, a Unicode decimal digit, one of [@$!%*?&], and no
    other characters), and otherwise fails with the validator's message. *)
Theorem password_field_spec p :
  PasswordSchema.password (JStr p) =
    if decide (length p < 8)%nat then err_here (StringTooShort 8)
    else if decide (64 < length p)%nat then err_here (StringTooLong 64)
    else if decide (password_policy p) then VOk p
    else err_here (ValueErr PASSWORD_ERROR).
Proof.
  unfold PasswordSchema.password, password_field, validate_str.
  destruct (Nat.ltb_spec (length p) 8); [by rewrite decide_True|rewrite decide_False by lia].
  destruct (Nat.ltb_spec 64 (length p)); [by rewrite decide_True|rewrite decide_False by lia].
  simpl. case_decide as Hp.
  - by rewrite (proj2 (validate_password_ok p p) (conj eq_refl Hp)).
  - by rewrite validate_password_false.
Qed.

(** C2. The [username] field of [UserBody]: the [Field] constraint (2 to
    25 code points) is checked first, then [validate_username] accepts
    exactly the strings of the username rules (an ASCII letter first,
    then letters, digits, [.] and [_], each separator followed by a
    letter or digit) and rejects the others with its message. *)
Theorem userbody_username_field_spec u :
  after UserBody.validate_username (username_field (JStr u)) =
    if decide (length u < 2)%nat then err_here (StringTooShort 2)
    else if decide (25 < length u)%nat then err_here (StringTooLong 25)
    else if decide (username_rules u) then VOk u
    else err_here (ValueErr USERNAME_ERROR).
Proof.
  unfold username_field, validate_str.
  destruct (Nat.ltb_spec (length u) 2); [by rewrite decide_True|rewrite decide_False by lia].
  destruct (Nat.ltb_spec 25 (length u)); [by rewrite decide_True|rewrite decide_False by lia].
  simpl. case_decide as Hu.
  - by rewrite (proj2 (userbody_validate_username_ok u u) (conj eq_refl Hu)).
  - by rewrite validate_username_false.
Qed.

Section BodyProperties.
Context `{EmailStrValidator}.

(** C5. A registration body ([UserBody]) is accepted exactly when its
    [password] is a string meeting the password policy, its [username]
    a string of 2 to 25 code points meeting the username rules, and its
    [email] a string that [EmailStr] accepts; the result keeps the
    password and the username and holds the normalised email. *)
Theorem userbody_accepts d b :
  UserBody.model_validate (MDict d) = VOk b <->
  d !! "password" = Some (JStr (UserBody.password b)) /\
  password_policy (UserBody.password b) /\
  d !! "username" = Some (JStr (UserBody.username b)) /\
  (2 <= length (UserBody.username b) <= 25)%nat /\ username_rules (UserBody.username b) /\
  exists e, d !! "email" = Some (JStr e) /\ validate_email e = inr (UserBody.email b).
Proof.
  split; [apply userbody_ok_inv|].
  destruct b as [p u n]; simpl. intros (Ep & Hp & Eu & Hl & Hr & e & Ee & He).
  unfold UserBody.model_validate. apply vmap_ok.
  exists (p, (u, n)). split; [|done]. apply vpair_ok. split.
  - apply required_field_ok. exists (JStr p). split; [done|]. by apply password_ok.
  - apply vpair_ok. split; apply required_field_ok.
    + exists (JStr u). split; [done|]. by apply userbody_username_ok.
    + exists (JStr e). split; [done|]. apply email_field_ok. eauto.
Qed.

(** C13. Validating a registration body never lets an exception escape,
    and its errors are those of [password], then [username], then
    [email]: every field is checked, whatever the others give. *)
Theorem userbody_errors_in_field_order d :
  raised (UserBody.model_validate (MDict d)) = false /\
  errors_of (UserBody.model_validate (MDict d)) =
    errors_of (required_field d "password" PasswordSchema.password) ++
    errors_of (required_field d "username"
                 (fun v => after UserBody.validate_username (username_field v))) ++
    errors_of (required_field d "email" email_field).
Proof.
  unfold UserBody.model_validate. rewrite vmap_raised, vmap_errors.
  assert (raised (required_field d "password" PasswordSchema.password) = false) as R1
    by (apply required_field_raised, password_raised).
  assert (raised (required_field d "username"
            (fun v => after UserBody.validate_username (username_field v))) = false) as R2
    by (apply required_field_raised, userbody_username_raised).
  assert (raised (required_field d "email" email_field) = false) as R3
    by (apply required_field_raised, email_field_raised).
  rewrite !vpair_raised, R1, R2, R3. split; [done|].
  rewrite !vpair_errors; rewrite ?vpair_raised, ?R1, ?R2, ?R3; done.
Qed.

(** C12. [LoginUserBody] validates exactly as [UserBody]: same fields in
    the same order, the same validators, the same errors. *)
Theorem login_body_equiv inp :
  LoginUserBody.model_validate inp =
  vmap (fun b => {| LoginUserBody.password := UserBody.password b;
                    LoginUserBody.username := UserBody.username b;
                    LoginUserBody.email := UserBody.email b |})
       (UserBody.model_validate inp).
Proof.
  destruct inp as [d|v]; [|reflexivity].
  unfold LoginUserBody.model_validate, UserBody.model_validate,
    LoginUserBody.validate_username, UserBody.validate_username.
  destruct (vpair _ _) as [[p [u e]]| |]; reflexivity.
Qed.

(** C9. A registration body reads nothing but [password], [username]
    and [email]: adding any other key, such as [role] or [phoneNumber],
    with any value, leaves the outcome of the validation unchanged, so a
    client cannot choose its role at registration, and a phone number
    sent with it is dropped. *)
Theorem userbody_ignores_other_keys d k v :
  k ∉ ["password"; "username"; "email"]%string ->
  UserBody.model_validate (MDict (<[k := v]> d)) = UserBody.model_validate (MDict d).
Proof.
  intros Hk. apply userbody_same_keys. intros k' Hk'.
  rewrite lookup_insert_ne; [done|]. intros ->. contradiction.
Qed.
End BodyProperties.

Section PublicLemmas.
Context `{RoleEnumType} `{EmailStrValidator}.

Lemma role_field_value r : UserPublic.role_field (role_value r) = VOk r.
Proof. unfold UserPublic.role_field. by rewrite role_of_value_value. Qed.

(** [UserPublic] reads only its four keys. *)
Lemma userpublic_same_keys d d' :
  (forall k, k ∈ ["username"; "email"; "role"; "phoneNumber"]%string -> d !! k = d' !! k) ->
  UserPublic.model_validate (MDict d) = UserPublic.model_validate (MDict d').
Proof.
  intros Hk. unfold UserPublic.model_validate, required_field, optional_field.
  rewrite !Hk; [reflexivity|set_solver..].
Qed.

Lemma username_field_ok u :
  (2 <= length u <= 25)%nat -> username_field (JStr u) = VOk u.
Proof. intros Hl. by apply validate_str_ok. Qed.

Lemma email_field_normalized n :
  validate_email n = inr n -> email_field (JStr n) = VOk n.
Proof. intros Hn. apply email_field_ok. eauto. Qed.

Lemma role_field_raised v : raised (UserPublic.role_field v) = false.
Proof. unfold UserPublic.role_field. by destruct (role_of_value v). Qed.

(** [UserPublic] lets no exception escape. *)
Lemma userpublic_raised inp : raised (UserPublic.model_validate inp) = false.
Proof.
  destruct inp as [d|]; [|done]. unfold UserPublic.model_validate.
  rewrite vmap_raised, !vpair_raised, !required_field_raised, optional_field_raised;
    [done|intros w..].
  - apply validate_optional_raised. intros w'. apply validate_str_raised.
  - apply role_field_raised.
  - apply email_field_raised.
  - apply validate_str_raised.
Qed.
(** [UserPublic] accepts a dict exactly as [userpublic_ok] says. *)
Lemma userpublic_ok_iff d u : UserPublic.model_validate (MDict d) = VOk u <-> userpublic_ok d u.
Proof.
  unfold UserPublic.model_validate, userpublic_ok. rewrite vmap_ok. split.
  - intros ([un [em [r ph]]] & Hv & ->).
    cbn [UserPublic.username UserPublic.email UserPublic.role UserPublic.phoneNumber].
    apply vpair_ok in Hv as [Hu Hv]. apply vpair_ok in Hv as [He Hv].
    apply vpair_ok in Hv as [Hr Hp].
    apply required_field_ok in Hu as (v & Ev & [-> Hl]%validate_str_ok).
    apply required_field_ok in He as (w & Ew & (e & -> & He)%email_field_ok).
    apply required_field_ok in Hr as (x & Ex & Hr). unfold UserPublic.role_field in Hr.
    destruct (role_of_value x) eqn:Er; [injection Hr as <-|discriminate].
    split_and!; try lia; eauto.
    apply optional_field_ok in Hp as [[-> ->]|(y & -> & Hy)]; [done|].
    apply validate_optional_ok in Hy as [[-> ->]|(_ & s & Hs & ->)]; [done|].
    by apply validate_str_plain_ok in Hs as ->.
  - destruct u as [un em r ph].
    cbn [UserPublic.username UserPublic.email UserPublic.role UserPublic.phoneNumber].
    intros (Eu & Hl & (e & Ee & He) & (x & Ex & Hr) & Hp).
    exists (un, (em, (r, ph))). split; [|done].
    apply vpair_ok. split; [apply required_field_ok; eexists; split; [done|by apply validate_str_ok]|].
    apply vpair_ok. split; [apply required_field_ok; eexists; split; [done|apply email_field_ok; eauto]|].
    apply vpair_ok. split.
    + apply required_field_ok. exists x. split; [done|]. unfold UserPublic.role_field. by rewrite Hr.
    + unfold optional_field. destruct (d !! "phoneNumber") as [[]|];
        try contradiction; subst; reflexivity.
Qed.

End PublicLemmas.

Section PublicProperties.
Context `{RoleEnumType} `{EmailStrValidator}.

(** C8. A public user never carries a password: whatever value the
    input gives the key [password], [UserPublic] validates it as if the
    key were absent, and its dump has no [password] key. *)
Theorem userpublic_has_no_password d v :
  UserPublic.model_validate (MDict (<["password" := v]> d)) =
    UserPublic.model_validate (MDict (delete "password" d)) /\
  (forall u : UserPublic.t, "password"%string ∉ dom (UserPublic.model_dump u)).
Proof.
  split.
  - apply userpublic_same_keys. intros k Hk.
    assert (k <> "password")%string by (intros ->; set_solver).
    by rewrite lookup_insert_ne, lookup_delete_ne by congruence.
  - intros u. unfold UserPublic.model_dump. rewrite !dom_insert_L, dom_singleton_L. set_solver.
Qed.

(** C11. Round trip: the dump of a public user validates back to the same
    user when its username meets the length constraint and its email is
    already normalised. *)
Theorem userpublic_dump_roundtrip (u : UserPublic.t) :
  (2 <= length (UserPublic.username u) <= 25)%nat ->
  validate_email (UserPublic.email u) = inr (UserPublic.email u) ->
  UserPublic.model_validate (MDict (UserPublic.model_dump u)) = VOk u.
Proof.
  intros Hl He. destruct u as [un em r ph]; simpl in *.
  unfold UserPublic.model_validate, UserPublic.model_dump, required_field, optional_field; simpl.
  rewrite !lookup_insert_eq, ?lookup_insert_ne, ?lookup_singleton_eq, ?lookup_singleton_ne
    by discriminate.
  rewrite lookup_insert_eq, ?lookup_insert_ne by discriminate.
  rewrite lookup_insert_eq, ?lookup_singleton_ne, ?lookup_singleton_eq by discriminate.
  cbn [UserBody.username UserBody.email UserPublic.username UserPublic.email
       UserPublic.role UserPublic.phoneNumber].
  rewrite (username_field_ok _ Hl), (email_field_normalized _ He), role_field_value.
  destruct ph; reflexivity.
Qed.

(** C10. Round trip from registration to the public view: the dump of a
    validated registration body, with a role added, validates as a
    [UserPublic] with the same username and email, the given role and no
    phone number; the password in the dump is ignored. *)
Theorem register_then_public d b r :
  UserBody.model_validate (MDict d) = VOk b ->
  UserPublic.model_validate (MDict (<["role" := role_value r]> (UserBody.model_dump b))) =
  VOk {| UserPublic.username := UserBody.username b; UserPublic.email := UserBody.email b;
         UserPublic.role := r; UserPublic.phoneNumber := None |}.
Proof.
  intros Hb. apply userbody_ok_inv in Hb as (_ & _ & _ & Hl & _ & e & _ & He).
  apply validate_email_normalized in He.
  destruct b as [p un em]; simpl in *.
  unfold UserPublic.model_validate, UserBody.model_dump, required_field, optional_field.
  rewrite lookup_insert_ne, lookup_insert_ne, lookup_insert_eq by discriminate.
  rewrite lookup_insert_ne, lookup_insert_ne, lookup_insert_ne, lookup_singleton_eq by discriminate.
  rewrite lookup_insert_eq.
  rewrite lookup_insert_ne, lookup_insert_ne, lookup_insert_ne, lookup_singleton_ne by discriminate.
  cbn [UserBody.username UserBody.email UserPublic.username UserPublic.email
       UserPublic.role UserPublic.phoneNumber].
  rewrite (username_field_ok _ Hl), (email_field_normalized _ He), role_field_value. reflexivity.
Qed.
End PublicProperties.

Section ListProperties.
Context `{RoleEnumType} `{EmailStrValidator} `{PaginationSchema}.

(** An item of [data] validates as a [UserPublic]: it is a JSON object
    whose dict meets [userpublic_ok]. *)
Lemma user_item_ok v u :
  UsersPublic.user_item v = VOk u <-> exists kvs, v = JObj kvs /\ userpublic_ok (dict_of kvs) u.
Proof.
  destruct v as [| | | | |kvs]; try (split; [discriminate|intros (? & [=] & _)]).
  change (UsersPublic.user_item (JObj kvs)) with (UserPublic.model_validate (MDict (dict_of kvs))).
  rewrite userpublic_ok_iff. naive_solver.
Qed.

(** C16. A page of users ([UsersPublic], lines 53-54) is accepted exactly
    when its page metadata is, and its [data] is a JSON list each item of
    which is an object holding a [username] of 2 to 25 code points, an
    [email] that [EmailStr] accepts, a [role] that is the value of a
    [RoleEnum] member and an optional string [phoneNumber]; no [password]
    is asked of an item.  The result keeps the items in order. *)
Theorem userspublic_accepts d x :
  UsersPublic.model_validate (MDict d) = VOk x <->
  validate_page_meta d = VOk (UsersPublic.meta x) /\
  exists l, d !! "data" = Some (JList l) /\
    Forall2 (fun v u => exists kvs, v = JObj kvs /\ userpublic_ok (dict_of kvs) u)
      l (UsersPublic.data x).
Proof.
  unfold UsersPublic.model_validate. rewrite vmap_ok. split.
  - intros ([m us] & Hv & ->). apply vpair_ok in Hv as [Hm Hd]. simpl. split; [done|].
    apply required_field_ok in Hd as (v & Ev & Hv).
    destruct v; simpl in Hv; try discriminate. apply validate_items_ok in Hv.
    eexists. split; [done|]. eapply Forall2_impl; [exact Hv|]. intros v u. apply user_item_ok.
  - destruct x as [m us]; simpl. intros (Hm & l & El & Hl).
    exists (m, us). split; [|done]. apply vpair_ok. split; [done|].
    apply required_field_ok. exists (JList l). split; [done|]. apply validate_items_ok.
    eapply Forall2_impl; [exact Hl|]. intros v u. apply user_item_ok.
Qed.
End ListProperties.

(** C6. The username pattern is open to catastrophic backtracking
    within the field's own length bound: for [1 <= n <= 24] the string
    [a^n!] ([n] letters and [!], at most 25 code points) passes
    [Field(min_length=2, max_length=25)], [validate_username] rejects it,
    and a backtracking engine tests the end of the pattern at [2^n - 1]
    positions before it answers, 16777215 for [n = 24]. *)
Theorem username_redos n :
  (1 <= n <= 24)%nat ->
  username_field (JStr (a_run n)) = VOk (a_run n) /\
  UserBody.validate_username (a_run n) = raise_value_error USERNAME_ERROR /\
  bt_tries USERNAME_PATTERN (a_run n) = 2 ^ n - 1.
Proof.
  intros Hn. destruct (username_tries_a_run n) as [Hf Ht]. split; [|split; [|done]].
  - apply username_field_ok. rewrite a_run_length. lia.
  - unfold UserBody.validate_username.
    assert (fullmatch USERNAME_PATTERN (a_run n) = false) as ->; [|done].
    apply not_true_iff_false. rewrite fullmatch_spec, <- bt_fullmatch_correct. congruence.
Qed.

(** A model whose only field is a required [str]. *)
Lemma single_str_model_ok {T} (mk : ustr -> T) (get : T -> ustr) d k x :
  (forall s, get (mk s) = s) -> (forall y, mk (get y) = y) ->
  vmap mk (required_field d k str_field) = VOk x <-> d !! k = Some (JStr (get x)).
Proof.
  intros Hgm Hmg. rewrite vmap_ok. setoid_rewrite required_field_ok. unfold str_field.
  setoid_rewrite validate_str_plain_ok. split.
  - intros (s & (v & Ev & ->) & ->). by rewrite Hgm.
  - intros Ek. exists (get x). split; [eauto|by rewrite Hmg].
Qed.

(** C18. [CallbackGoogleBody], [LogoutUserPublic] and [RefreshPublic]
    accept a dict exactly when its [code], [message] or [accessToken]
    key holds a JSON string, which becomes the field. *)
Theorem single_str_models_accept d :
  (forall x, CallbackGoogleBody.model_validate (MDict d) = VOk x <->
     d !! "code" = Some (JStr (CallbackGoogleBody.code x))) /\
  (forall x, LogoutUserPublic.model_validate (MDict d) = VOk x <->
     d !! "message" = Some (JStr (LogoutUserPublic.message x))) /\
  (forall x, RefreshPublic.model_validate (MDict d) = VOk x <->
     d !! "accessToken" = Some (JStr (RefreshPublic.accessToken x))).
Proof. repeat split; apply single_str_model_ok; by intros []. Qed.

(** ** Witnesses, with the sample collaborators *)

(** A password whose only digit is ARABIC-INDIC DIGIT ONE (U+0661) is
    accepted. *)
Lemma password_field_spec_witness :
  PasswordSchema.password (JStr (py "Abcdef" ++ [1633%Z] ++ py "!")) =
  VOk (py "Abcdef" ++ [1633%Z] ++ py "!").
Proof. rewrite password_field_spec. vm_compute. reflexivity. Defined.

Lemma userbody_username_field_spec_witness :
  after UserBody.validate_username (username_field (JStr (py "a._b"))) =
  err_here (ValueErr USERNAME_ERROR).
Proof. rewrite userbody_username_field_spec. vm_compute. reflexivity. Defined.

Lemma userbody_accepts_witness :
  @UserBody.model_validate Sample.email
    (MDict (dict_of [("username", JStr (py "mister_business"));
                     ("email", JStr (py "a@example.com")); ("password", JStr (py "Abcdef1!"))]%string)) =
  VOk {| UserBody.password := py "Abcdef1!"; UserBody.username := py "mister_business";
         UserBody.email := py "a@example.com" |}.
Proof.
  apply (proj2 (@userbody_accepts Sample.email _ _)). cbn [UserBody.password UserBody.username UserBody.email].
  split; [vm_compute; reflexivity|]. split; [apply password_fullmatch_iff; vm_compute; reflexivity|].
  split; [vm_compute; reflexivity|]. split; [cbn; lia|].
  split; [apply username_fullmatch_iff; vm_compute; reflexivity|].
  exists (py "a@example.com"). split; vm_compute; reflexivity.
Defined.

Lemma register_then_public_witness :
  @UserPublic.model_validate Sample.roles Sample.email
    (MDict (<["role" := JStr (py "user")]>
      (UserBody.model_dump {| UserBody.password := py "Abcdef1!";
                              UserBody.username := py "mister_business";
                              UserBody.email := py "a@example.com" |})))%string =
  VOk {| UserPublic.username := py "mister_business"; UserPublic.email := py "a@example.com";
         UserPublic.role := (Sample.USER : @RoleEnum Sample.roles); UserPublic.phoneNumber := None |}.
Proof.
  exact (@register_then_public Sample.roles Sample.email
    (dict_of [("username", JStr (py "mister_business"));
              ("email", JStr (py "a@example.com")); ("password", JStr (py "Abcdef1!"))]%string)
    {| UserBody.password := py "Abcdef1!"; UserBody.username := py "mister_business";
       UserBody.email := py "a@example.com" |} Sample.USER
    ltac:(vm_compute; reflexivity)).
Defined.

Lemma userpublic_dump_roundtrip_witness :
  @UserPublic.model_validate Sample.roles Sample.email
    (MDict (UserPublic.model_dump
      {| UserPublic.username := py "ab"; UserPublic.email := py "a@example.com";
         UserPublic.role := (Sample.ADMIN : @RoleEnum Sample.roles); UserPublic.phoneNumber := Some (py "+380999999999") |})) =
  VOk {| UserPublic.username := py "ab"; UserPublic.email := py "a@example.com";
         UserPublic.role := (Sample.ADMIN : @RoleEnum Sample.roles); UserPublic.phoneNumber := Some (py "+380999999999") |}.
Proof.
  apply (@userpublic_dump_roundtrip Sample.roles Sample.email).
  - cbn. lia.
  - vm_compute. reflexivity.
Defined.

Lemma username_redos_witness :
  username_field (JStr (a_run 24)) = VOk (a_run 24) /\
  UserBody.validate_username (a_run 24) = raise_value_error USERNAME_ERROR /\
  bt_tries USERNAME_PATTERN (a_run 24) = 2 ^ 24 - 1.
Proof. exact (username_redos 24 ltac:(lia)). Defined.

Lemma userbody_ignores_other_keys_witness :
  @UserBody.model_validate Sample.email
    (MDict (<["role" := JStr (py "admin")]>
      (dict_of [("username", JStr (py "mister_business"));
                ("email", JStr (py "a@example.com")); ("password", JStr (py "Abcdef1!"))])))%string =
  @UserBody.model_validate Sample.email
    (MDict (dict_of [("username", JStr (py "mister_business"));
                     ("email", JStr (py "a@example.com")); ("password", JStr (py "Abcdef1!"))]%string)).
Proof. apply userbody_ignores_other_keys. set_solver. Defined.

