(* ===== verification/UpdateUser.v ===== *)
(** * UpdateUser: [UpdateUserBody] (lines 57-91 of [schemas.py])

    The profile-update body: a required [email] and three optional fields
    [username], [password] and [phoneNumber], each with its own
    [field_validator] that lets [None] through, and the model validator
    [at_least_one_field] in mode "before", which runs on the raw input
    before any field:

    - it reads the input with [self.get(...)], so an input that is not a
      dict raises [AttributeError], an exception pydantic does not catch;
    - it tests the three values with [any], that is by truthiness: an
      empty string, [0], [false], [[]] or [null] counts as absent;
    - [email] does not take part in the test. *)

From S2P Require Import Prelude Chars Regex Patterns Pydantic Collaborators Schemas.

Module UpdateUserBody.
Record t := {
  email : ustr;
  username : option ustr;
  password : option ustr;
  phoneNumber : option ustr
}.

Definition AT_LEAST_ONE_ERROR : string := "At least one field for user required".

(** [self.get(key)] on a dict: [None] when the key is absent. *)
Definition get_truthy (d : gmap string jvalue) (key : string) : bool :=
  match d !! key with
  | Some v => truthy v
  | None => false
  end.

(** [at_least_one_field(self)] (lines 63-71). *)
Definition at_least_one_field (self : model_input) : pyres model_input :=
  match self with
  | MDict d =>
      if negb (existsb (get_truthy d) ["username"; "password"; "phoneNumber"])
      then raise_value_error AT_LEAST_ONE_ERROR
      else Ret self
  | MOther _ => Exc (OtherError "AttributeError")
  end.

(** [validate_username(value)] (lines 73-78). *)
Definition validate_username (value : option ustr) : pyres (option ustr) :=
  match value with
  | Some v =>
      if negb (fullmatch USERNAME_PATTERN v) then raise_value_error USERNAME_ERROR
      else Ret value
  | None => Ret value
  end.

(** [validate_password(value)] (lines 80-85). *)
Definition validate_password (value : option ustr) : pyres (option ustr) :=
  match value with
  | Some v =>
      if negb (fullmatch PASSWORD_PATTERN v) then raise_value_error PASSWORD_ERROR
      else Ret value
  | None => Ret value
  end.

Section S.
Context `{EmailStrValidator} `{PhoneNumberChecker}.

(** [validate_phone_number(value)] (lines 87-91). *)
Definition validate_phone_number (value : option ustr) : pyres (option ustr) :=
  match value with
  | Some v => p <- check_phone_number v ;; Ret (Some p)
  | None => Ret value
  end.

(** The four fields (lines 58-61), in declaration order. *)
Definition validate_fields (d : gmap string jvalue) : vres t :=
  vmap (fun '(e, (u, (p, ph))) =>
          {| email := e; username := u; password := p; phoneNumber := ph |})
    (vpair (required_field d "email" email_field)
      (vpair (optional_field d "username"
                (fun v => after validate_username
                            (validate_optional (validate_str (Some 2) (Some 25)) v)))
        (vpair (optional_field d "password"
                  (fun v => after validate_password
                              (validate_optional (validate_str (Some 8) (Some 64)) v)))
               (optional_field d "phoneNumber"
                  (fun v => after validate_phone_number
                              (validate_optional str_field v))))))%string.

Definition model_validate (inp : model_input) : vres t :=
  match of_pyres (at_least_one_field inp) with
  | VOk (MDict d) => validate_fields d
  | VOk (MOther _) => err_here ModelType
  | VErr es => VErr es
  | VRaise e => VRaise e
  end.
End S.

(** [model_dump(mode="json")]: [None] is written as [null]. *)
Definition model_dump (b : t) : gmap string jvalue :=
  <["email" := JStr (email b)]>
  (<["username" := opt_json (username b)]>
  (<["password" := opt_json (password b)]>
  {["phoneNumber" := opt_json (phoneNumber b)]})).
End UpdateUserBody.

(** ** Lemmas *)

Section UpdateLemmas.
Context `{EmailStrValidator} `{PhoneNumberChecker}.

Definition any_field_given (d : gmap string jvalue) : bool :=
  existsb (UpdateUserBody.get_truthy d) ["username"; "password"; "phoneNumber"]%string.

(** What an optional [str] field of the dict yields once validated: [None]
    when the key is absent or [null], and [Some p] for a string [s] that
    the field's checks [R] take to [p]. *)
Definition opt_str_ok (d : gmap string jvalue) (k : string) (R : ustr -> ustr -> Prop)
    (o : option ustr) : Prop :=
  match d !! k with
  | None | Some JNull => o = None
  | Some (JStr s) => exists p, o = Some p /\ R s p
  | Some _ => False
  end.

(** On a dict, the model validator either stops the validation with its
    own error or hands the dict to the fields. *)
Lemma update_model_validate_dict d :
  UpdateUserBody.model_validate (MDict d) =
  if any_field_given d then UpdateUserBody.validate_fields d
  else err_here (ValueErr UpdateUserBody.AT_LEAST_ONE_ERROR).
Proof.
  unfold UpdateUserBody.model_validate, UpdateUserBody.at_least_one_field, any_field_given.
  by destruct (existsb _ _).
Qed.

Lemma update_validate_username_ok o o' :
  UpdateUserBody.validate_username o = Ret o' <->
  o' = o /\ (forall s, o = Some s -> username_rules s).
Proof.
  unfold UpdateUserBody.validate_username. destruct o as [s|]; [|naive_solver].
  assert ((forall s0, Some s = Some s0 -> username_rules s0) <-> username_rules s) as ->
    by naive_solver.
  rewrite <- username_fullmatch_iff.
  destruct (fullmatch USERNAME_PATTERN s); simpl; naive_solver.
Qed.

Lemma update_username_field_ok v u :
  after UpdateUserBody.validate_username
    (validate_optional (validate_str (Some 2) (Some 25)) v) = VOk u <->
  (v = JNull /\ u = None) \/
  (exists s p, v = JStr s /\ u = Some p /\ ((2 <= length s <= 25)%nat /\ username_rules s /\ p = s)).
Proof.
  rewrite after_ok. setoid_rewrite validate_optional_ok.
  setoid_rewrite update_validate_username_ok. setoid_rewrite validate_str_ok.
  split.
  - intros (a & [[-> ->]|(_ & s & [-> Hl] & ->)] & -> & Hr); [by left|right]. eauto 10.
  - intros [[-> ->]|(s & p & -> & -> & Hl & Hr & ->)]; [exists None; naive_solver|].
    exists (Some s). split; [right; split; [done|eauto]|]. naive_solver.
Qed.

Lemma update_validate_password_ok o o' :
  UpdateUserBody.validate_password o = Ret o' <->
  o' = o /\ (forall s, o = Some s -> password_policy s).
Proof.
  unfold UpdateUserBody.validate_password. destruct o as [s|]; [|naive_solver].
  assert ((forall s0, Some s = Some s0 -> password_policy s0) <-> password_policy s) as ->
    by naive_solver.
  rewrite <- password_fullmatch_iff.
  destruct (fullmatch PASSWORD_PATTERN s); simpl; naive_solver.
Qed.

Lemma update_password_field_ok v u :
  after UpdateUserBody.validate_password
    (validate_optional (validate_str (Some 8) (Some 64)) v) = VOk u <->
  (v = JNull /\ u = None) \/ (exists s p, v = JStr s /\ u = Some p /\ (password_policy s /\ p = s)).
Proof.
  rewrite after_ok. setoid_rewrite validate_optional_ok.
  setoid_rewrite update_validate_password_ok. setoid_rewrite validate_str_ok.
  split.
  - intros (a & [[-> ->]|(_ & s & [-> Hl] & ->)] & -> & Hr); [by left|right]. eauto 10.
  - intros [[-> ->]|(s & p & -> & -> & Hp & ->)]; [exists None; naive_solver|].
    exists (Some s). split; [right; split; [done|]|naive_solver].
    exists s. split; [|done]. split; [done|apply Hp].
Qed.

Lemma update_phone_field_ok v u :
  after UpdateUserBody.validate_phone_number (validate_optional str_field v) = VOk u <->
  (v = JNull /\ u = None) \/ (exists s p, v = JStr s /\ u = Some p /\ check_phone_number s = Ret p).
Proof.
  rewrite after_ok. setoid_rewrite validate_optional_ok. unfold str_field.
  setoid_rewrite validate_str_plain_ok. split.
  - intros (a & [[-> ->]|(_ & s & -> & ->)] & Ha); [left; by injection Ha as <-|right].
    simpl in Ha. destruct (check_phone_number s) as [p|] eqn:E; [|discriminate].
    injection Ha as <-. eauto.
  - intros [[-> ->]|(s & p & -> & -> & Hp)]; [exists None; naive_solver|].
    exists (Some s). split; [right; split; [done|eauto]|]. simpl. by rewrite Hp.
Qed.

(** An optional [str] field whose validation is described by [R]. *)
Lemma optional_str_field_ok d k (R : ustr -> ustr -> Prop) (f : jvalue -> vres (option ustr)) :
  (forall v u, f v = VOk u <->
     (v = JNull /\ u = None) \/ (exists s p, v = JStr s /\ u = Some p /\ R s p)) ->
  forall o, optional_field d k f = VOk o <-> opt_str_ok d k R o.
Proof.
  intros Hf o. rewrite optional_field_ok. setoid_rewrite Hf. unfold opt_str_ok.
  destruct (d !! k) as [[]|]; naive_solver.
Qed.

(** [any] over the three values is false exactly when each key is absent
    or holds a falsy value. *)
Lemma any_field_given_false d :
  any_field_given d = false <->
  forall k, k ∈ ["username"; "password"; "phoneNumber"]%string ->
    forall v, d !! k = Some v -> truthy v = false.
Proof.
  unfold any_field_given, UpdateUserBody.get_truthy.
  rewrite <- not_true_iff_false, existsb_true_iff, Exists_exists. split.
  - intros Hn k Hk v Ev. apply not_true_iff_false. intros Ht. apply Hn. exists k. by rewrite Ev.
  - intros Hall (k & Hk & Ht). destruct (d !! k) as [v|] eqn:Ev; [|discriminate].
    by rewrite (Hall k Hk v Ev) in Ht.
Qed.

Lemma any_field_given_true d :
  any_field_given d = true <->
  exists k v, k ∈ ["username"; "password"; "phoneNumber"]%string /\ d !! k = Some v /\ truthy v = true.
Proof.
  unfold any_field_given, UpdateUserBody.get_truthy. rewrite existsb_true_iff, Exists_exists.
  split.
  - intros (k & Hk & Ht). destruct (d !! k) as [v|] eqn:Ev; [eauto|discriminate].
  - intros (k & v & Hk & Ev & Ht). exists k. by rewrite Ev.
Qed.

Lemma update_validate_username_value_errors : value_errors_only UpdateUserBody.validate_username.
Proof.
  intros [x|] e E; simpl in E; [|discriminate].
  destruct (fullmatch USERNAME_PATTERN x); simpl in E; [discriminate|]. injection E as <-. eauto.
Qed.

Lemma update_validate_password_value_errors : value_errors_only UpdateUserBody.validate_password.
Proof.
  intros [x|] e E; simpl in E; [|discriminate].
  destruct (fullmatch PASSWORD_PATTERN x); simpl in E; [discriminate|]. injection E as <-. eauto.
Qed.

Lemma update_validate_phone_value_errors :
  value_errors_only check_phone_number -> value_errors_only UpdateUserBody.validate_phone_number.
Proof.
  intros Hp [x|] e E; simpl in E; [|discriminate].
  destruct (check_phone_number x) as [|y] eqn:Ey; simpl in E; [discriminate|].
  injection E as <-. eauto.
Qed.

(** What a validated update body holds, field by field. *)
Lemma validate_fields_ok_inv d b :
  UpdateUserBody.validate_fields d = VOk b ->
  (exists e, d !! "email" = Some (JStr e) /\ validate_email e = inr (UpdateUserBody.email b)) /\
  opt_str_ok d "username" (fun s p => (2 <= length s <= 25)%nat /\ username_rules s /\ p = s)
    (UpdateUserBody.username b) /\
  opt_str_ok d "password" (fun s p => password_policy s /\ p = s) (UpdateUserBody.password b) /\
  opt_str_ok d "phoneNumber" (fun s p => check_phone_number s = Ret p)
    (UpdateUserBody.phoneNumber b).
Proof.
  unfold UpdateUserBody.validate_fields. rewrite vmap_ok.
  intros ([e [u [p ph]]] & Hv & ->). simpl.
  apply vpair_ok in Hv as [He Hv]. apply vpair_ok in Hv as [Hu Hv].
  apply vpair_ok in Hv as [Hp Hph].
  apply required_field_ok in He as (v & Ev & (e' & -> & He)%email_field_ok).
  apply (optional_str_field_ok d "username" _ _ update_username_field_ok) in Hu.
  apply (optional_str_field_ok d "password" _ _ update_password_field_ok) in Hp.
  apply (optional_str_field_ok d "phoneNumber" _ _ update_phone_field_ok) in Hph. eauto 10.
Qed.

(** A key that holds a truthy value gives its optional field a value. *)
Lemma opt_str_ok_truthy d k R o v :
  d !! k = Some v -> truthy v = true -> opt_str_ok d k R o -> o <> None.
Proof.
  intros Ev Ht. unfold opt_str_ok. rewrite Ev.
  destruct v; simpl in Ht; try done. by intros (p & -> & _).
Qed.

Lemma validate_fields_located d :
  Forall located (errors_of (UpdateUserBody.validate_fields d)).
Proof. unfold UpdateUserBody.validate_fields. rewrite vmap_errors. eauto 10 with pyval. Qed.
End UpdateLemmas.

(** ** Properties of [UpdateUserBody] *)

Section UpdateProperties.
Context `{EmailStrValidator} `{PhoneNumberChecker}.

(** C3. [at_least_one_field] rejects a dict exactly when each of the
    keys [username], [password] and [phoneNumber] is absent or holds a
    falsy value (an empty string, [0], [false], an empty list or object,
    [null]): the validation then fails with the single error "At least
    one field for user required", located at the model itself, whatever
    the email. *)
Theorem update_requires_one_field d :
  UpdateUserBody.model_validate (MDict d) =
    VErr [VError [] (ValueErr UpdateUserBody.AT_LEAST_ONE_ERROR)] <->
  forall k, k ∈ ["username"; "password"; "phoneNumber"]%string ->
    forall v, d !! k = Some v -> truthy v = false.
Proof.
  rewrite update_model_validate_dict, <- any_field_given_false.
  destruct (any_field_given d); split; try done.
  intros E. pose proof (validate_fields_located d) as L. rewrite E in L.
  inversion L as [|? ? Hl]. by exfalso; apply Hl.
Qed.


(** C4. An update body that is a dict is accepted exactly when one of
    [username], [password] and [phoneNumber] holds a truthy value, [email]
    is a string that [EmailStr] accepts, and each optional field is
    absent, [null], or a string that passes its checks: 2 to 25 code
    points and the username rules; the password policy;
    [check_phone_number], whose canonical form is the field's value. *)
Theorem update_accepts d b :
  UpdateUserBody.model_validate (MDict d) = VOk b <->
  (exists k v, k ∈ ["username"; "password"; "phoneNumber"]%string /\ d !! k = Some v /\
               truthy v = true) /\
  (exists e, d !! "email" = Some (JStr e) /\ validate_email e = inr (UpdateUserBody.email b)) /\
  opt_str_ok d "username" (fun s p => (2 <= length s <= 25)%nat /\ username_rules s /\ p = s)
    (UpdateUserBody.username b) /\
  opt_str_ok d "password" (fun s p => password_policy s /\ p = s) (UpdateUserBody.password b) /\
  opt_str_ok d "phoneNumber" (fun s p => check_phone_number s = Ret p)
    (UpdateUserBody.phoneNumber b).
Proof.
  rewrite update_model_validate_dict, <- any_field_given_true.
  destruct (any_field_given d); [|split; [discriminate|intros [[=] _]]].
  split; [intros Hv; split; [done|by apply validate_fields_ok_inv]|].
  destruct b as [e u p ph]. simpl. intros (_ & (e' & Ee & He) & Hu & Hp & Hph).
  unfold UpdateUserBody.validate_fields. apply vmap_ok. exists (e, (u, (p, ph))). split; [|done].
  repeat (apply vpair_ok; split);
    [|by apply (optional_str_field_ok d "username" _ _ update_username_field_ok)
     |by apply (optional_str_field_ok d "password" _ _ update_password_field_ok)
     |by apply (optional_str_field_ok d "phoneNumber" _ _ update_phone_field_ok)].
  apply required_field_ok. exists (JStr e'). split; [done|]. apply email_field_ok. eauto.
Qed.

(** C20. The invariant of the update payload (section 3 of the spec): a
    validated [UpdateUserBody] always carries at least one of
    [username], [password] and [phoneNumber]; the truthy value that let
    the body past [at_least_one_field] is a string that became a field. *)
Theorem update_result_has_field inp b :
  UpdateUserBody.model_validate inp = VOk b ->
  UpdateUserBody.username b <> None \/ UpdateUserBody.password b <> None \/
  UpdateUserBody.phoneNumber b <> None.
Proof.
  destruct inp as [d|v]; [|discriminate]. rewrite update_model_validate_dict.
  destruct (any_field_given d) eqn:Ea; [|discriminate]. intros Hv.
  apply any_field_given_true in Ea as (k & w & Hk & Ew & Ht).
  apply validate_fields_ok_inv in Hv as (_ & Hu & Hp & Hph).
  apply list_elem_of_In in Hk. destruct Hk as [<-|[<-|[<-|[]]]].
  - left. exact (opt_str_ok_truthy _ _ _ _ _ Ew Ht Hu).
  - right; left. exact (opt_str_ok_truthy _ _ _ _ _ Ew Ht Hp).
  - right; right. exact (opt_str_ok_truthy _ _ _ _ _ Ew Ht Hph).
Qed.

(** C7. When [check_phone_number] raises nothing but [ValueError], the
    only exception that escapes the validation of an update body is the
    [AttributeError] of [self.get] on an input that is not a dict: a
    JSON array, string, number or [null] body is not turned into a
    validation error. *)
Theorem update_escapes_only_on_non_dict inp e :
  (forall p x, check_phone_number p = Exc x -> exists m, x = ValueError m) ->
  UpdateUserBody.model_validate inp = VRaise e <->
  (exists v, inp = MOther v) /\ e = OtherError "AttributeError".
Proof.
  intros Hphone. destruct inp as [d|v]; [|split; [intros [= <-]; eauto|intros [_ ->]; done]].
  rewrite update_model_validate_dict. split; [|intros [[v ?] _]; discriminate].
  destruct (any_field_given d); [|discriminate]. intros E.
  assert (raised (UpdateUserBody.validate_fields d) = false) as R; [|by rewrite E in R].
  unfold UpdateUserBody.validate_fields.
  rewrite vmap_raised, !vpair_raised, required_field_raised, !optional_field_raised; try done;
    intros w.
  - apply after_optional_str_raised, update_validate_phone_value_errors. exact Hphone.
  - apply after_optional_str_raised, update_validate_password_value_errors.
  - apply after_optional_str_raised, update_validate_username_value_errors.
  - apply email_field_raised.
Qed.
End UpdateProperties.

(** ** Witnesses, with the sample collaborators *)

(** A body with an email and an empty username is rejected by the model
    validator alone. *)
Lemma update_requires_one_field_witness :
  @UpdateUserBody.model_validate Sample.email Sample.phone
    (MDict (dict_of [("email", JStr (py "a@example.com")); ("username", JStr [])]%string)) =
  VErr [VError [] (ValueErr UpdateUserBody.AT_LEAST_ONE_ERROR)].
Proof.
  apply (proj2 (@update_requires_one_field Sample.email Sample.phone _)).
  intros k Hk v Ev. apply list_elem_of_In in Hk.
  repeat destruct Hk as [<-|Hk]; try contradiction;
    vm_compute in Ev; try discriminate; injection Ev as <-; reflexivity.
Defined.


Lemma update_escapes_only_on_non_dict_witness :
  @UpdateUserBody.model_validate Sample.email Sample.phone (MOther (JList [])) =
  VRaise (OtherError "AttributeError").
Proof.
  apply (proj2 (@update_escapes_only_on_non_dict Sample.email Sample.phone _ _
           ltac:(intros [|c ds] x Ex; simpl in Ex;
                 [injection Ex as <-; eauto|case_match; [discriminate|injection Ex as <-; eauto]]))).
  split; [eauto|reflexivity].
Defined.

Lemma update_result_has_field_witness :
  Some (py "mister_business") <> None \/ @None ustr <> None \/ @None ustr <> None.
Proof.
  exact (@update_result_has_field Sample.email Sample.phone
    (MDict (dict_of [("email", JStr (py "a@example.com"));
                     ("username", JStr (py "mister_business"))]%string))
    {| UpdateUserBody.email := py "a@example.com";
       UpdateUserBody.username := Some (py "mister_business");
       UpdateUserBody.password := None; UpdateUserBody.phoneNumber := None |}
    ltac:(vm_compute; reflexivity)).
Defined.
