(* ===== verification/Contracts.v ===== *)
(** * Contracts: what a schema promises to the HTTP layer

    spec.md (section 7) describes the outcome of validating a request
    body: either the validated structure, or a single kind of error, a
    [ValidationError] that carries the path of the offending field; the
    HTTP layer maps it to a status code.  This file states that promise
    as an abstract outcome, [spec_refines], and as a contract a schema can
    meet, and proves which schemas of [schemas.py] meet it.

    - [schema_model] packs a schema's field names with its
      [model_validate];
    - [SchemaContract] is the contract, a class of laws in the style of
      an operations record with a laws class: a non-object body gets the
      single [model_type] error; a dict gets a value or a non-empty list
      of errors each located under one of the schema's fields, and never
      an escaping exception; only the schema's own keys are read;
    - [contract_refines] proves that any schema meeting the contract
      refines the outcome of the spec on every input, and
      [contract_ignores_other_keys] that it ignores every other key;
    - the instances discharge the contract for every schema of the file
      but two: [UsersPublic], whose page fields are an interface, and
      [UpdateUserBody], which breaks it: its model validator raises
      [AttributeError] on a non-dict and reports a root error naming no
      field ([UpdateUser.update_requires_one_field]).

    [FieldOrderedErrors] bounds the errors of a dict: each field reports
    at most one, under its key, and the errors come in field order
    ([keyed], [field_order_error_count], [schemas_errors_per_field]);
    [update_errors_per_field] gives the update body the same bound on its
    fields and at most four errors in all.

    [sound] is the part of the contract about one field: a field's
    outcome is a value, or at least one error, never an escaping
    exception; [dict_outcome] adds the locations. *)

From S2P Require Import Prelude Chars Regex Patterns Pydantic Classes Collaborators Schemas UpdateUser.

(** ** The abstract outcome *)

(** An error located under one of the fields [ks]. *)
Definition under_field (ks : list string) (e : verror) : Prop :=
  exists k rest, loc e = LKey k :: rest /\ k ∈ ks.

(** The outcome of validating a dict: a value, or a non-empty list of
    errors under the fields; never an exception. *)
Definition dict_outcome {A} (ks : list string) (r : vres A) : Prop :=
  match r with
  | VOk _ => True
  | VErr es => es <> [] /\ Forall (under_field ks) es
  | VRaise _ => False
  end.

(** What section 7 of the spec allows for any body: a value, or a
    [ValidationError] that is either the [model_type] error of a body
    that is not an object or a list of errors under the fields. *)
Definition spec_refines {A} (ks : list string) (r : vres A) : Prop :=
  match r with
  | VOk _ => True
  | VErr es => es = [VError [] ModelType] \/ (es <> [] /\ Forall (under_field ks) es)
  | VRaise _ => False
  end.

(** A field's outcome: a value, or at least one error. *)
Definition sound {A} (r : vres A) : Prop :=
  match r with
  | VOk _ => True
  | VErr es => es <> []
  | VRaise _ => False
  end.

(** ** The contract *)

Record schema_model := SchemaModel {
  sm_t : Type;
  sm_fields : list string;
  sm_validate : model_input -> vres sm_t
}.

Class SchemaContract (S : schema_model) : Prop := {
  contract_non_dict : forall v, sm_validate S (MOther v) = err_here ModelType;
  contract_dict : forall d, dict_outcome (sm_fields S) (sm_validate S (MDict d));
  contract_reads_fields : forall d d',
    (forall k, k ∈ sm_fields S -> d !! k = d' !! k) ->
    sm_validate S (MDict d) = sm_validate S (MDict d')
}.

(** ** The schemas as models *)

Definition userschema_model `{EmailStrValidator} : schema_model :=
  SchemaModel _ ["username"; "email"]%string UserSchema.model_validate.
Definition userbody_model `{EmailStrValidator} : schema_model :=
  SchemaModel _ ["password"; "username"; "email"]%string UserBody.model_validate.
Definition loginuserbody_model `{EmailStrValidator} : schema_model :=
  SchemaModel _ ["password"; "username"; "email"]%string LoginUserBody.model_validate.
Definition userpublic_model `{RoleEnumType} `{EmailStrValidator} : schema_model :=
  SchemaModel _ ["username"; "email"; "role"; "phoneNumber"]%string UserPublic.model_validate.
Definition callbackgooglebody_model : schema_model :=
  SchemaModel _ ["code"]%string CallbackGoogleBody.model_validate.
Definition callbackgooglepublic_model `{EmailStrValidator} : schema_model :=
  SchemaModel _ ["username"; "email"]%string CallbackGooglePublic.model_validate.
Definition loginuserpublic_model `{EmailStrValidator} : schema_model :=
  SchemaModel _ ["username"; "email"]%string LoginUserPublic.model_validate.
Definition logoutuserpublic_model : schema_model :=
  SchemaModel _ ["message"]%string LogoutUserPublic.model_validate.
Definition refreshpublic_model : schema_model :=
  SchemaModel _ ["accessToken"]%string RefreshPublic.model_validate.

(** The fields of [UpdateUserBody], in declaration order. *)
Definition update_fields : list string := ["email"; "username"; "password"; "phoneNumber"]%string.

(** ** One error per field *)

(** The field an error is reported under: the first key of its location. *)
Definition err_field (e : verror) : option string :=
  match loc e with
  | LKey k :: _ => Some k
  | _ => None
  end.

(** The errors of [r] are reported under the fields [ks], at most one per
    field, in the order of [ks]. *)
Definition keyed {A} (ks : list string) (r : vres A) : Prop :=
  (err_field <$> errors_of r) `sublist_of` (Some <$> ks).

(** [keyed], and so at most one error per field. *)
Definition field_order_bounded {A} (ks : list string) (r : vres A) : Prop :=
  keyed ks r /\ length (errors_of r) <= length ks.

(** The errors of a dict that lacks every field of [ks]: one [missing]
    error per field, in the order of [ks]. *)
Definition missing_all (ks : list string) : list verror :=
  (fun k => VError [LKey k] Missing) <$> ks.

(** A field validator reports at most one error. *)
Definition at_most_one {A} (r : vres A) : Prop := length (errors_of r) <= 1.

Class FieldOrderedErrors (S : schema_model) : Prop := {
  errors_field_order : forall d, keyed (sm_fields S) (sm_validate S (MDict d))
}.

(** ** Soundness of the field validators *)

Create HintDb contract.

Lemma validate_str_sound n m v : sound (validate_str n m v).
Proof. destruct v; simpl; repeat case_match; done. Qed.

Lemma vmap_sound {A B} (f : A -> B) r : sound r -> sound (vmap f r).
Proof. by destruct r. Qed.

Lemma after_sound {A B} (f : A -> pyres B) r :
  value_errors_only f -> sound r -> sound (after f r).
Proof.
  intros Hf Hr. destruct r as [a| |]; simpl; try done.
  destruct (f a) as [b|e] eqn:E; simpl; [done|].
  by destruct (Hf _ _ E) as [m ->].
Qed.

Lemma validate_optional_sound {A} (inner : jvalue -> vres A) v :
  (forall w, sound (inner w)) -> sound (validate_optional inner v).
Proof. intros Hi. destruct v; simpl; try done; apply vmap_sound, Hi. Qed.

Lemma email_field_sound `{EmailStrValidator} v : sound (email_field v).
Proof.
  unfold email_field. pose proof (validate_str_sound None None v) as Hs.
  destruct (validate_str None None v) as [s| |]; [|done|done].
  by destruct (validate_email s).
Qed.

Lemma role_field_sound `{RoleEnumType} v : sound (UserPublic.role_field v).
Proof. unfold UserPublic.role_field. by destruct (role_of_value v). Qed.

(** The three pattern validators raise only [ValueError]. *)
Lemma pattern_validator_value_errors p msg :
  value_errors_only (fun v => if negb (fullmatch p v) then raise_value_error msg else Ret v).
Proof. intros v e E. destruct (fullmatch p v); simpl in E; [discriminate|]. injection E as <-. eauto. Qed.

Lemma password_sound v : sound (PasswordSchema.password v).
Proof.
  apply after_sound; [apply pattern_validator_value_errors|apply validate_str_sound].
Qed.

Lemma userbody_username_sound v :
  sound (after UserBody.validate_username (username_field v)).
Proof.
  apply after_sound; [apply pattern_validator_value_errors|apply validate_str_sound].
Qed.

Lemma loginuserbody_username_sound v :
  sound (after LoginUserBody.validate_username (username_field v)).
Proof.
  apply after_sound; [apply pattern_validator_value_errors|apply validate_str_sound].
Qed.

Lemma optional_str_sound v : sound (validate_optional str_field v).
Proof. apply validate_optional_sound. intros w. apply validate_str_sound. Qed.

#[export] Hint Resolve validate_str_sound email_field_sound role_field_sound password_sound
  userbody_username_sound loginuserbody_username_sound optional_str_sound : contract.

(** ** Locations of the errors of a dict *)

Lemma vmap_dict {A B} ks (f : A -> B) r : dict_outcome ks r -> dict_outcome ks (vmap f r).
Proof. by destruct r. Qed.

Lemma vpair_dict {A B} ks (r1 : vres A) (r2 : vres B) :
  dict_outcome ks r1 -> dict_outcome ks r2 -> dict_outcome ks (vpair r1 r2).
Proof.
  destruct r1 as [|es1|], r2 as [|es2|]; simpl; try tauto.
  intros [Hn1 H1] [_ H2]. split; [by destruct es1|by apply Forall_app].
Qed.

Lemma at_loc_dict {A} ks k (r : vres A) :
  k ∈ ks -> sound r -> dict_outcome ks (at_loc (LKey k) r).
Proof.
  intros Hk Hr. destruct r as [|es|]; simpl in *; try done. split.
  - by destruct es.
  - apply Forall_forall. intros e He. apply list_elem_of_In, in_map_iff in He as (e' & <- & _).
    by exists k, (loc e').
Qed.

Lemma required_field_dict {A} ks d k (f : jvalue -> vres A) :
  k ∈ ks -> (forall v, sound (f v)) -> dict_outcome ks (required_field d k f).
Proof.
  intros Hk Hf. unfold required_field. destruct (d !! k); [by apply at_loc_dict|].
  split; [done|]. apply Forall_singleton. by exists k, [].
Qed.

Lemma optional_field_dict {A} ks d k (f : jvalue -> vres (option A)) :
  k ∈ ks -> (forall v, sound (f v)) -> dict_outcome ks (optional_field d k f).
Proof.
  intros Hk Hf. unfold optional_field. destruct (d !! k); [by apply at_loc_dict|done].
Qed.

#[export] Hint Resolve vmap_dict vpair_dict required_field_dict optional_field_dict : contract.

(** A dict validated by a schema built from fields in [ks]. *)
Ltac solve_dict :=
  repeat (apply vmap_dict || apply vpair_dict || apply required_field_dict
          || apply optional_field_dict);
  first [set_solver | intros ?; eauto with contract].

(** A schema reads nothing but its fields. *)
Ltac solve_reads :=
  let Hk := fresh "Hk" in
  intros ?d ?d' Hk; unfold required_field, optional_field; rewrite !Hk; [reflexivity|set_solver..].

(** The contract of the model [M] whose [model_validate] is [f]. *)
Ltac solve_contract M f :=
  split; unfold M; cbn [sm_validate sm_fields];
  [done|intros ?d; unfold f; solve_dict|unfold f; solve_reads].

(** ** At most one error per field, in field order *)

Lemma validate_str_one n m v : at_most_one (validate_str n m v).
Proof. unfold at_most_one. destruct v; simpl; repeat case_match; simpl; lia. Qed.

Lemma of_pyres_one {A} (r : pyres A) : at_most_one (of_pyres r).
Proof. unfold at_most_one. destruct r as [|[]]; simpl; lia. Qed.

Lemma after_one {A B} (f : A -> pyres B) r : at_most_one r -> at_most_one (after f r).
Proof. destruct r; [intros _; apply of_pyres_one|done|done]. Qed.

Lemma vmap_one {A B} (f : A -> B) r : at_most_one r -> at_most_one (vmap f r).
Proof. by destruct r. Qed.

Lemma validate_optional_one {A} (inner : jvalue -> vres A) v :
  (forall w, at_most_one (inner w)) -> at_most_one (validate_optional inner v).
Proof. intros Hi. destruct v; simpl; try (apply vmap_one, Hi); unfold at_most_one; simpl; lia. Qed.

Lemma email_field_one `{EmailStrValidator} v : at_most_one (email_field v).
Proof.
  unfold email_field. pose proof (validate_str_one None None v) as Hs.
  destruct (validate_str None None v); [|done|done].
  destruct (validate_email _); unfold at_most_one; simpl; lia.
Qed.

Lemma role_field_one `{RoleEnumType} v : at_most_one (UserPublic.role_field v).
Proof. unfold UserPublic.role_field, at_most_one. destruct (role_of_value v); simpl; lia. Qed.

#[export] Hint Resolve validate_str_one of_pyres_one after_one vmap_one validate_optional_one
  email_field_one role_field_one : contract.

Lemma vpair_errors_sublist {A B} (r1 : vres A) (r2 : vres B) :
  errors_of (vpair r1 r2) `sublist_of` errors_of r1 ++ errors_of r2.
Proof.
  destruct r1, r2; simpl; rewrite ?app_nil_r;
    auto using sublist_nil_l, sublist_inserts_l, sublist_inserts_r.
Qed.

Lemma vmap_keyed {A B} ks (f : A -> B) r : keyed ks r -> keyed ks (vmap f r).
Proof. unfold keyed. by rewrite vmap_errors. Qed.

Lemma vpair_keyed_cons {A B} k ks (r1 : vres A) (r2 : vres B) :
  keyed [k] r1 -> keyed ks r2 -> keyed (k :: ks) (vpair r1 r2).
Proof.
  unfold keyed. intros H1 H2. etrans; [apply fmap_sublist, vpair_errors_sublist|].
  rewrite fmap_app, fmap_cons. change (Some k :: (Some <$> ks)) with ([Some k] ++ (Some <$> ks)).
  by apply sublist_app.
Qed.

(** The errors of one field, each under its key. *)
Lemma at_loc_keyed {A} k (r : vres A) : at_most_one r -> keyed [k] (at_loc (LKey k) r).
Proof.
  unfold at_most_one, keyed. rewrite at_loc_errors. intros H.
  destruct (errors_of r) as [|e [|]]; simpl in *; [apply sublist_nil_l|reflexivity|lia].
Qed.

Lemma required_field_keyed {A} d k (f : jvalue -> vres A) :
  (forall v, at_most_one (f v)) -> keyed [k] (required_field d k f).
Proof. intros Hf. unfold required_field. destruct (d !! k); [by apply at_loc_keyed|unfold keyed; simpl; reflexivity]. Qed.

Lemma optional_field_keyed {A} d k (f : jvalue -> vres (option A)) :
  (forall v, at_most_one (f v)) -> keyed [k] (optional_field d k f).
Proof.
  intros Hf. unfold optional_field. destruct (d !! k); [by apply at_loc_keyed|].
  apply sublist_nil_l.
Qed.

(** The fields of a schema, each reporting at most one error. *)
Ltac solve_keyed M f :=
  split; intros ?d; unfold M; cbn [sm_validate sm_fields]; unfold f;
  repeat (apply vmap_keyed || apply vpair_keyed_cons);
  first [apply required_field_keyed | apply optional_field_keyed]; intros ?; eauto 10 with contract.

(** ** What the contract gives *)

Section ContractTheory.
Context (S : schema_model) `{!SchemaContract S}.

(** A schema that meets the contract refines the outcome of the spec on
    every input. *)
Lemma contract_refines inp : spec_refines (sm_fields S) (sm_validate S inp).
Proof.
  destruct inp as [d|v].
  - pose proof (contract_dict d) as H. destruct (sm_validate S (MDict d)); simpl in *; tauto.
  - rewrite contract_non_dict. by left.
Qed.

Lemma contract_ignores_other_keys d k v :
  k ∉ sm_fields S -> sm_validate S (MDict (<[k := v]> d)) = sm_validate S (MDict d).
Proof.
  intros Hk. apply contract_reads_fields. intros k' Hk'.
  rewrite lookup_insert_ne; [done|]. intros ->. contradiction.
Qed.
End ContractTheory.

Section FieldOrderTheory.
Context (S : schema_model) `{!FieldOrderedErrors S}.

Lemma keyed_length {A} ks (r : vres A) : keyed ks r -> length (errors_of r) <= length ks.
Proof. unfold keyed. intros H%sublist_length. by rewrite !length_fmap in H. Qed.

(** A schema whose errors follow its fields reports at most one error
    per field. *)
Lemma field_order_error_count d : field_order_bounded (sm_fields S) (sm_validate S (MDict d)).
Proof. pose proof (errors_field_order d). split; [done|by apply keyed_length]. Qed.
End FieldOrderTheory.

(** ** The schemas meet the contract *)

Section Instances.
Context `{RoleEnumType} `{EmailStrValidator}.

#[export] Instance userschema_contract : SchemaContract userschema_model.
Proof. solve_contract @userschema_model @UserSchema.model_validate. Qed.

#[export] Instance userbody_contract : SchemaContract userbody_model.
Proof. solve_contract @userbody_model @UserBody.model_validate. Qed.

#[export] Instance loginuserbody_contract : SchemaContract loginuserbody_model.
Proof. solve_contract @loginuserbody_model @LoginUserBody.model_validate. Qed.

#[export] Instance userpublic_contract : SchemaContract userpublic_model.
Proof. solve_contract @userpublic_model @UserPublic.model_validate. Qed.

#[export] Instance callbackgooglebody_contract : SchemaContract callbackgooglebody_model.
Proof. solve_contract @callbackgooglebody_model @CallbackGoogleBody.model_validate. Qed.

#[export] Instance callbackgooglepublic_contract : SchemaContract callbackgooglepublic_model.
Proof. solve_contract @callbackgooglepublic_model @CallbackGooglePublic.model_validate. Qed.

#[export] Instance loginuserpublic_contract : SchemaContract loginuserpublic_model.
Proof. solve_contract @loginuserpublic_model @LoginUserPublic.model_validate. Qed.

#[export] Instance logoutuserpublic_contract : SchemaContract logoutuserpublic_model.
Proof. solve_contract @logoutuserpublic_model @LogoutUserPublic.model_validate. Qed.

#[export] Instance refreshpublic_contract : SchemaContract refreshpublic_model.
Proof. solve_contract @refreshpublic_model @RefreshPublic.model_validate. Qed.

#[export] Instance userschema_field_order : FieldOrderedErrors userschema_model.
Proof. solve_keyed @userschema_model @UserSchema.model_validate. Qed.

#[export] Instance userbody_field_order : FieldOrderedErrors userbody_model.
Proof. solve_keyed @userbody_model @UserBody.model_validate. Qed.

#[export] Instance loginuserbody_field_order : FieldOrderedErrors loginuserbody_model.
Proof. solve_keyed @loginuserbody_model @LoginUserBody.model_validate. Qed.

#[export] Instance userpublic_field_order : FieldOrderedErrors userpublic_model.
Proof. solve_keyed @userpublic_model @UserPublic.model_validate. Qed.

#[export] Instance callbackgooglebody_field_order : FieldOrderedErrors callbackgooglebody_model.
Proof. solve_keyed @callbackgooglebody_model @CallbackGoogleBody.model_validate. Qed.

#[export] Instance callbackgooglepublic_field_order : FieldOrderedErrors callbackgooglepublic_model.
Proof. solve_keyed @callbackgooglepublic_model @CallbackGooglePublic.model_validate. Qed.

#[export] Instance loginuserpublic_field_order : FieldOrderedErrors loginuserpublic_model.
Proof. solve_keyed @loginuserpublic_model @LoginUserPublic.model_validate. Qed.

#[export] Instance logoutuserpublic_field_order : FieldOrderedErrors logoutuserpublic_model.
Proof. solve_keyed @logoutuserpublic_model @LogoutUserPublic.model_validate. Qed.

#[export] Instance refreshpublic_field_order : FieldOrderedErrors refreshpublic_model.
Proof. solve_keyed @refreshpublic_model @RefreshPublic.model_validate. Qed.
End Instances.

(** ** The schemas refine the spec; the update body does not *)

Section Refinement.
Context `{RoleEnumType} `{EmailStrValidator} `{PhoneNumberChecker}.

(** C19. Every schema of the file but [UsersPublic] and [UpdateUserBody]
    refines the outcome of section 7 of the spec on every input: it
    returns the validated value or a [ValidationError], never an escaping
    exception, and the errors are either the one [model_type] error of a
    body that is not an object or a non-empty list of errors each located
    under one of the schema's own fields. *)
Theorem schemas_refine_spec inp :
  spec_refines ["username"; "email"]%string (UserSchema.model_validate inp) /\
  spec_refines ["password"; "username"; "email"]%string (UserBody.model_validate inp) /\
  spec_refines ["password"; "username"; "email"]%string (LoginUserBody.model_validate inp) /\
  spec_refines ["username"; "email"; "role"; "phoneNumber"]%string (UserPublic.model_validate inp) /\
  spec_refines ["code"]%string (CallbackGoogleBody.model_validate inp) /\
  spec_refines ["username"; "email"]%string (CallbackGooglePublic.model_validate inp) /\
  spec_refines ["username"; "email"]%string (LoginUserPublic.model_validate inp) /\
  spec_refines ["message"]%string (LogoutUserPublic.model_validate inp) /\
  spec_refines ["accessToken"]%string (RefreshPublic.model_validate inp).
Proof.
  repeat split;
    [exact (contract_refines userschema_model inp)|exact (contract_refines userbody_model inp)
    |exact (contract_refines loginuserbody_model inp)|exact (contract_refines userpublic_model inp)
    |exact (contract_refines callbackgooglebody_model inp)
    |exact (contract_refines callbackgooglepublic_model inp)
    |exact (contract_refines loginuserpublic_model inp)
    |exact (contract_refines logoutuserpublic_model inp)
    |exact (contract_refines refreshpublic_model inp)].
Qed.

(** C23. Each schema of the file but [UsersPublic] and [UpdateUserBody]
    reports at most one error per field of a dict, under that field's
    key, in the order of the fields: the fields of the error locations
    form an ordered sublist of the schema's fields, so a payload gets at
    most as many errors as the schema has fields (3 for the
    registration and login bodies, 4 for [UserPublic]).  Each field
    stops at its first failing check: the [str] type, the length, then
    the validator. *)
Theorem schemas_errors_per_field d :
  field_order_bounded ["username"; "email"]%string (UserSchema.model_validate (MDict d)) /\
  field_order_bounded ["password"; "username"; "email"]%string (UserBody.model_validate (MDict d)) /\
  field_order_bounded ["password"; "username"; "email"]%string
    (LoginUserBody.model_validate (MDict d)) /\
  field_order_bounded ["username"; "email"; "role"; "phoneNumber"]%string
    (UserPublic.model_validate (MDict d)) /\
  field_order_bounded ["code"]%string (CallbackGoogleBody.model_validate (MDict d)) /\
  field_order_bounded ["username"; "email"]%string (CallbackGooglePublic.model_validate (MDict d)) /\
  field_order_bounded ["username"; "email"]%string (LoginUserPublic.model_validate (MDict d)) /\
  field_order_bounded ["message"]%string (LogoutUserPublic.model_validate (MDict d)) /\
  field_order_bounded ["accessToken"]%string (RefreshPublic.model_validate (MDict d)).
Proof.
  split_and!;
    [exact (field_order_error_count userschema_model d)
    |exact (field_order_error_count userbody_model d)
    |exact (field_order_error_count loginuserbody_model d)
    |exact (field_order_error_count userpublic_model d)
    |exact (field_order_error_count callbackgooglebody_model d)
    |exact (field_order_error_count callbackgooglepublic_model d)
    |exact (field_order_error_count loginuserpublic_model d)
    |exact (field_order_error_count logoutuserpublic_model d)
    |exact (field_order_error_count refreshpublic_model d)].
Qed.

(** C17. The order of the fields written into each [model_validate] is
    the order pydantic computes from the class statements: for every dict
    that lacks all the fields [model_fields] finds for the class (its
    MRO, then the annotations over the reversed MRO), validation reports
    exactly one [missing] error per field, in that order.  For
    [UserBody] and [LoginUserBody] this is [password] first, inherited
    from [PasswordSchema], the second base. *)
Theorem schema_field_orders d :
  (forall ks, model_fields UserBody = Some ks -> (forall k, k ∈ ks -> d !! k = None) ->
     errors_of (UserBody.model_validate (MDict d)) = missing_all ks) /\
  (forall ks, model_fields LoginUserBody = Some ks -> (forall k, k ∈ ks -> d !! k = None) ->
     errors_of (LoginUserBody.model_validate (MDict d)) = missing_all ks) /\
  (forall ks, model_fields UserSchema = Some ks -> (forall k, k ∈ ks -> d !! k = None) ->
     errors_of (UserSchema.model_validate (MDict d)) = missing_all ks) /\
  (forall ks, model_fields CallbackGooglePublic = Some ks -> (forall k, k ∈ ks -> d !! k = None) ->
     errors_of (CallbackGooglePublic.model_validate (MDict d)) = missing_all ks) /\
  (forall ks, model_fields LoginUserPublic = Some ks -> (forall k, k ∈ ks -> d !! k = None) ->
     errors_of (LoginUserPublic.model_validate (MDict d)) = missing_all ks).
Proof.
  split_and!; intros ks Hks Hd; vm_compute in Hks; injection Hks as <-;
    cbn [UserBody.model_validate LoginUserBody.model_validate UserSchema.model_validate
         CallbackGooglePublic.model_validate LoginUserPublic.model_validate];
    unfold required_field; rewrite !Hd by set_solver; reflexivity.
Qed.

(** C25. [UpdateUserBody] keeps the bound of C23 once its model
    validator lets a dict through: its four fields report at most one
    error each, under their keys, in the order [email], [username],
    [password], [phoneNumber]; and whatever the input, the body gets at
    most four errors (the single root error of [at_least_one_field], or
    the errors of the fields). *)
Theorem update_errors_per_field inp d :
  keyed update_fields (UpdateUserBody.validate_fields d) /\
  length (errors_of (UpdateUserBody.model_validate inp)) <= length update_fields.
Proof.
  assert (forall d', keyed update_fields (UpdateUserBody.validate_fields d')) as Hk.
  { intros d'. unfold UpdateUserBody.validate_fields, update_fields.
    repeat (apply vmap_keyed || apply vpair_keyed_cons);
      first [apply required_field_keyed | apply optional_field_keyed]; intros ?;
      unfold str_field; eauto 10 with contract. }
  split; [apply Hk|]. destruct inp as [d'|v]; [|simpl; lia].
  rewrite update_model_validate_dict. destruct (any_field_given d'); [|simpl; lia].
  apply keyed_length, Hk.
Qed.

End Refinement.

Lemma schema_field_orders_witness :
  errors_of (@UserBody.model_validate Sample.email (MDict ∅)) =
  missing_all ["password"; "username"; "email"]%string.
Proof.
  exact (proj1 (@schema_field_orders Sample.email ∅) _ ltac:(vm_compute; reflexivity)
           (fun k _ => lookup_empty k)).
Defined.
