(* ===== verification/Dumps.v ===== *)
(** * Dumps: [model_dump] and validation again

    A response model is validated when the handler builds it and then
    serialised with [model_dump(mode="json")]; a request model that is
    forwarded is dumped the same way.  This file proves that what the
    schemas accept is a fixed point of the round trip: the JSON dump of a
    validated value validates back to that very value.

    The proof is built from the fields up, in the style of serializer
    combinators:
    - [revalidates f enc]: the field validator [f] accepts the JSON
      form [enc a] of each value [a] it produces, and gives [a] back;
    - one lemma per kind of field ([str] with lengths, [EmailStr], the
      pattern validators, [RoleEnum], [Optional[str]]);
    - [required_field_back] and [optional_field_back] carry a field's
      law to a dict that holds the field's JSON form;
    - [DumpRoundtrip S dump] is the law for a whole schema, with one
      instance per schema, each discharged by [solve_roundtrip]. *)

From S2P Require Import Prelude Chars Regex Patterns Pydantic Collaborators Schemas UpdateUser Contracts.

(** ** Fields *)

(** [f] takes the JSON form of each value it yields back to that value. *)
Definition revalidates {A} (f : jvalue -> vres A) (enc : A -> jvalue) : Prop :=
  forall v a, f v = VOk a -> f (enc a) = VOk a.

(** A validator that only keeps or refuses: what it yields is its input,
    like the three [re.fullmatch] validators. *)
Definition filter_only {A} (g : A -> pyres A) : Prop :=
  forall a b, g a = Ret b -> b = a.

(** ** The law of a schema *)

Class DumpRoundtrip (S : schema_model) (dump : sm_t S -> gmap string jvalue) : Prop := {
  dump_roundtrip : forall inp x, sm_validate S inp = VOk x -> sm_validate S (MDict (dump x)) = VOk x
}.

(** ** Field lemmas *)

Create HintDb roundtrip.

(** A validator whose values are their own JSON input. *)
Lemma revalidates_echo {A} (f : jvalue -> vres A) enc :
  (forall v a, f v = VOk a -> v = enc a) -> revalidates f enc.
Proof. intros Hf v a Ha. by rewrite <- (Hf _ _ Ha). Qed.

Lemma validate_str_revalidates n m : revalidates (validate_str n m) JStr.
Proof.
  apply revalidates_echo. intros [] a; simpl; repeat case_match; naive_solver.
Qed.

Lemma after_filter_revalidates {A} (g : A -> pyres A) f enc :
  filter_only g -> revalidates f enc -> revalidates (fun v => after g (f v)) enc.
Proof.
  intros Hg Hf v b (a & Ha & Hga)%after_ok. pose proof (Hg _ _ Hga) as ->.
  apply after_ok. eauto.
Qed.

Lemma pattern_filter_only p msg :
  filter_only (fun v => if negb (fullmatch p v) then raise_value_error msg else Ret v).
Proof. intros a b. destruct (fullmatch p a); simpl; [by intros [= <-]|discriminate]. Qed.

Lemma email_field_revalidates `{EmailStrValidator} : revalidates email_field JStr.
Proof.
  intros v n (e & -> & He)%email_field_ok. apply email_field_ok.
  eauto using validate_email_normalized.
Qed.

Lemma role_field_revalidates `{RoleEnumType} : revalidates UserPublic.role_field role_value.
Proof. intros v r _. unfold UserPublic.role_field. by rewrite role_of_value_value. Qed.

Lemma validate_optional_revalidates (inner : jvalue -> vres ustr) :
  revalidates inner JStr -> revalidates (validate_optional inner) opt_json.
Proof.
  intros Hi v o [[-> ->]|(_ & a & Ha & ->)]%validate_optional_ok; [done|].
  apply validate_optional_ok. right. split; [done|]. eauto.
Qed.

Lemma password_revalidates : revalidates PasswordSchema.password JStr.
Proof.
  apply after_filter_revalidates; [apply pattern_filter_only|apply validate_str_revalidates].
Qed.

Lemma userbody_username_revalidates :
  revalidates (fun v => after UserBody.validate_username (username_field v)) JStr.
Proof.
  apply after_filter_revalidates; [apply pattern_filter_only|apply validate_str_revalidates].
Qed.

Lemma loginuserbody_username_revalidates :
  revalidates (fun v => after LoginUserBody.validate_username (username_field v)) JStr.
Proof.
  apply after_filter_revalidates; [apply pattern_filter_only|apply validate_str_revalidates].
Qed.

(** A validator of an optional value that maps each value to one it
    keeps, like [validate_phone_number] when [check_phone_number]
    returns a canonical form it accepts. *)
Lemma after_idem_revalidates {A} (g : A -> pyres A) f enc :
  (forall a, f (enc a) = VOk a) -> (forall a b, g a = Ret b -> g b = Ret b) ->
  revalidates (fun v => after g (f v)) enc.
Proof.
  intros Hf Hg v b (a & _ & Hga)%after_ok. apply after_ok. eauto.
Qed.

Lemma update_validate_username_filter : filter_only UpdateUserBody.validate_username.
Proof.
  intros [s|] b; simpl; [destruct (fullmatch USERNAME_PATTERN s); simpl; [by intros [= <-]|discriminate]|].
  by intros [= <-].
Qed.

Lemma update_validate_password_filter : filter_only UpdateUserBody.validate_password.
Proof.
  intros [s|] b; simpl; [destruct (fullmatch PASSWORD_PATTERN s); simpl; [by intros [= <-]|discriminate]|].
  by intros [= <-].
Qed.

Lemma optional_str_total o : validate_optional str_field (opt_json o) = VOk o.
Proof. by destruct o. Qed.

#[export] Hint Resolve validate_str_revalidates email_field_revalidates role_field_revalidates
  password_revalidates userbody_username_revalidates loginuserbody_username_revalidates
  validate_optional_revalidates after_filter_revalidates update_validate_username_filter
  update_validate_password_filter : roundtrip.

(** ** Fields of a dict *)

Lemma required_field_back {A} (f : jvalue -> vres A) enc d d' k a :
  revalidates f enc -> required_field d k f = VOk a -> d' !! k = Some (enc a) ->
  required_field d' k f = VOk a.
Proof.
  intros Hf (v & _ & Hv)%required_field_ok Hk. apply required_field_ok. eauto.
Qed.

(** An optional field is dumped as [null] when it is [None]. *)
Lemma optional_field_back {A} (f : jvalue -> vres (option A)) enc d d' k o :
  revalidates f enc -> f (enc None) = VOk None ->
  optional_field d k f = VOk o -> d' !! k = Some (enc o) ->
  optional_field d' k f = VOk o.
Proof.
  intros Hf Hn Ho Hk. apply optional_field_ok. right. exists (enc o). split; [done|].
  apply optional_field_ok in Ho as [[_ ->]|(v & _ & Hv)]; eauto.
Qed.

Lemma vmap_ok_intro {A B} (f : A -> B) r a b : r = VOk a -> f a = b -> vmap f r = VOk b.
Proof. by intros -> <-. Qed.

Lemma vpair_ok_intro {A B} (r1 : vres A) (r2 : vres B) a b :
  r1 = VOk a -> r2 = VOk b -> vpair r1 r2 = VOk (a, b).
Proof. by intros -> ->. Qed.

(** Split a validated dict into its fields, then rebuild the validation
    of the dump field by field. *)
Ltac split_ok :=
  repeat match goal with
  | H : vmap _ _ = VOk _ |- _ => apply vmap_ok in H as (? & H & ->)
  | H : vpair _ _ = VOk ?a |- _ => destruct a; apply vpair_ok in H as [? H]
  end.

Ltac rebuild_field :=
  first [ eapply required_field_back; [eauto with roundtrip|eassumption|reflexivity]
        | eapply optional_field_back; [eauto with roundtrip|reflexivity|eassumption|reflexivity] ].

Ltac rebuild_ok :=
  eapply vmap_ok_intro; [repeat eapply vpair_ok_intro; rebuild_field|reflexivity].

Ltac solve_roundtrip M f :=
  split; unfold M; cbn [sm_validate sm_t]; intros [?d|?v] ?x Hx; [|discriminate];
  unfold f in Hx |- *; cbv beta iota in Hx |- *; split_ok; rebuild_ok.

(** ** The schemas meet the law *)

Section Instances.
Context `{RoleEnumType} `{EmailStrValidator}.

#[export] Instance userschema_roundtrip : DumpRoundtrip userschema_model UserSchema.model_dump.
Proof. solve_roundtrip @userschema_model @UserSchema.model_validate. Qed.

#[export] Instance userbody_roundtrip : DumpRoundtrip userbody_model UserBody.model_dump.
Proof. solve_roundtrip @userbody_model @UserBody.model_validate. Qed.

#[export] Instance loginuserbody_roundtrip : DumpRoundtrip loginuserbody_model LoginUserBody.model_dump.
Proof. solve_roundtrip @loginuserbody_model @LoginUserBody.model_validate. Qed.

#[export] Instance userpublic_roundtrip : DumpRoundtrip userpublic_model UserPublic.model_dump.
Proof. solve_roundtrip @userpublic_model @UserPublic.model_validate. Qed.

#[export] Instance callbackgooglebody_roundtrip : DumpRoundtrip callbackgooglebody_model CallbackGoogleBody.model_dump.
Proof. solve_roundtrip @callbackgooglebody_model @CallbackGoogleBody.model_validate. Qed.

#[export] Instance callbackgooglepublic_roundtrip : DumpRoundtrip callbackgooglepublic_model CallbackGooglePublic.model_dump.
Proof. solve_roundtrip @callbackgooglepublic_model @CallbackGooglePublic.model_validate. Qed.

#[export] Instance loginuserpublic_roundtrip : DumpRoundtrip loginuserpublic_model LoginUserPublic.model_dump.
Proof. solve_roundtrip @loginuserpublic_model @LoginUserPublic.model_validate. Qed.

#[export] Instance logoutuserpublic_roundtrip : DumpRoundtrip logoutuserpublic_model LogoutUserPublic.model_dump.
Proof. solve_roundtrip @logoutuserpublic_model @LogoutUserPublic.model_validate. Qed.

#[export] Instance refreshpublic_roundtrip : DumpRoundtrip refreshpublic_model RefreshPublic.model_dump.
Proof. solve_roundtrip @refreshpublic_model @RefreshPublic.model_validate. Qed.
End Instances.

(** ** The update body *)

Section UpdateRoundtrip.
Context `{EmailStrValidator} `{PhoneNumberChecker}.

(** The dump holds, under each of the three keys, the field's value. *)
Lemma update_dump_any_field b :
  any_field_given (UpdateUserBody.model_dump b) = true <->
  truthy (opt_json (UpdateUserBody.username b)) = true \/
  truthy (opt_json (UpdateUserBody.password b)) = true \/
  truthy (opt_json (UpdateUserBody.phoneNumber b)) = true.
Proof. unfold any_field_given. simpl. by rewrite orb_false_r, !orb_true_iff. Qed.

(** A truthy string under [k] becomes a truthy field when the field's
    checks [R] keep strings non-empty. *)
Lemma opt_str_ok_truthy_json d k (R : ustr -> ustr -> Prop) o w :
  (forall s p, R s p -> s <> [] -> p <> []) ->
  d !! k = Some w -> truthy w = true -> opt_str_ok d k R o -> truthy (opt_json o) = true.
Proof.
  intros HR Ew Ht. unfold opt_str_ok. rewrite Ew.
  destruct w as [| | |s| |]; simpl in Ht; try done. intros (p & -> & Hp).
  destruct p as [|c p]; [|done]. exfalso. apply (HR s [] Hp); [|done].
  by intros ->.
Qed.

Section Phone.
Hypothesis phone_canonical : forall v p,
  check_phone_number v = Ret p -> check_phone_number p = Ret p /\ p <> [].

Lemma update_phone_revalidates :
  revalidates (fun v => after UpdateUserBody.validate_phone_number (validate_optional str_field v))
    opt_json.
Proof.
  apply after_idem_revalidates; [apply optional_str_total|].
  intros [s|] b; simpl; [|by intros [= <-]]. destruct (check_phone_number s) as [p|] eqn:E; [|discriminate].
  intros [= <-]. simpl. by rewrite (proj1 (phone_canonical _ _ E)).
Qed.

#[local] Hint Resolve update_phone_revalidates : roundtrip.

Lemma update_validate_fields_roundtrip d b :
  UpdateUserBody.validate_fields d = VOk b ->
  UpdateUserBody.validate_fields (UpdateUserBody.model_dump b) = VOk b.
Proof. unfold UpdateUserBody.validate_fields. intros Hx. split_ok. rebuild_ok. Qed.

(** The field that let a validated body past [at_least_one_field] is
    still truthy in its dump. *)
Lemma update_dump_field_given d b :
  any_field_given d = true -> UpdateUserBody.validate_fields d = VOk b ->
  any_field_given (UpdateUserBody.model_dump b) = true.
Proof.
  intros (k & w & Hk & Ew & Ht)%any_field_given_true (_ & Hu & Hp & Hph)%validate_fields_ok_inv.
  apply update_dump_any_field. apply list_elem_of_In in Hk.
  destruct Hk as [<-|[<-|[<-|[]]]].
  - left. eapply opt_str_ok_truthy_json; [|exact Ew|exact Ht|exact Hu].
    by intros s p (_ & _ & ->).
  - right; left. eapply opt_str_ok_truthy_json; [|exact Ew|exact Ht|exact Hp].
    by intros s p (_ & ->).
  - right; right. eapply opt_str_ok_truthy_json; [|exact Ew|exact Ht|exact Hph].
    intros s p Hsp _. exact (proj2 (phone_canonical _ _ Hsp)).
Qed.
End Phone.
End UpdateRoundtrip.

(** ** Round trips *)

Section Roundtrips.
Context `{RoleEnumType} `{EmailStrValidator} `{PhoneNumberChecker}.

(** C21. For every schema of the file that meets the contract of
    [Contracts], what validation produces is a fixed point of
    [model_dump(mode="json")] followed by validation: the dump of a
    validated value validates back to the same value.  The length
    constraints and patterns hold again because the values are the
    accepted strings; the email is already normalised; a role is dumped
    as its value and read back as its member; a missing phone number is
    dumped as [null]. *)
Theorem schemas_dump_roundtrip inp :
  (forall x, UserSchema.model_validate inp = VOk x ->
     UserSchema.model_validate (MDict (UserSchema.model_dump x)) = VOk x) /\
  (forall x, UserBody.model_validate inp = VOk x ->
     UserBody.model_validate (MDict (UserBody.model_dump x)) = VOk x) /\
  (forall x, LoginUserBody.model_validate inp = VOk x ->
     LoginUserBody.model_validate (MDict (LoginUserBody.model_dump x)) = VOk x) /\
  (forall x, UserPublic.model_validate inp = VOk x ->
     UserPublic.model_validate (MDict (UserPublic.model_dump x)) = VOk x) /\
  (forall x, CallbackGoogleBody.model_validate inp = VOk x ->
     CallbackGoogleBody.model_validate (MDict (CallbackGoogleBody.model_dump x)) = VOk x) /\
  (forall x, CallbackGooglePublic.model_validate inp = VOk x ->
     CallbackGooglePublic.model_validate (MDict (CallbackGooglePublic.model_dump x)) = VOk x) /\
  (forall x, LoginUserPublic.model_validate inp = VOk x ->
     LoginUserPublic.model_validate (MDict (LoginUserPublic.model_dump x)) = VOk x) /\
  (forall x, LogoutUserPublic.model_validate inp = VOk x ->
     LogoutUserPublic.model_validate (MDict (LogoutUserPublic.model_dump x)) = VOk x) /\
  (forall x, RefreshPublic.model_validate inp = VOk x ->
     RefreshPublic.model_validate (MDict (RefreshPublic.model_dump x)) = VOk x).
Proof.
  repeat split;
    [exact (dump_roundtrip (S := userschema_model) inp)
    |exact (dump_roundtrip (S := userbody_model) inp)
    |exact (dump_roundtrip (S := loginuserbody_model) inp)
    |exact (dump_roundtrip (S := userpublic_model) inp)
    |exact (dump_roundtrip (S := callbackgooglebody_model) inp)
    |exact (dump_roundtrip (S := callbackgooglepublic_model) inp)
    |exact (dump_roundtrip (S := loginuserpublic_model) inp)
    |exact (dump_roundtrip (S := logoutuserpublic_model) inp)
    |exact (dump_roundtrip (S := refreshpublic_model) inp)].
Qed.

(** C22. The update body is a fixed point of the round trip too, when
    [check_phone_number] returns a non-empty canonical form that it
    accepts unchanged: each field re-validates, and the dump passes
    [at_least_one_field] again because the value that let the body
    through is a non-empty string in the dump (a username has at least 2
    code points, a password at least 8).  [None] fields are dumped as
    [null], which the three validators let through. *)
Theorem update_dump_roundtrip inp b :
  (forall v p, check_phone_number v = Ret p -> check_phone_number p = Ret p /\ p <> []) ->
  UpdateUserBody.model_validate inp = VOk b ->
  UpdateUserBody.model_validate (MDict (UpdateUserBody.model_dump b)) = VOk b.
Proof.
  intros Hph Hb. destruct inp as [d|v]; [|discriminate].
  rewrite update_model_validate_dict in Hb |- *.
  destruct (any_field_given d) eqn:Ea; [|discriminate].
  rewrite (update_dump_field_given Hph d b Ea Hb). exact (update_validate_fields_roundtrip Hph d b Hb).
Qed.
End Roundtrips.

(** ** Witnesses, with the sample collaborators *)

Lemma schemas_dump_roundtrip_witness :
  @UserBody.model_validate Sample.email
    (MDict (UserBody.model_dump {| UserBody.password := py "Abcdef1!";
                                   UserBody.username := py "mister_business";
                                   UserBody.email := py "a@example.com" |}))%string =
  VOk {| UserBody.password := py "Abcdef1!"; UserBody.username := py "mister_business";
         UserBody.email := py "a@example.com" |}.
Proof.
  exact (proj1 (proj2 (@schemas_dump_roundtrip Sample.roles Sample.email
    (MDict (dict_of [("username", JStr (py "mister_business"));
                     ("email", JStr (py "a@example.com")); ("password", JStr (py "Abcdef1!"))]%string))))
    _ ltac:(vm_compute; reflexivity)).
Defined.

(** The sample checker returns its input, which starts with [+]. *)
Lemma update_dump_roundtrip_witness :
  @UpdateUserBody.model_validate Sample.email Sample.phone
    (MDict (UpdateUserBody.model_dump
      {| UpdateUserBody.email := py "a@example.com"; UpdateUserBody.username := None;
         UpdateUserBody.password := None;
         UpdateUserBody.phoneNumber := Some (py "+380999999999") |}))%string =
  VOk {| UpdateUserBody.email := py "a@example.com"; UpdateUserBody.username := None;
         UpdateUserBody.password := None; UpdateUserBody.phoneNumber := Some (py "+380999999999") |}.
Proof.
  apply (@update_dump_roundtrip Sample.email Sample.phone
    (MDict (dict_of [("email", JStr (py "a@example.com"));
                     ("phoneNumber", JStr (py "+380999999999"))]%string))).
  - intros [|c ds] p E; [discriminate|]. simpl in E |- *.
    destruct (_ && _) eqn:C; [|discriminate]. injection E as <-. by rewrite C.
  - vm_compute. reflexivity.
Defined.
